(** * financial-tool: a shallow embedding of the agent pipeline

    The development follows the Python sources module by module:

    - [PyDict]            insertion-ordered dictionaries (Python [dict]);
    - [PyStr]             the [str] methods the coordinator uses;
    - [AnalysisAgent]     [agents/analysis_agent.py];
    - [APIAgent]          [agents/api_agent.py];
    - [ScrapingAgent]     [agents/scraping_agent.py];
    - [RetrieverAgent]    [agents/retriever_agent.py];
    - [VoiceAgent]        [agents/voice_agent.py];
    - [AgentCoordinator]  [orchestrator/agent_coordinator.py].

    Exceptions are values of [exn] carried by the [result] monad.  External
    libraries (Gemini, yfinance, requests, sentence-transformers, gTTS) are
    collaborators: functions returning a [result], passed in explicitly.

    Floating-point code is written once over an arithmetic interface
    [Arith]; it is instantiated with exact rationals ([exact]) for the
    statements made in exact arithmetic and with IEEE binary64
    ([binary64]) where NaN matters. *)

From Stdlib Require Import ZArith QArith Qfield List String Ascii Bool Lia Lra.
From Stdlib Require Import DecimalString Sorted Permutation.
From Stdlib Require Import PrimFloat Uint63.
Import ListNotations.

Set Implicit Arguments.

(** ** Exceptions and the result monad *)

Inductive exn : Type :=
| ValueError (msg : string)
| IndexError
| ZeroDivisionError
| AssertionError
| KeyError (key : string)
| TypeError (msg : string)
| ExternalError (msg : string).

(** [str(e)] *)
Definition exn_str (e : exn) : string :=
  match e with
  | ValueError msg | TypeError msg | ExternalError msg => msg
  | KeyError key => key
  | IndexError => "list index out of range"
  | ZeroDivisionError => "division by zero"
  | AssertionError => ""
  end.

Inductive result (A : Type) : Type :=
| Ok (a : A)
| Raise (e : exn).

Arguments Ok {A} a.
Arguments Raise {A} e.

Definition bind {A B : Type} (c : result A) (k : A -> result B) : result B :=
  match c with
  | Ok a => k a
  | Raise e => Raise e
  end.

Notation "x <- c ;; k" := (bind c (fun x => k))
  (at level 61, c at next level, right associativity).

(** A list comprehension whose element expression may raise. *)
Fixpoint map_result {X Y : Type} (f : X -> result Y) (l : list X)
  : result (list Y) :=
  match l with
  | [] => Ok []
  | x :: l' => y <- f x ;; ys <- map_result f l' ;; Ok (y :: ys)
  end.

(** [try: c except Exception: h] *)
Definition try_except {A : Type} (c : result A) (h : exn -> A) : A :=
  match c with
  | Ok a => a
  | Raise e => h e
  end.

(** ** Arithmetic interface for Python/NumPy floats *)

Class Arith (F : Type) : Type := {
  of_int : Z -> F;            (* float(n) *)
  fadd : F -> F -> F;
  fsub : F -> F -> F;
  fmul : F -> F -> F;
  fdiv : F -> F -> F;         (* NumPy true division: no exception *)
  fneg : F -> F;
  flt : F -> F -> bool;       (* a < b *)
  fle : F -> F -> bool;       (* a <= b *)
  truthy : F -> bool;         (* bool(x), i.e. x != 0 *)
  fstr : F -> string;         (* str(x) *)
  np_log : F -> F;
  np_std : list F -> F
}.

(** Exact rational arithmetic.  [Qdiv] returns 0 on a zero divisor, so this
    instance is used only where the code guards its divisions. *)
Definition exact (log : Q -> Q) (std : list Q -> Q) (str : Q -> string)
  : Arith Q := {|
  of_int := inject_Z;
  fadd := Qplus;
  fsub := Qminus;
  fmul := Qmult;
  fdiv := Qdiv;
  fneg := Qopp;
  flt := fun a b => negb (Qle_bool b a);
  fle := Qle_bool;
  truthy := fun a => negb (Qeq_bool a 0);
  fstr := str;
  np_log := log;
  np_std := std
|}.

(** IEEE 754 binary64, the arithmetic of Python [float] and [np.float64]. *)
Definition float_of_int (z : Z) : float :=
  if (z <? 0)%Z
  then PrimFloat.opp (PrimFloat.of_uint63 (Uint63.of_Z (- z)))
  else PrimFloat.of_uint63 (Uint63.of_Z z).

Definition binary64 (log : float -> float) (std : list float -> float)
  (str : float -> string) : Arith float := {|
  of_int := float_of_int;
  fadd := PrimFloat.add;
  fsub := PrimFloat.sub;
  fmul := PrimFloat.mul;
  fdiv := PrimFloat.div;
  fneg := PrimFloat.opp;
  flt := PrimFloat.ltb;
  fle := PrimFloat.leb;
  truthy := fun a => negb (PrimFloat.eqb a PrimFloat.zero);
  fstr := str;
  np_log := log;
  np_std := std
|}.

(** ** Python dictionaries: insertion-ordered association lists *)

Module PyDict.
Section Dict.
Variable V : Type.

Definition dict : Type := list (string * V).

Fixpoint get (d : dict) (k : string) : option V :=
  match d with
  | [] => None
  | (k', v) :: d' => if String.eqb k' k then Some v else get d' k
  end.

(** [k in d] *)
Definition contains (d : dict) (k : string) : bool :=
  match get d k with Some _ => true | None => false end.

(** [d[k] = v]: an existing key keeps its position, a new key goes last. *)
Fixpoint set (d : dict) (k : string) (v : V) : dict :=
  match d with
  | [] => [(k, v)]
  | (k', v') :: d' =>
      if String.eqb k' k then (k, v) :: d' else (k', v') :: set d' k v
  end.

Definition keys (d : dict) : list string := map fst d.
Definition values (d : dict) : list V := map snd d.
Definition items (d : dict) : list (string * V) := d.
Definition len (d : dict) : nat := List.length d.

(** [d.get(k, default)] *)
Definition get_default (d : dict) (k : string) (default : V) : V :=
  match get d k with Some v => v | None => default end.
End Dict.

(** The key order a sequence of insertions produces: each key once, at the
    place of its first insertion. *)
Definition insert_key (ks : list string) (k : string) : list string :=
  if existsb (String.eqb k) ks then ks else ks ++ [k].

Definition distinct (l : list string) : list string :=
  fold_left insert_key l [].

End PyDict.

(** ** Python [str] methods, on ASCII text *)

Module PyStr.

(** [str.isspace] on ASCII: TAB, LF, VT, FF, CR, FS, GS, RS, US, space. *)
Definition isspace (c : ascii) : bool :=
  let n := nat_of_ascii c in
  ((9 <=? n) && (n <=? 13)) || ((28 <=? n) && (n <=? 32)).

Fixpoint lstrip_chars (l : list ascii) : list ascii :=
  match l with
  | [] => []
  | c :: l' => if isspace c then lstrip_chars l' else l
  end.

(** [s.strip()] *)
Definition strip (s : string) : string :=
  string_of_list_ascii
    (rev (lstrip_chars (rev (lstrip_chars (list_ascii_of_string s))))).

Definition upper_char (c : ascii) : ascii :=
  let n := nat_of_ascii c in
  if (97 <=? n) && (n <=? 122) then ascii_of_nat (n - 32) else c.

(** [s.upper()] *)
Fixpoint upper (s : string) : string :=
  match s with
  | EmptyString => EmptyString
  | String c s' => String (upper_char c) (upper s')
  end.

(** [s.split(sep)] for a one-character separator. *)
Fixpoint split (sep : ascii) (s : string) : list string :=
  match s with
  | EmptyString => [EmptyString]
  | String c s' =>
      if Ascii.eqb c sep then EmptyString :: split sep s'
      else match split sep s' with
           | [] => [String c EmptyString]
           | w :: ws => String c w :: ws
           end
  end.

(** [sep.join(parts)] *)
Fixpoint join (sep : string) (parts : list string) : string :=
  match parts with
  | [] => EmptyString
  | [p] => p
  | p :: ps => p ++ sep ++ join sep ps
  end.

(** truthiness of a string: non-empty *)
Definition nonempty (s : string) : bool :=
  match s with EmptyString => false | _ => true end.

End PyStr.

(** ** Quote records

    A quote record is the dictionary [APIAgent.fetch_stock_data] stores per
    ticker.  Each field is an [option]: [None] means the key is absent.
    Values that Python may hold as [None] have a second [option]. *)

Record QuoteRecord (F : Type) : Type := {
  error : option string;                (* 'error' *)
  current_price : option F;             (* 'current_price' *)
  company_name : option string;         (* 'company_name' *)
  sector : option string;               (* 'sector' *)
  market_cap : option Z;                (* 'market_cap' *)
  pe_ratio : option (option F);         (* 'pe_ratio' *)
  week52_high : option (option F);      (* '52_week_high' *)
  week52_low : option (option F);       (* '52_week_low' *)
  earnings_date : option (option string) (* 'earnings_date' *)
}.

Definition with_pe_ratio {F} (pe : option (option F)) (d : QuoteRecord F)
  : QuoteRecord F :=
  {| error := error d; current_price := current_price d;
     company_name := company_name d; sector := sector d;
     market_cap := market_cap d; pe_ratio := pe;
     week52_high := week52_high d; week52_low := week52_low d;
     earnings_date := earnings_date d |}.


Definition with_market_cap {F} (m : option Z) (d : QuoteRecord F)
  : QuoteRecord F :=
  {| error := error d; current_price := current_price d;
     company_name := company_name d; sector := sector d;
     market_cap := m; pe_ratio := pe_ratio d;
     week52_high := week52_high d; week52_low := week52_low d;
     earnings_date := earnings_date d |}.

(** ['error' not in data] *)
Definition no_error {F} (data : QuoteRecord F) : bool :=
  match error data with None => true | Some _ => false end.

(** ** agents/analysis_agent.py *)

Module AnalysisAgent.
Section Analysis.
Context {F : Type} {A : Arith F}.

(** Python builtins on numbers; [min] and [max] keep the first of equals. *)
Definition py_sum_int (l : list Z) : Z := fold_left Z.add l 0%Z.
Definition py_sum (l : list F) : F := fold_left fadd l (of_int 0).
Definition py_max (a b : F) : F := if flt a b then b else a.
Definition py_min (a b : F) : F := if flt b a then b else a.

(** [a / b] on Python ints *)
Definition py_truediv (a b : Z) : result F :=
  if (b =? 0)%Z then Raise ZeroDivisionError
  else Ok (fdiv (of_int a) (of_int b)).

Definition np_mean (l : list F) : F :=
  fdiv (py_sum l) (of_int (Z.of_nat (List.length l))).

(** The four collections filled by the loop of [portfolio_risk_analysis]. *)
Record collections : Type := {
  market_caps : list Z;
  pe_ratios : list F;
  prices : list F;
  sector_distribution : PyDict.dict Z
}.

Definition no_collections : collections :=
  {| market_caps := []; pe_ratios := []; prices := [];
     sector_distribution := [] |}.

(** One iteration of [for ticker, data in valid_stocks.items()]. *)
Definition collect_one (c : collections) (item : string * QuoteRecord F)
  : collections :=
  let data := snd item in
  let market_cap :=
    match market_cap data with Some m => m | None => 0%Z end in
  let current_price :=
    match current_price data with Some p => p | None => of_int 0 end in
  let sector :=
    match sector data with Some s => s | None => "Unknown"%string end in
  {| market_caps := market_caps c ++ [market_cap];
     pe_ratios :=
       match pe_ratio data with
       | Some (Some pe) =>
           if truthy pe then pe_ratios c ++ [pe] else pe_ratios c
       | Some None | None => pe_ratios c
       end;
     prices := prices c ++ [current_price];
     sector_distribution :=
       PyDict.set (sector_distribution c) sector
         (PyDict.get_default (sector_distribution c) sector 0 + 1)%Z |}.

Definition valid_stocks (stock_data : PyDict.dict (QuoteRecord F))
  : PyDict.dict (QuoteRecord F) :=
  filter (fun item => no_error (snd item)) stock_data.

Definition collect (valid : PyDict.dict (QuoteRecord F)) : collections :=
  fold_left collect_one valid no_collections.

Definition _calculate_diversification_score
  (sector_distribution : PyDict.dict Z) : result F :=
  let total_stocks := py_sum_int (PyDict.values sector_distribution) in
  let num_sectors := PyDict.len sector_distribution in
  entropy_scores <-
    map_result
      (fun count =>
         sector_proportion <- py_truediv count total_stocks ;;
         Ok (fmul (fneg sector_proportion) (np_log sector_proportion)))
      (PyDict.values sector_distribution) ;;
  let max_possible_entropy :=
    if (0 <? num_sectors)%nat
    then np_log (of_int (Z.of_nat num_sectors)) else of_int 1 in
  let diversification_score :=
    fmul (fdiv (py_sum entropy_scores) max_possible_entropy) (of_int 100) in
  Ok (py_min (py_max diversification_score (of_int 0)) (of_int 100)).

Record SectorConcentration : Type := {
  most_concentrated_sector : string;
  most_concentrated_percentage : F;
  sector_percentages : PyDict.dict F
}.

(** [sorted(items, key=lambda x: x[1], reverse=True)]: stable, descending *)
Fixpoint insert_desc (x : string * F) (l : list (string * F))
  : list (string * F) :=
  match l with
  | [] => [x]
  | y :: l' => if flt (snd x) (snd y) then y :: insert_desc x l'
               else x :: y :: l'
  end.

Definition sorted_desc (l : list (string * F)) : list (string * F) :=
  fold_right insert_desc [] l.

Definition _analyze_sector_concentration
  (sector_distribution : PyDict.dict Z) : result SectorConcentration :=
  let total_stocks := py_sum_int (PyDict.values sector_distribution) in
  sector_percentages <-
    map_result
      (fun item : string * Z =>
         q <- py_truediv (snd item) total_stocks ;;
         Ok (fst item, fmul q (of_int 100)))
      (PyDict.items sector_distribution) ;;
  let sorted_sectors := sorted_desc sector_percentages in
  Ok {| most_concentrated_sector :=
          match sorted_sectors with x :: _ => fst x | [] => "N/A"%string end;
        most_concentrated_percentage :=
          match sorted_sectors with x :: _ => snd x | [] => of_int 0 end;
        sector_percentages := sector_percentages |}.

Record MarketCapDistribution : Type := {
  large_cap_percentage : F;
  mid_cap_percentage : F;
  small_cap_percentage : F
}.

Definition large_cap_threshold : Z := 10000000000.
Definition mid_cap_threshold : Z := 2000000000.

Definition count_if (p : Z -> bool) (l : list Z) : Z :=
  py_sum_int (map (fun _ => 1%Z) (filter p l)).

Definition _classify_market_cap_distribution (market_caps : list Z)
  : result MarketCapDistribution :=
  match market_caps with
  | [] => Ok {| large_cap_percentage := of_int 0;
                mid_cap_percentage := of_int 0;
                small_cap_percentage := of_int 0 |}
  | _ :: _ =>
      let large_cap :=
        count_if (fun cap => (large_cap_threshold <=? cap)%Z) market_caps in
      let mid_cap :=
        count_if (fun cap => (cap <? large_cap_threshold)%Z
                             && (mid_cap_threshold <=? cap)%Z) market_caps in
      let small_cap :=
        count_if (fun cap => (cap <? mid_cap_threshold)%Z) market_caps in
      let total_stocks := Z.of_nat (List.length market_caps) in
      l <- py_truediv large_cap total_stocks ;;
      m <- py_truediv mid_cap total_stocks ;;
      s <- py_truediv small_cap total_stocks ;;
      Ok {| large_cap_percentage := fmul l (of_int 100);
            mid_cap_percentage := fmul m (of_int 100);
            small_cap_percentage := fmul s (of_int 100) |}
  end.

Record ValuationHealth : Type := {
  average_pe_ratio : F;
  pe_ratio_min : F;
  pe_ratio_max : F;
  valuation_status : string
}.

Definition _assess_valuation_health (pe_ratios : list F) : ValuationHealth :=
  match pe_ratios with
  | [] => {| average_pe_ratio := of_int 0;
             pe_ratio_min := of_int 0; pe_ratio_max := of_int 0;
             valuation_status := "Insufficient Data" |}
  | pe :: rest =>
      let avg_pe := np_mean pe_ratios in
      let valuation_status :=
        if flt avg_pe (of_int 10) then "Potentially Undervalued"%string
        else if fle (of_int 10) avg_pe && flt avg_pe (of_int 20)
             then "Fairly Valued"%string
        else if fle (of_int 20) avg_pe && flt avg_pe (of_int 30)
             then "Slightly Overvalued"%string
        else "Overvalued"%string in
      {| average_pe_ratio := avg_pe;
         pe_ratio_min := fold_left py_min rest pe;   (* min(pe_ratios) *)
         pe_ratio_max := fold_left py_max rest pe;   (* max(pe_ratios) *)
         valuation_status := valuation_status |}
  end.

Record HealthIndicators : Type := {
  diversification_score : F;
  sector_concentration : SectorConcentration;
  market_cap_distribution : MarketCapDistribution;
  valuation_health : ValuationHealth
}.

Definition _assess_portfolio_health (market_caps : list Z)
  (pe_ratios : list F) (sector_distribution : PyDict.dict Z)
  : result HealthIndicators :=
  score <- _calculate_diversification_score sector_distribution ;;
  conc <- _analyze_sector_concentration sector_distribution ;;
  caps <- _classify_market_cap_distribution market_caps ;;
  Ok {| diversification_score := score;
        sector_concentration := conc;
        market_cap_distribution := caps;
        valuation_health := _assess_valuation_health pe_ratios |}.

Record RiskMetrics : Type := {
  total_market_cap : Z;
  avg_market_cap : F;
  market_cap_std_dev : F;
  avg_price : F;
  price_volatility : F;
  avg_pe_ratio : F;
  pe_ratio_volatility : F;
  rm_sector_distribution : PyDict.dict Z
}.

Record AnalysisResults : Type := {
  total_stocks : nat;
  risk_metrics : RiskMetrics;
  portfolio_health_indicators : HealthIndicators
}.

Definition mean_or_zero (l : list F) : F :=
  match l with [] => of_int 0 | _ :: _ => np_mean l end.

Definition std_or_zero (l : list F) : F :=
  if (1 <? List.length l)%nat then np_std l else of_int 0.

Definition portfolio_risk_analysis
  (stock_data : PyDict.dict (QuoteRecord F)) : result AnalysisResults :=
  let valid := valid_stocks stock_data in
  let c := collect valid in
  health <- _assess_portfolio_health
              (market_caps c) (pe_ratios c) (sector_distribution c) ;;
  Ok {| total_stocks := PyDict.len valid;
        risk_metrics :=
          {| total_market_cap := py_sum_int (market_caps c);
             avg_market_cap := mean_or_zero (map of_int (market_caps c));
             market_cap_std_dev := std_or_zero (map of_int (market_caps c));
             avg_price := mean_or_zero (prices c);
             price_volatility := std_or_zero (prices c);
             avg_pe_ratio := mean_or_zero (pe_ratios c);
             pe_ratio_volatility := std_or_zero (pe_ratios c);
             rm_sector_distribution := sector_distribution c |};
        portfolio_health_indicators := health |}.

(** *** Views used to state properties of the analysis *)

Definition cap_of (item : string * QuoteRecord F) : Z :=
  match market_cap (snd item) with Some m => m | None => 0%Z end.

Definition price_of (item : string * QuoteRecord F) : F :=
  match current_price (snd item) with Some p => p | None => of_int 0 end.

Definition pe_of (item : string * QuoteRecord F) : list F :=
  match pe_ratio (snd item) with
  | Some (Some pe) => if truthy pe then [pe] else []
  | _ => []
  end.

Definition positive_counts (d : PyDict.dict Z) : Prop :=
  Forall (fun kv => (1 <= snd kv)%Z) d.

Definition tiers_of (caps : list Z) : MarketCapDistribution :=
  let total := Z.of_nat (List.length caps) in
  let pct n := fmul (fdiv (of_int n) (of_int total)) (of_int 100) in
  {| large_cap_percentage :=
       pct (count_if (fun cap => large_cap_threshold <=? cap)%Z caps);
     mid_cap_percentage :=
       pct (count_if (fun cap => (cap <? large_cap_threshold)%Z
                                 && (mid_cap_threshold <=? cap)%Z) caps);
     small_cap_percentage :=
       pct (count_if (fun cap => cap <? mid_cap_threshold)%Z caps) |}.

End Analysis.
End AnalysisAgent.

(** ** agents/api_agent.py *)

Module APIAgent.
Section API.
Context {F : Type}.

(** The keys of yfinance's [info] dictionary that the agent reads. *)
Record TickerInfo : Type := {
  longName : option string;
  info_sector : option string;
  marketCap : option Z;
  trailingPE : option F;
  fiftyTwoWeekHigh : option F;
  fiftyTwoWeekLow : option F;
  earningsDate : option string
}.

(** The batch price table: [None] is [price_data['Close'][-1]],
    [Some t] is [price_data[t]['Close'][-1]]. *)
Definition PriceData : Type := option string -> result F.

Record YFinance : Type := {
  download : list string -> result PriceData;  (* yf.download(tickers, ...) *)
  ticker_info : string -> result TickerInfo    (* yf.Ticker(t).info *)
}.

Definition error_record (msg : string) : QuoteRecord F :=
  {| error := Some msg; current_price := None; company_name := None;
     sector := None; market_cap := None; pe_ratio := None;
     week52_high := None; week52_low := None; earnings_date := None |}.

(** The body of the inner [try] for one ticker. *)
Definition fetch_one (yf : YFinance) (price_data : PriceData)
  (tickers : list string) (ticker : string) : result (QuoteRecord F) :=
  info <- ticker_info yf ticker ;;
  current_price <-
    (if (List.length tickers =? 1)%nat then price_data None
     else price_data (Some ticker)) ;;
  Ok {| error := None;
        current_price := Some current_price;
        company_name :=
          Some (match longName info with Some n => n | None => ticker end);
        sector :=
          Some (match info_sector info with
                | Some s => s | None => "N/A"%string end);
        market_cap :=
          Some (match marketCap info with Some m => m | None => 0%Z end);
        pe_ratio := Some (trailingPE info);
        week52_high := Some (fiftyTwoWeekHigh info);
        week52_low := Some (fiftyTwoWeekLow info);
        earnings_date := Some (earningsDate info) |}.

Definition fetch_stock_data (yf : YFinance) (tickers : list string)
  : PyDict.dict (QuoteRecord F) :=
  match download yf tickers with
  | Ok price_data =>
      fold_left
        (fun stock_data ticker =>
           PyDict.set stock_data ticker
             (try_except (fetch_one yf price_data tickers ticker)
                         (fun e => error_record (exn_str e))))
        tickers []
  | Raise _ =>
      fold_left
        (fun stock_data ticker =>
           PyDict.set stock_data ticker (error_record "Batch fetch failed"))
        tickers []
  end.

(** A record is failed (only the error reason) or valid (no error, with
    a price and a market cap). *)
Definition settled (data : QuoteRecord F) : Prop :=
  (exists msg, data = error_record msg)
  \/ (error data = None
      /\ exists p m, current_price data = Some p /\ market_cap data = Some m).

End API.
End APIAgent.

(** ** agents/scraping_agent.py *)

Module ScrapingAgent.

(** A heading element found by [soup.find_all]: its text and, when it has
    an [<a>] child, that child's [href] attribute ([None] when missing). *)
Record Heading : Type := {
  get_text : string;
  anchor : option (option string)
}.

Record NewsItem : Type := {
  title : string;
  link : string;
  source : string
}.

(** [requests.get(url)] followed by the BeautifulSoup parse *)
Definition Web : Type := string -> result (list Heading).

Definition news_sources (ticker : string) : list string :=
  [("https://finance.yahoo.com/quote/" ++ ticker ++ "/news")%string].

(** [for article in articles[:3]]: an exception ends the loop, keeping
    what was appended before it. *)
Fixpoint append_articles (source_url : string) (articles : list Heading)
  (ticker_news : list NewsItem) : list NewsItem :=
  match articles with
  | [] => ticker_news
  | article :: rest =>
      match anchor article with
      | Some None => ticker_news
      | Some (Some href) =>
          append_articles source_url rest
            (ticker_news ++ [{| title := get_text article; link := href;
                                source := source_url |}])
      | None =>
          append_articles source_url rest
            (ticker_news ++ [{| title := get_text article;
                                link := source_url;
                                source := source_url |}])
      end
  end.

Definition scrape_source (web : Web) (ticker_news : list NewsItem)
  (source_url : string) : list NewsItem :=
  match web source_url with
  | Ok articles => append_articles source_url (firstn 3 articles) ticker_news
  | Raise _ => ticker_news
  end.

Definition fetch_news_for_ticker (web : Web)
  (news_data : PyDict.dict (list NewsItem)) (ticker : string)
  : PyDict.dict (list NewsItem) :=
  PyDict.set news_data ticker
    (fold_left (scrape_source web) (news_sources ticker) []).

(** The coroutines handed to [asyncio.gather] contain no [await], so each
    runs to completion in list order. *)
Definition crawl_financial_news (web : Web) (tickers : list string)
  : PyDict.dict (list NewsItem) :=
  fold_left (fetch_news_for_ticker web) tickers [].

End ScrapingAgent.

(** ** agents/retriever_agent.py *)

Inductive pyval (F : Type) : Type :=
| PyNone
| PyInt (n : Z)
| PyFloat (x : F)
| PyStr (s : string).

Arguments PyNone {F}.
Arguments PyInt {F} n.
Arguments PyFloat {F} x.
Arguments PyStr {F} s.

Definition py_str_int (z : Z) : string := NilZero.string_of_int (Z.to_int z).

Module RetrieverAgent.
Section Retriever.
Context {F : Type} {A : Arith F}.

Definition Document : Type := PyDict.dict (pyval F).
Definition Vector : Type := list F.

(** [str(v)] *)
Definition py_str (v : pyval F) : string :=
  match v with
  | PyNone => "None"
  | PyInt n => py_str_int n
  | PyFloat x => fstr x
  | PyStr s => s
  end.

(** [bool(v)] *)
Definition py_truthy (v : pyval F) : bool :=
  match v with
  | PyNone => false
  | PyInt n => negb (n =? 0)%Z
  | PyFloat x => truthy x
  | PyStr s => PyStr.nonempty s
  end.

Definition _document_to_text (doc : Document) : string :=
  let field k := PyDict.get_default doc k (PyStr "") in
  let text_parts :=
    if PyDict.contains doc "ticker" then
      [PyStr ("Ticker: " ++ py_str (field "ticker"%string));
       PyStr ("Company: " ++ py_str (field "company_name"%string));
       PyStr ("Sector: " ++ py_str (field "sector"%string));
       PyStr ("Current Price: " ++ py_str (field "current_price"%string))]
    else if PyDict.contains doc "title" then
      [field "title"%string; field "link"%string]
    else [] in
  PyStr.join " " (map py_str (filter py_truthy text_parts)).

(** [faiss.IndexFlatL2]: the dimension and the stored vectors. *)
Record IndexFlatL2 : Type := {
  dimension : nat;
  vectors : list Vector
}.

Record State : Type := {
  faiss_index : option IndexFlatL2;
  document_store : list Document
}.

(** [__init__] *)
Definition init : State := {| faiss_index := None; document_store := [] |}.

Definition Encoder : Type := string -> result Vector.

(** The loop of [index_documents]: the store grows with each embedded
    document; an exception of the encoder leaves it as it is. *)
Fixpoint embed_documents (encode : Encoder) (documents : list Document)
  (embeddings : list Vector) (store : list Document)
  : result (list Vector) * list Document :=
  match documents with
  | [] => (Ok embeddings, store)
  | doc :: rest =>
      match encode (_document_to_text doc) with
      | Ok embedding =>
          embed_documents encode rest (embeddings ++ [embedding])
                          (store ++ [doc])
      | Raise e => (Raise e, store)
      end
  end.

(** [np.array(embeddings)]: rows of unequal length are refused. *)
Definition np_array (embeddings : list Vector) : result (list Vector) :=
  match embeddings with
  | [] => Ok []
  | v :: rest =>
      if forallb (fun w => (List.length w =? List.length v)%nat) rest
      then Ok embeddings
      else Raise (ValueError "inhomogeneous shape")
  end.

(** [embeddings_array.shape[1]]: an empty array has shape [(0,)]. *)
Definition shape_1 (embeddings_array : list Vector) : result nat :=
  match embeddings_array with
  | [] => Raise IndexError
  | v :: _ => Ok (List.length v)
  end.

Definition index_documents (encode : Encoder) (self : State)
  (documents : list Document) : result unit * State :=
  let (embedded, store) := embed_documents encode documents [] [] in
  let built :=
    embeddings <- embedded ;;
    embeddings_array <- np_array embeddings ;;
    dimension <- shape_1 embeddings_array ;;
    Ok {| dimension := dimension; vectors := embeddings_array |} in
  match built with
  | Ok index =>
      (Ok tt, {| faiss_index := Some index; document_store := store |})
  | Raise e =>
      (Raise e,
       {| faiss_index := faiss_index self; document_store := store |})
  end.

(** *** FAISS flat L2 search

    External library, modelled from its documented behaviour: squared
    Euclidean distance to every stored vector, the [k] nearest labels in
    ascending order of distance, and label [-1] in every slot for which
    no vector is left. *)

Fixpoint l2_distance (x y : Vector) : F :=
  match x, y with
  | a :: x', b :: y' =>
      fadd (fmul (fsub a b) (fsub a b)) (l2_distance x' y')
  | _, _ => of_int 0
  end.

Fixpoint insert_asc (x : nat * F) (l : list (nat * F)) : list (nat * F) :=
  match l with
  | [] => [x]
  | y :: l' => if flt (snd y) (snd x) then y :: insert_asc x l'
               else x :: y :: l'
  end.

Definition rank (scored : list (nat * F)) : list (nat * F) :=
  fold_right insert_asc [] scored.

Definition faiss_labels (index : IndexFlatL2) (query : Vector) (k : nat)
  : list Z :=
  let n := List.length (vectors index) in
  let scored :=
    combine (seq 0 n) (map (l2_distance query) (vectors index)) in
  map (fun p => Z.of_nat (fst p)) (firstn k (rank scored))
  ++ repeat (-1)%Z (k - n).

Definition faiss_search (index : IndexFlatL2) (query : Vector) (k : nat)
  : result (list Z) :=
  if negb (List.length query =? dimension index)%nat
  then Raise AssertionError
  else if (k =? 0)%nat then Raise AssertionError
  else Ok (faiss_labels index query k).

(** [l[idx]] on a Python list *)
Definition py_getitem {X : Type} (l : list X) (idx : Z) : result X :=
  let n := Z.of_nat (List.length l) in
  let i := if (idx <? 0)%Z then (idx + n)%Z else idx in
  if (0 <=? i)%Z && (i <? n)%Z then
    match nth_error l (Z.to_nat i) with
    | Some x => Ok x
    | None => Raise IndexError
    end
  else Raise IndexError.

(** [for idx in indices[0]: if idx < len(store): results.append(store[idx])] *)
Fixpoint retrieve (store : list Document) (indices : list Z)
  (results : list Document) : result (list Document) :=
  match indices with
  | [] => Ok results
  | idx :: rest =>
      if (idx <? Z.of_nat (List.length store))%Z then
        doc <- py_getitem store idx ;;
        retrieve store rest (results ++ [doc])
      else retrieve store rest results
  end.

Definition semantic_search (encode : Encoder) (self : State)
  (query : string) (top_k : nat) : result (list Document) :=
  match faiss_index self with
  | None =>
      Raise (ValueError "Index not created. Call index_documents first.")
  | Some index =>
      query_embedding <- encode query ;;
      indices <- faiss_search index query_embedding top_k ;;
      retrieve (document_store self) indices []
  end.

Definition combine_document_sources (sources : list (list Document))
  : list Document :=
  fold_left (fun combined_docs source => combined_docs ++ source) sources [].

End Retriever.
End RetrieverAgent.

(** ** agents/voice_agent.py *)

Module VoiceAgent.

(** [gTTS(text=text, lang='en').save(output_path)] *)
Definition Synthesizer : Type := string -> string -> result unit.

Definition text_to_speech (gtts : Synthesizer) (text output_path : string)
  : option string :=
  try_except (_ <- gtts text output_path ;; Ok (Some output_path))
             (fun _ => None).

Definition generate_voice_response (gtts : Synthesizer) (text : string)
  : option string :=
  text_to_speech gtts text "output.wav".

End VoiceAgent.

(** ** orchestrator/agent_coordinator.py *)

Module AgentCoordinator.
Section Coordinator.
Context {F : Type} {A : Arith F}.

Record Collaborators : Type := {
  generate_content : string -> result string;  (* llm_model.generate_content(p).text *)
  yfinance : @APIAgent.YFinance F;
  web : ScrapingAgent.Web;
  encode : @RetrieverAgent.Encoder F;
  gtts : VoiceAgent.Synthesizer
}.

(** The key check of [__init__], with every library it then loads taken
    to load; the only state the coordinator keeps is its retriever. *)
Definition init (gemini_api_key getenv_key : option string)
  : result (@RetrieverAgent.State F) :=
  let usable k :=
    match k with Some s => PyStr.nonempty s | None => false end in
  let key := if usable gemini_api_key then gemini_api_key else getenv_key in
  if usable key then Ok RetrieverAgent.init
  else Raise (ValueError
    "Gemini API key is required. Set GEMINI_API_KEY environment variable.").

(** The library calls [__init__] makes after the key check, each of which
    can raise.  [APIAgent()], [ScrapingAgent()] and [AnalysisAgent()] have
    no constructor of their own; [RetrieverAgent()] loads the sentence
    transformer, [VoiceAgent()] the two Wav2Vec2 parts. *)
Record Libraries : Type := {
  genai_configure : string -> result unit;      (* genai.configure(api_key=k) *)
  generative_model : string -> result unit;     (* genai.GenerativeModel(name) *)
  sentence_transformer : string -> result unit; (* SentenceTransformer(name) *)
  wav2vec2_for_ctc : string -> result unit;     (* Wav2Vec2ForCTC.from_pretrained *)
  wav2vec2_processor : string -> result unit    (* Wav2Vec2Processor.from_pretrained *)
}.

(** [__init__], statement by statement. *)
Definition __init__ (lib : Libraries)
  (gemini_api_key getenv_key : option string)
  : result (@RetrieverAgent.State F) :=
  let usable k :=
    match k with Some s => PyStr.nonempty s | None => false end in
  let gemini_api_key :=
    if usable gemini_api_key then gemini_api_key else getenv_key in
  match gemini_api_key with
  | Some key =>
      if PyStr.nonempty key then
        _ <- genai_configure lib key ;;
        _ <- generative_model lib "gemini-2.0-flash" ;;
        _ <- sentence_transformer lib "all-MiniLM-L6-v2" ;;
        _ <- wav2vec2_for_ctc lib "facebook/wav2vec2-base-960h" ;;
        _ <- wav2vec2_processor lib "facebook/wav2vec2-base-960h" ;;
        Ok RetrieverAgent.init
      else Raise (ValueError
        "Gemini API key is required. Set GEMINI_API_KEY environment variable.")
  | None => Raise (ValueError
      "Gemini API key is required. Set GEMINI_API_KEY environment variable.")
  end.

Definition nl : string := String (ascii_of_nat 10) EmptyString.
Definition indent : string := "        ".

Definition fallback_tickers : list string :=
  ["AAPL"; "GOOGL"; "MSFT"; "AMZN"]%string.

Definition extraction_prompt (query : string) : string :=
  (nl ++ indent
   ++ "Extract stock ticker symbols from the following financial query. "
   ++ nl ++ indent
   ++ "Return ONLY the ticker symbols as a comma-separated list. "
   ++ nl ++ indent
   ++ "If no clear tickers are found, suggest relevant tech or finance tickers."
   ++ nl ++ indent ++ nl ++ indent
   ++ "Query: " ++ query ++ nl ++ indent)%string.

Definition _extract_tickers_with_gemini (c : Collaborators) (query : string)
  : list string :=
  let prompt := extraction_prompt query in
  try_except
    (text <- generate_content c prompt ;;
     let tickers_str := PyStr.strip text in
     let tickers :=
       map (fun ticker => PyStr.upper (PyStr.strip ticker))
           (PyStr.split "," tickers_str) in
     Ok (match tickers with [] => fallback_tickers | _ :: _ => tickers end))
    (fun _ => fallback_tickers).

(** [f"{n:,}"] on an int *)
Fixpoint group3 (rev_digits : list ascii) : list ascii :=
  match rev_digits with
  | a :: b :: c :: ((_ :: _) as rest) =>
      a :: b :: c :: ","%char :: group3 rest
  | _ => rev_digits
  end.

Definition format_thousands (z : Z) : string :=
  let digits :=
    list_ascii_of_string
      (NilZero.string_of_uint (N.to_uint (Z.to_N (Z.abs z)))) in
  ((if (z <? 0)%Z then "-" else "")
   ++ string_of_list_ascii (rev (group3 (rev digits))))%string.

(** One line of [stocks_summary]; the [','] format is refused for the
    string default ['N/A']. *)
Definition stock_line (item : string * QuoteRecord F) : result string :=
  let (ticker, data) := item in
  let price :=
    match current_price data with Some p => fstr p | None => "N/A"%string end in
  cap <- match market_cap data with
         | Some m => Ok (format_thousands m)
         | None => Raise (ValueError "Cannot specify ',' with 's'.")
         end ;;
  Ok (ticker ++ ": Price=$" ++ price ++ ", Market Cap=$" ++ cap)%string.

Definition news_line (item : string * list ScrapingAgent.NewsItem) : string :=
  let (ticker, news) := item in
  (ticker ++ " News: "
   ++ PyStr.join ", " (map ScrapingAgent.title (firstn 2 news)))%string.

(** [result.get('title', 'Insight')] as an item of [', '.join] *)
Definition insight_title (doc : @RetrieverAgent.Document F) : result string :=
  match PyDict.get_default doc "title" (PyStr "Insight") with
  | PyStr s => Ok s
  | _ => Raise (TypeError "sequence item: expected str instance")
  end.

Definition narrative_prompt (stocks_summary news_summary : string)
  (total_stocks : nat) (insights : string) : string :=
  (nl ++ indent
   ++ "Generate a comprehensive market brief based on the following financial data:"
   ++ nl ++ nl ++ indent ++ "Stock Overview:"
   ++ nl ++ indent ++ stocks_summary
   ++ nl ++ nl ++ indent ++ "Recent News:"
   ++ nl ++ indent ++ news_summary
   ++ nl ++ nl ++ indent ++ "Risk Analysis:"
   ++ nl ++ indent ++ "Total Stocks: " ++ py_str_int (Z.of_nat total_stocks)
   ++ nl ++ nl ++ indent ++ "Contextual Insights:"
   ++ nl ++ indent ++ insights
   ++ nl ++ nl ++ indent
   ++ "Create a professional, concise market brief that provides:"
   ++ nl ++ indent ++ "1. An overview of stock performance"
   ++ nl ++ indent ++ "2. Key news highlights"
   ++ nl ++ indent ++ "3. Potential market implications"
   ++ nl ++ indent ++ "4. Brief risk assessment"
   ++ nl ++ indent)%string.

Definition apology : string := "Unable to generate market brief at this time.".

Definition _generate_narrative_with_gemini (c : Collaborators)
  (stock_data : PyDict.dict (QuoteRecord F))
  (news_data : PyDict.dict (list ScrapingAgent.NewsItem))
  (risk_analysis : @AnalysisAgent.AnalysisResults F)
  (contextual_results : list (@RetrieverAgent.Document F)) : result string :=
  stock_lines <-
    map_result stock_line
      (filter (fun item => no_error (snd item)) (PyDict.items stock_data)) ;;
  let stocks_summary := PyStr.join nl stock_lines in
  let news_summary := PyStr.join nl (map news_line (PyDict.items news_data)) in
  titles <- map_result insight_title contextual_results ;;
  let prompt :=
    narrative_prompt stocks_summary news_summary
      (AnalysisAgent.total_stocks risk_analysis) (PyStr.join ", " titles) in
  Ok (try_except (generate_content c prompt) (fun _ => apology)).

(** A quote record seen as the dictionary it is. *)
Definition opt_item (k : string) (v : option (pyval F))
  : list (string * pyval F) :=
  match v with Some x => [(k, x)] | None => [] end.

Definition opt_float (v : option F) : pyval F :=
  match v with Some x => PyFloat x | None => PyNone end.

Definition opt_str (v : option string) : pyval F :=
  match v with Some s => PyStr s | None => PyNone end.

Definition quote_document (data : QuoteRecord F)
  : @RetrieverAgent.Document F :=
  opt_item "current_price" (option_map PyFloat (current_price data))
  ++ opt_item "company_name" (option_map PyStr (company_name data))
  ++ opt_item "sector" (option_map PyStr (sector data))
  ++ opt_item "market_cap" (option_map PyInt (market_cap data))
  ++ opt_item "pe_ratio" (option_map opt_float (pe_ratio data))
  ++ opt_item "52_week_high" (option_map opt_float (week52_high data))
  ++ opt_item "52_week_low" (option_map opt_float (week52_low data))
  ++ opt_item "earnings_date" (option_map opt_str (earnings_date data))
  ++ opt_item "error" (option_map PyStr (error data)).

Definition news_document (article : ScrapingAgent.NewsItem)
  : @RetrieverAgent.Document F :=
  [("title"%string, PyStr (ScrapingAgent.title article));
   ("link"%string, PyStr (ScrapingAgent.link article));
   ("source"%string, PyStr (ScrapingAgent.source article))].

Record Response : Type := {
  stock_data : PyDict.dict (QuoteRecord F);
  news_data : PyDict.dict (list ScrapingAgent.NewsItem);
  risk_analysis : @AnalysisAgent.AnalysisResults F;
  narrative_response : string;
  voice_response : option string
}.

Definition combined_documents
  (stock_data : PyDict.dict (QuoteRecord F))
  (news_data : PyDict.dict (list ScrapingAgent.NewsItem))
  : list (@RetrieverAgent.Document F) :=
  RetrieverAgent.combine_document_sources
    [map quote_document (PyDict.values stock_data);
     map news_document (List.concat (PyDict.values news_data))].

Definition process_query (c : Collaborators)
  (self : @RetrieverAgent.State F) (query : string) : result Response :=
  let tickers := _extract_tickers_with_gemini c query in
  let stock_data := APIAgent.fetch_stock_data (yfinance c) tickers in
  let news_data := ScrapingAgent.crawl_financial_news (web c) tickers in
  let combined_docs := combined_documents stock_data news_data in
  let (indexed, retriever_agent) :=
    RetrieverAgent.index_documents (encode c) self combined_docs in
  _ <- indexed ;;
  contextual_results <-
    RetrieverAgent.semantic_search (encode c) retriever_agent query 3 ;;
  risk_analysis <- AnalysisAgent.portfolio_risk_analysis stock_data ;;
  narrative_response <-
    _generate_narrative_with_gemini c stock_data news_data risk_analysis
                                    contextual_results ;;
  let voice_response :=
    VoiceAgent.generate_voice_response (gtts c) narrative_response in
  Ok {| stock_data := stock_data;
        news_data := news_data;
        risk_analysis := risk_analysis;
        narrative_response := narrative_response;
        voice_response := voice_response |}.

End Coordinator.
End AgentCoordinator.

(** ** agents/api_agent.py: recommendations *)

Module Recommendations.
Section Recommend.
Context {F : Type} {A : Arith F}.

Record Recommendation : Type := {
  rec_ticker : string;          (* 'ticker' *)
  rec_company_name : string;    (* 'company_name' *)
  recommendation : string;      (* 'recommendation' *)
  reasons : list string         (* 'reasons' *)
}.

(** [data.get('pe_ratio') and data['pe_ratio'] < 15] *)
Definition low_pe (data : QuoteRecord F) : bool :=
  match pe_ratio data with
  | Some (Some pe) => truthy pe && flt pe (of_int 15)
  | Some None | None => false
  end.

(** [data.get('52_week_high') and data.get('current_price')], then
    [percent_from_high > 20] *)
Definition far_below_high (data : QuoteRecord F) : bool :=
  match week52_high data, current_price data with
  | Some (Some high), Some price =>
      truthy high && truthy price
      && flt (of_int 20) (fmul (fdiv (fsub high price) high) (of_int 100))
  | _, _ => false
  end.

(** The body of the loop for one valid record; [data['company_name']]
    raises [KeyError] when the key is missing. *)
Definition recommend_one (item : string * QuoteRecord F)
  : result Recommendation :=
  let (ticker, data) := item in
  name <- match company_name data with
          | Some n => Ok n
          | None => Raise (KeyError "company_name")
          end ;;
  Ok {| rec_ticker := ticker;
        rec_company_name := name;
        recommendation :=
          if low_pe data || far_below_high data then "Buy"%string
          else "Hold"%string;
        reasons :=
          (if low_pe data then ["Low P/E Ratio"%string] else [])
          ++ (if far_below_high data
              then ["Significantly Below 52-Week High"%string] else []) |}.

Definition get_stock_recommendations
  (stock_data : PyDict.dict (QuoteRecord F)) : result (list Recommendation) :=
  map_result recommend_one
    (filter (fun item => no_error (snd item)) (PyDict.items stock_data)).

End Recommend.
End Recommendations.

(** ** agents/scraping_agent.py: key insights *)

Module KeyInsights.

Definition lower_char (c : ascii) : ascii :=
  let n := nat_of_ascii c in
  if (65 <=? n) && (n <=? 90) then ascii_of_nat (n + 32) else c.

(** [s.lower()] on ASCII text *)
Fixpoint lower (s : string) : string :=
  match s with
  | EmptyString => EmptyString
  | String c s' => String (lower_char c) (lower s')
  end.

(** [keyword in s] *)
Fixpoint py_in (keyword s : string) : bool :=
  String.prefix keyword s
  || match s with
     | EmptyString => false
     | String _ s' => py_in keyword s'
     end.

(** [any(keyword in title.lower() for keyword in keywords)] *)
Definition mentions (keywords : list string) (title : string) : bool :=
  existsb (fun keyword => py_in keyword (lower title)) keywords.

Definition earnings_keywords : list string :=
  ["earnings"; "beat"; "miss"]%string.
Definition strategy_keywords : list string :=
  ["merger"; "acquisition"; "partnership"]%string.
Definition tech_keywords : list string :=
  ["technology"; "innovation"; "breakthrough"]%string.

(** The three tests made for one article, in source order. *)
Definition article_insights (article : ScrapingAgent.NewsItem) : list string :=
  let title := ScrapingAgent.title article in
  (if mentions earnings_keywords title
   then [("Earnings-related: " ++ title)%string] else [])
  ++ (if mentions strategy_keywords title
      then [("Strategic move: " ++ title)%string] else [])
  ++ (if mentions tech_keywords title
      then [("Tech development: " ++ title)%string] else []).

Definition ticker_insights (articles : list ScrapingAgent.NewsItem)
  : list string :=
  fold_left (fun insights article => insights ++ article_insights article)
            articles [].

Definition extract_key_insights
  (news_data : PyDict.dict (list ScrapingAgent.NewsItem))
  : PyDict.dict (list string) :=
  fold_left
    (fun insights item =>
       PyDict.set insights (fst item) (ticker_insights (snd item)))
    (PyDict.items news_data) [].

End KeyInsights.

(** ** agents/analysis_agent.py: textual insights *)

Module InvestmentInsights.
Section Insights.
Context {F : Type} {A : Arith F}.

(** [f"{x:.2f}"], the fixed-point formatting of a float *)
Variable format_2f : F -> string.

Definition nl : string := String (ascii_of_nat 10) EmptyString.

(** The line chosen from the diversification score *)
Definition diversification_advice (div_score : F) : string :=
  if flt div_score (of_int 40) then
    ("- Your portfolio lacks diversification. "
     ++ "Consider spreading investments across more sectors." ++ nl)%string
  else if flt div_score (of_int 70) then
    ("- Moderate diversification. "
     ++ "There's room for improvement in sector allocation." ++ nl)%string
  else
    ("- Excellent diversification across different sectors." ++ nl)%string.

Definition generate_investment_insights
  (analysis_results : @AnalysisAgent.AnalysisResults F) : string :=
  let health := AnalysisAgent.portfolio_health_indicators analysis_results in
  let div_score := AnalysisAgent.diversification_score health in
  let sector_conc := AnalysisAgent.sector_concentration health in
  let val_health := AnalysisAgent.valuation_health health in
  let cap_dist := AnalysisAgent.market_cap_distribution health in
  ("Portfolio Investment Insights:" ++ nl ++ nl
   ++ "Diversification Score: " ++ format_2f div_score ++ "/100" ++ nl
   ++ diversification_advice div_score
   ++ nl ++ "Sector Concentration:" ++ nl
   ++ "- Most Concentrated Sector: "
   ++ AnalysisAgent.most_concentrated_sector sector_conc ++ nl
   ++ "- Sector Concentration: "
   ++ format_2f (AnalysisAgent.most_concentrated_percentage sector_conc)
   ++ "%" ++ nl
   ++ nl ++ "Valuation Health:" ++ nl
   ++ "- Average PE Ratio: "
   ++ format_2f (AnalysisAgent.average_pe_ratio val_health) ++ nl
   ++ "- Valuation Status: "
   ++ AnalysisAgent.valuation_status val_health ++ nl
   ++ nl ++ "Market Cap Distribution:" ++ nl
   ++ "- Large Cap: "
   ++ format_2f (AnalysisAgent.large_cap_percentage cap_dist) ++ "%" ++ nl
   ++ "- Mid Cap: "
   ++ format_2f (AnalysisAgent.mid_cap_percentage cap_dist) ++ "%" ++ nl
   ++ "- Small Cap: "
   ++ format_2f (AnalysisAgent.small_cap_percentage cap_dist) ++ "%" ++ nl
  )%string.

End Insights.
End InvestmentInsights.

(** ** Sample inputs *)

Module Samples.

(** Exact arithmetic with stand-ins for [np.log], [np.std] and [str]. *)
Definition exact_arith : Arith Q :=
  exact (fun x => x - 1) (fun _ => 0) (fun _ => "0.0"%string).

Definition aapl : QuoteRecord Q :=
  {| error := None; current_price := Some 150;
     company_name := Some "Apple Inc."%string;
     sector := Some "Technology"%string;
     market_cap := Some 2500000000000%Z; pe_ratio := Some (Some 28);
     week52_high := Some None; week52_low := Some None;
     earnings_date := Some None |}.

Definition failed : QuoteRecord Q :=
  APIAgent.error_record "Batch fetch failed".

(** Every provider is down. *)
Definition offline_yfinance : @APIAgent.YFinance Q :=
  {| APIAgent.download := fun _ => Raise (ExternalError "no network");
     APIAgent.ticker_info := fun _ => Raise (ExternalError "no network") |}.

Definition offline_web : ScrapingAgent.Web :=
  fun _ => Raise (ExternalError "no network").

(** A provider that answers every request. *)
Definition online_yfinance : @APIAgent.YFinance Q :=
  {| APIAgent.download := fun _ => Ok (fun _ => Ok 150);
     APIAgent.ticker_info := fun _ =>
       Ok {| APIAgent.longName := Some "Apple Inc."%string;
             APIAgent.info_sector := Some "Technology"%string;
             APIAgent.marketCap := Some 2500000000000%Z;
             APIAgent.trailingPE := Some 28;
             APIAgent.fiftyTwoWeekHigh := None;
             APIAgent.fiftyTwoWeekLow := None;
             APIAgent.earningsDate := None |} |}.

(** An encoder of dimension 1: the length of the text. *)
Definition length_encoder : @RetrieverAgent.Encoder Q :=
  fun text => Ok [inject_Z (Z.of_nat (String.length text))].

Definition failing_encoder : @RetrieverAgent.Encoder Q :=
  fun _ => Raise (ExternalError "embedding model unavailable").

Definition collaborators (reply : result string)
  (encode : @RetrieverAgent.Encoder Q) : @AgentCoordinator.Collaborators Q :=
  {| AgentCoordinator.generate_content := fun _ => reply;
     AgentCoordinator.yfinance := offline_yfinance;
     AgentCoordinator.web := offline_web;
     AgentCoordinator.encode := encode;
     AgentCoordinator.gtts := fun _ _ => Raise (ExternalError "no network") |}.

Definition loading_libraries : AgentCoordinator.Libraries :=
  {| AgentCoordinator.genai_configure := fun _ => Ok tt;
     AgentCoordinator.generative_model := fun _ => Ok tt;
     AgentCoordinator.sentence_transformer := fun _ => Ok tt;
     AgentCoordinator.wav2vec2_for_ctc := fun _ => Ok tt;
     AgentCoordinator.wav2vec2_processor := fun _ => Ok tt |}.

Definition offline_libraries : AgentCoordinator.Libraries :=
  {| AgentCoordinator.genai_configure := fun _ => Ok tt;
     AgentCoordinator.generative_model := fun _ => Ok tt;
     AgentCoordinator.sentence_transformer :=
       fun _ => Raise (ExternalError "model download failed");
     AgentCoordinator.wav2vec2_for_ctc := fun _ => Ok tt;
     AgentCoordinator.wav2vec2_processor := fun _ => Ok tt |}.

Definition headline : @RetrieverAgent.Document Q :=
  [("title"%string, PyStr "AAPL beats earnings"%string);
   ("link"%string, PyStr "https://example.org/a"%string);
   ("source"%string, PyStr "https://example.org"%string)].

End Samples.

(** * Properties of the analysis agent *)

Module AnalysisFacts.
Import AnalysisAgent.

Section Generic.
Context {F : Type} {A : Arith F}.

Lemma fold_add_shift (l : list Z) (a : Z) :
  fold_left Z.add l a = (a + fold_left Z.add l 0)%Z.
Proof.
  revert a; induction l as [|x l IH]; intros a; simpl.
  - lia.
  - rewrite IH, (IH x). lia.
Qed.

Lemma py_sum_int_cons (x : Z) (l : list Z) :
  py_sum_int (x :: l) = (x + py_sum_int l)%Z.
Proof. unfold py_sum_int; simpl. apply fold_add_shift. Qed.

Lemma count_if_cons (p : Z -> bool) (x : Z) (l : list Z) :
  count_if p (x :: l) = ((if p x then 1 else 0) + count_if p l)%Z.
Proof.
  unfold count_if; simpl. destruct (p x); simpl.
  - apply py_sum_int_cons.
  - reflexivity.
Qed.

Lemma count_if_nonneg (p : Z -> bool) (l : list Z) : (0 <= count_if p l)%Z.
Proof.
  induction l as [|x l IH]; [unfold count_if, py_sum_int; simpl; lia|].
  rewrite count_if_cons. destruct (p x); lia.
Qed.

(** Every market cap falls in exactly one of the three tiers. *)
Lemma tiers_partition (l : list Z) :
  (count_if (fun cap => large_cap_threshold <=? cap) l
   + count_if (fun cap => (cap <? large_cap_threshold)
                          && (mid_cap_threshold <=? cap)) l
   + count_if (fun cap => cap <? mid_cap_threshold) l
   = Z.of_nat (List.length l))%Z.
Proof.
  induction l as [|x l IH].
  - reflexivity.
  - rewrite !count_if_cons. cbn [List.length]. rewrite Nat2Z.inj_succ.
    unfold large_cap_threshold, mid_cap_threshold in *.
    destruct (Z.leb_spec 10000000000 x);
      destruct (Z.ltb_spec x 10000000000);
      destruct (Z.leb_spec 2000000000 x);
      destruct (Z.ltb_spec x 2000000000); cbn [andb]; lia.
Qed.

(** *** What the collection loop gathers *)

Lemma collect_market_caps (l : list (string * QuoteRecord F)) c :
  market_caps (fold_left collect_one l c) = market_caps c ++ map cap_of l.
Proof.
  revert c; induction l as [|x l IH]; intros c; simpl.
  - now rewrite app_nil_r.
  - rewrite IH. simpl. now rewrite <- app_assoc.
Qed.

Lemma collect_prices (l : list (string * QuoteRecord F)) c :
  prices (fold_left collect_one l c) = prices c ++ map price_of l.
Proof.
  revert c; induction l as [|x l IH]; intros c; simpl.
  - now rewrite app_nil_r.
  - rewrite IH. simpl. now rewrite <- app_assoc.
Qed.

Lemma collect_pe_ratios (l : list (string * QuoteRecord F)) c :
  pe_ratios (fold_left collect_one l c) = pe_ratios c ++ flat_map pe_of l.
Proof.
  revert c; induction l as [|x l IH]; intros c; simpl.
  - now rewrite app_nil_r.
  - rewrite IH. unfold pe_of at 2. simpl.
    destruct (pe_ratio (snd x)) as [[pe|]|]; simpl; auto.
    destruct (truthy pe); simpl; auto. now rewrite <- app_assoc.
Qed.

Lemma fold_left_app_one (l1 l2 : list (string * QuoteRecord F)) x c :
  fold_left collect_one (l1 ++ x :: l2) c
  = fold_left collect_one l2 (collect_one (fold_left collect_one l1 c) x).
Proof. now rewrite fold_left_app. Qed.

(** *** The sector distribution holds positive counts *)

Lemma get_default_nonneg (d : PyDict.dict Z) k :
  positive_counts d -> (0 <= PyDict.get_default d k 0)%Z.
Proof.
  unfold PyDict.get_default. induction 1 as [|[k' v] d Hv Hd IH]; simpl.
  - lia.
  - destruct (String.eqb k' k); simpl in *; [lia | exact IH].
Qed.

Lemma set_positive (d : PyDict.dict Z) k v :
  positive_counts d -> (1 <= v)%Z -> positive_counts (PyDict.set d k v).
Proof.
  intros Hd Hv. induction Hd as [|[k' v'] d Hv' Hd IH]; simpl.
  - constructor; [exact Hv | constructor].
  - destruct (String.eqb k' k); constructor; simpl; auto.
Qed.

Lemma collect_positive (l : list (string * QuoteRecord F)) c :
  positive_counts (sector_distribution c) ->
  positive_counts (sector_distribution (fold_left collect_one l c)).
Proof.
  revert c; induction l as [|x l IH]; intros c Hc; simpl; auto.
  apply IH. simpl. apply set_positive; auto.
  pose proof (get_default_nonneg
                (match sector (snd x) with
                 | Some s => s | None => "Unknown"%string end) Hc).
  lia.
Qed.

Lemma positive_total (d : PyDict.dict Z) :
  positive_counts d ->
  (Z.of_nat (List.length d) <= py_sum_int (PyDict.values d))%Z.
Proof.
  induction 1 as [|[k v] d Hv Hd IH].
  - unfold py_sum_int; simpl; lia.
  - cbn [PyDict.values map snd List.length] in *.
    rewrite py_sum_int_cons, Nat2Z.inj_succ. unfold PyDict.values in IH. lia.
Qed.

(** *** The analyzer never raises *)

Lemma map_result_ok {X Y : Type} (f : X -> result Y) (l : list X) :
  (forall x, In x l -> exists y, f x = Ok y) ->
  exists ys, map_result f l = Ok ys.
Proof.
  induction l as [|x l IH]; intros H; simpl.
  - now exists [].
  - destruct (H x (or_introl eq_refl)) as [y Hy].
    destruct IH as [ys Hys]; [intros; apply H; now right|].
    rewrite Hy, Hys. simpl. now exists (y :: ys).
Qed.

Lemma py_truediv_ok (a b : Z) :
  b <> 0%Z -> py_truediv a b = Ok (fdiv (of_int a) (of_int b)).
Proof.
  intros Hb. unfold py_truediv.
  destruct (Z.eqb_spec b 0); [contradiction | reflexivity].
Qed.

Lemma diversification_ok (d : PyDict.dict Z) :
  positive_counts d -> exists s, _calculate_diversification_score d = Ok s.
Proof.
  intros Hd. unfold _calculate_diversification_score.
  destruct (map_result_ok
    (fun count =>
       sector_proportion <-
         py_truediv count (py_sum_int (PyDict.values d)) ;;
       Ok (fmul (fneg sector_proportion) (np_log sector_proportion)))
    (PyDict.values d)) as [ys Hys].
  - intros x Hx. rewrite py_truediv_ok; simpl; eauto.
    pose proof (positive_total Hd). destruct d; [inversion Hx|].
    simpl List.length in *. lia.
  - rewrite Hys. simpl. eauto.
Qed.

Lemma concentration_ok (d : PyDict.dict Z) :
  positive_counts d -> exists s, _analyze_sector_concentration d = Ok s.
Proof.
  intros Hd. unfold _analyze_sector_concentration.
  destruct (map_result_ok
    (fun item : string * Z =>
       q <- py_truediv (snd item) (py_sum_int (PyDict.values d)) ;;
       Ok (fst item, fmul q (of_int 100)))
    (PyDict.items d)) as [ys Hys].
  - intros x Hx. rewrite py_truediv_ok; simpl; eauto.
    pose proof (positive_total Hd). destruct d; [inversion Hx|].
    simpl List.length in *. lia.
  - rewrite Hys. simpl. eauto.
Qed.

Lemma classify_nonempty (caps : list Z) :
  caps <> [] -> _classify_market_cap_distribution caps = Ok (tiers_of caps).
Proof.
  destruct caps as [|c caps]; [congruence|]. intros _.
  unfold _classify_market_cap_distribution.
  rewrite !py_truediv_ok by (cbn [List.length]; lia). reflexivity.
Qed.

Lemma classify_ok (caps : list Z) :
  exists m, _classify_market_cap_distribution caps = Ok m.
Proof.
  destruct caps as [|c caps]; [simpl; eauto|].
  rewrite classify_nonempty by congruence. eauto.
Qed.

Lemma collect_positive_counts (l : list (string * QuoteRecord F)) :
  positive_counts (sector_distribution (collect l)).
Proof. apply collect_positive. constructor. Qed.

Lemma analysis_ok (stock_data : PyDict.dict (QuoteRecord F)) :
  exists r, portfolio_risk_analysis stock_data = Ok r.
Proof.
  unfold portfolio_risk_analysis, _assess_portfolio_health.
  set (c := collect (valid_stocks stock_data)).
  destruct (diversification_ok (collect_positive_counts
                                  (valid_stocks stock_data))) as [s Hs].
  destruct (concentration_ok (collect_positive_counts
                                (valid_stocks stock_data))) as [n Hn].
  destruct (classify_ok (market_caps c)) as [m Hm].
  fold c in Hs, Hn. rewrite Hs, Hn, Hm. simpl. eauto.
Qed.

(** The result depends on the input only through the valid records. *)
Lemma analysis_depends_on_valid (sd sd' : PyDict.dict (QuoteRecord F)) :
  collect (valid_stocks sd) = collect (valid_stocks sd') ->
  List.length (valid_stocks sd) = List.length (valid_stocks sd') ->
  portfolio_risk_analysis sd = portfolio_risk_analysis sd'.
Proof.
  intros Hc Hl. unfold portfolio_risk_analysis, PyDict.len.
  now rewrite Hc, Hl.
Qed.

Lemma valid_stocks_app (sd1 sd2 : PyDict.dict (QuoteRecord F)) :
  valid_stocks (sd1 ++ sd2) = valid_stocks sd1 ++ valid_stocks sd2.
Proof. apply filter_app. Qed.

Lemma valid_stocks_insert sd1 sd2 (t : string) (data : QuoteRecord F) :
  valid_stocks (sd1 ++ (t, data) :: sd2)
  = valid_stocks sd1
    ++ (if no_error data then [(t, data)] else []) ++ valid_stocks sd2.
Proof.
  rewrite valid_stocks_app. unfold valid_stocks at 2. simpl.
  now destruct (no_error data).
Qed.

End Generic.
End AnalysisFacts.

Module AnalysisClaims.
Import AnalysisAgent AnalysisFacts.

Section Generic.
Context {F : Type} {A : Arith F}.

Lemma collect_views (l : list (string * QuoteRecord F)) :
  market_caps (collect l) = map cap_of l
  /\ prices (collect l) = map price_of l
  /\ pe_ratios (collect l) = flat_map pe_of l.
Proof.
  unfold collect.
  rewrite collect_market_caps, collect_prices, collect_pe_ratios.
  auto.
Qed.

(** Every field of a returned analysis, read off the valid records. *)
Lemma analysis_fields (sd : PyDict.dict (QuoteRecord F)) r :
  portfolio_risk_analysis sd = Ok r ->
  let valid := valid_stocks sd in
  total_stocks r = List.length valid
  /\ total_market_cap (risk_metrics r) = py_sum_int (map cap_of valid)
  /\ avg_market_cap (risk_metrics r)
     = mean_or_zero (map of_int (map cap_of valid))
  /\ market_cap_std_dev (risk_metrics r)
     = std_or_zero (map of_int (map cap_of valid))
  /\ avg_price (risk_metrics r) = mean_or_zero (map price_of valid)
  /\ price_volatility (risk_metrics r) = std_or_zero (map price_of valid)
  /\ avg_pe_ratio (risk_metrics r) = mean_or_zero (flat_map pe_of valid)
  /\ pe_ratio_volatility (risk_metrics r)
     = std_or_zero (flat_map pe_of valid)
  /\ valuation_health (portfolio_health_indicators r)
     = _assess_valuation_health (flat_map pe_of valid)
  /\ _classify_market_cap_distribution (map cap_of valid)
     = Ok (market_cap_distribution (portfolio_health_indicators r)).
Proof.
  unfold portfolio_risk_analysis, _assess_portfolio_health.
  destruct (collect_views (valid_stocks sd)) as (Hc & Hp & He).
  rewrite Hc, Hp, He.
  destruct (_calculate_diversification_score _) as [s|]; [|discriminate].
  destruct (_analyze_sector_concentration _) as [n|]; [|discriminate].
  destruct (_classify_market_cap_distribution _) as [m|] eqn:Hm;
    [|discriminate].
  simpl. intros H; injection H as <-. simpl.
  repeat split; reflexivity.
Qed.

Lemma valid_stocks_drop_failed sd1 sd2 (t : string) (data : QuoteRecord F) :
  error data <> None ->
  valid_stocks (sd1 ++ (t, data) :: sd2) = valid_stocks (sd1 ++ sd2).
Proof.
  intros He. rewrite valid_stocks_insert, valid_stocks_app.
  unfold no_error. destruct (error data); [reflexivity | congruence].
Qed.

Lemma valid_stocks_idempotent (sd : PyDict.dict (QuoteRecord F)) :
  valid_stocks (valid_stocks sd) = valid_stocks sd.
Proof.
  unfold valid_stocks. induction sd as [|x sd IH]; simpl; auto.
  destruct (no_error (snd x)) eqn:E; simpl; rewrite ?E, IH; reflexivity.
Qed.

Lemma valid_stocks_none (sd : PyDict.dict (QuoteRecord F)) :
  (forall item, In item sd -> error (snd item) <> None) ->
  valid_stocks sd = [].
Proof.
  unfold valid_stocks. induction sd as [|x sd IH]; intros Hall; simpl; auto.
  unfold no_error at 1. destruct (error (snd x)) eqn:E.
  - apply IH. intros item Hi. apply Hall. now right.
  - exfalso. apply (Hall x); [now left | exact E].
Qed.

(** Changing one record without changing what the loop collects from it
    leaves the whole analysis unchanged. *)
Lemma analysis_replace sd1 sd2 (t : string) (d d' : QuoteRecord F) :
  no_error d = no_error d' ->
  (forall c, collect_one c (t, d) = collect_one c (t, d')) ->
  portfolio_risk_analysis (sd1 ++ (t, d) :: sd2)
  = portfolio_risk_analysis (sd1 ++ (t, d') :: sd2).
Proof.
  intros Hv Hc. apply analysis_depends_on_valid.
  - rewrite !valid_stocks_insert, <- Hv.
    destruct (no_error d); simpl; [|reflexivity].
    unfold collect. rewrite !fold_left_app_one. now rewrite Hc.
  - rewrite !valid_stocks_insert, <- Hv.
    destruct (no_error d); simpl; rewrite !length_app; reflexivity.
Qed.

Lemma ignored_pe_ratio sd1 sd2 (t : string) (data : QuoteRecord F) (pe : F) :
  truthy pe = false ->
  portfolio_risk_analysis
    (sd1 ++ (t, with_pe_ratio (Some (Some pe)) data) :: sd2)
  = portfolio_risk_analysis (sd1 ++ (t, with_pe_ratio None data) :: sd2).
Proof.
  intros Hpe. apply analysis_replace; [reflexivity|].
  intros c. unfold collect_one; simpl. now rewrite Hpe.
Qed.

Lemma none_pe_ratio sd1 sd2 (t : string) (data : QuoteRecord F) :
  portfolio_risk_analysis (sd1 ++ (t, with_pe_ratio (Some None) data) :: sd2)
  = portfolio_risk_analysis (sd1 ++ (t, with_pe_ratio None data) :: sd2).
Proof. apply analysis_replace; reflexivity. Qed.




End Generic.

(** C7.  The analyzer partitions its input by the error marker and failed
    records contribute to nothing it reports: it returns a result whose
    [total_stocks] is the number of records without an ['error'] key, the
    result is the one computed from the valid records alone, and removing a
    failed record from anywhere in the batch changes no field of it. *)
Theorem failed_records_contribute_nothing
  {F : Type} {A : Arith F} (stock_data : PyDict.dict (QuoteRecord F)) :
  (exists r, portfolio_risk_analysis stock_data = Ok r
             /\ total_stocks r
                = List.length
                    (filter (fun item =>
                               match error (snd item) with
                               | None => true | Some _ => false end)
                            stock_data))
  /\ portfolio_risk_analysis stock_data
     = portfolio_risk_analysis
         (filter (fun item => match error (snd item) with
                              | None => true | Some _ => false end)
                 stock_data)
  /\ (forall sd1 sd2 t data,
        stock_data = sd1 ++ (t, data) :: sd2 ->
        error data <> None ->
        portfolio_risk_analysis stock_data
        = portfolio_risk_analysis (sd1 ++ sd2)).
Proof.
  split; [|split].
  - destruct (analysis_ok stock_data) as [r Hr]. exists r. split; [exact Hr|].
    now destruct (analysis_fields _ Hr) as (Ht & _).
  - apply analysis_depends_on_valid;
      change (filter _ stock_data) with (valid_stocks stock_data);
      now rewrite valid_stocks_idempotent.
  - intros sd1 sd2 t data -> He.
    apply analysis_depends_on_valid;
      now rewrite valid_stocks_drop_failed by exact He.
Qed.

Lemma failed_records_contribute_nothing_witness :
  portfolio_risk_analysis (A := Samples.exact_arith)
    [("AAPL"%string, Samples.aapl); ("XYZ"%string, Samples.failed)]
  = portfolio_risk_analysis (A := Samples.exact_arith)
      ([("AAPL"%string, Samples.aapl)] ++ []).
Proof.
  destruct (failed_records_contribute_nothing (A := Samples.exact_arith)
              [("AAPL"%string, Samples.aapl); ("XYZ"%string, Samples.failed)])
    as (_ & _ & H).
  apply (H [("AAPL"%string, Samples.aapl)] [] "XYZ"%string Samples.failed).
  - reflexivity.
  - discriminate.
Defined.

Section Exact.
Variables (log : Q -> Q) (std : list Q -> Q) (str : Q -> string).

Local Abbreviation EX := (exact log std str).

Lemma tiers_total (caps : list Z) :
  caps <> [] ->
  large_cap_percentage (tiers_of (A := EX) caps)
  + mid_cap_percentage (tiers_of (A := EX) caps)
  + small_cap_percentage (tiers_of (A := EX) caps) == 100.
Proof.
  intros Hne. unfold tiers_of; simpl.
  pose proof (tiers_partition caps) as Hsum.
  set (L := count_if _ caps) in *.
  set (M := count_if (fun cap => (cap <? _)%Z && _) caps) in *.
  set (S := count_if (fun cap => (cap <? _)%Z) caps) in *.
  set (T := Z.of_nat (List.length caps)) in *.
  assert (HT : ~ inject_Z T == 0).
  { intros H0. apply (eq_sym) in Hsum.
    assert (T = 0%Z) as HT0.
    { unfold Qeq in H0; simpl in H0. lia. }
    subst T. destruct caps; [congruence | simpl in HT0; lia]. }
  assert (HQ : inject_Z L + inject_Z M + inject_Z S == inject_Z T).
  { rewrite <- !inject_Z_plus. now rewrite Hsum. }
  transitivity ((inject_Z L + inject_Z M + inject_Z S) / inject_Z T * 100).
  - change (inject_Z 100) with 100. field. exact HT.
  - rewrite HQ. field. exact HT.
Qed.

Lemma truthy_zero (pe : Q) : pe == 0 -> @truthy Q EX pe = false.
Proof.
  intros H. simpl. apply negb_false_iff. now apply Qeq_bool_iff.
Qed.

Lemma fold_Qplus_shift (l : list Q) (a : Q) :
  fold_left Qplus l a == a + fold_left Qplus l 0.
Proof.
  revert a; induction l as [|x l IH]; intros a; simpl.
  - ring.
  - rewrite IH, (IH (0 + x)). ring.
Qed.



End Exact.

(** C8.  In exact arithmetic the three market-cap tier percentages of the
    returned analysis sum to exactly 100 whenever the batch holds at least
    one record without an error marker, and all three are 0 when it holds
    none. *)
Theorem market_cap_tiers_sum_to_100
  (log : Q -> Q) (std : list Q -> Q) (str : Q -> string)
  (stock_data : PyDict.dict (QuoteRecord Q)) :
  exists r,
    portfolio_risk_analysis (A := exact log std str) stock_data = Ok r
    /\ ((exists item, In item stock_data /\ error (snd item) = None) ->
        large_cap_percentage
          (market_cap_distribution (portfolio_health_indicators r))
        + mid_cap_percentage
            (market_cap_distribution (portfolio_health_indicators r))
        + small_cap_percentage
            (market_cap_distribution (portfolio_health_indicators r))
        == 100)
    /\ ((forall item, In item stock_data -> error (snd item) <> None) ->
        large_cap_percentage
          (market_cap_distribution (portfolio_health_indicators r)) = 0
        /\ mid_cap_percentage
             (market_cap_distribution (portfolio_health_indicators r)) = 0
        /\ small_cap_percentage
             (market_cap_distribution (portfolio_health_indicators r)) = 0).
Proof.
  destruct (analysis_ok (A := exact log std str) stock_data) as [r Hr].
  exists r. split; [exact Hr|].
  destruct (analysis_fields _ Hr) as (_ & _ & _ & _ & _ & _ & _ & _ & _ & Hm).
  split.
  - intros (item & Hin & Herr).
    assert (Hne : map (cap_of (F := Q)) (valid_stocks stock_data) <> []).
    { assert (In item (valid_stocks stock_data)) as Hv.
      { apply filter_In. split; [exact Hin|]. unfold no_error. now rewrite Herr. }
      destruct (valid_stocks stock_data); [inversion Hv | discriminate]. }
    rewrite (classify_nonempty (A := exact log std str) Hne) in Hm.
    injection Hm as <-. apply tiers_total. exact Hne.
  - intros Hall.
    assert (Hnil : valid_stocks stock_data = []).
    { apply valid_stocks_none. exact Hall. }
    rewrite Hnil in Hm. simpl in Hm. injection Hm as <-. simpl. auto.
Qed.

(** C9.  A P/E ratio that is present but equal to zero is left out of every
    P/E statistic exactly as an absent one: the two batches have the same
    analysis.  The P/E statistics of any batch are those of the nonzero
    P/E values present in its valid records ([pe_of]). *)
Theorem zero_pe_ratio_counts_as_absent
  (log : Q -> Q) (std : list Q -> Q) (str : Q -> string)
  (sd1 sd2 : PyDict.dict (QuoteRecord Q)) (t : string)
  (data : QuoteRecord Q) (pe : Q) :
  pe == 0 ->
  portfolio_risk_analysis (A := exact log std str)
    (sd1 ++ (t, with_pe_ratio (Some (Some pe)) data) :: sd2)
  = portfolio_risk_analysis (A := exact log std str)
      (sd1 ++ (t, with_pe_ratio None data) :: sd2)
  /\ exists r,
       portfolio_risk_analysis (A := exact log std str)
         (sd1 ++ (t, with_pe_ratio (Some (Some pe)) data) :: sd2) = Ok r
       /\ let contributing :=
            flat_map (pe_of (A := exact log std str))
              (valid_stocks (sd1 ++ (t, with_pe_ratio None data) :: sd2)) in
          avg_pe_ratio (risk_metrics r)
          = mean_or_zero (A := exact log std str) contributing
          /\ pe_ratio_volatility (risk_metrics r)
             = std_or_zero (A := exact log std str) contributing
          /\ valuation_health (portfolio_health_indicators r)
             = _assess_valuation_health (A := exact log std str) contributing.
Proof.
  intros Hpe.
  assert (Heq :
    portfolio_risk_analysis (A := exact log std str)
      (sd1 ++ (t, with_pe_ratio (Some (Some pe)) data) :: sd2)
    = portfolio_risk_analysis (A := exact log std str)
        (sd1 ++ (t, with_pe_ratio None data) :: sd2)).
  { apply (ignored_pe_ratio (A := exact log std str)).
    apply truthy_zero. exact Hpe. }
  split; [exact Heq|].
  destruct (analysis_ok (A := exact log std str)
              (sd1 ++ (t, with_pe_ratio None data) :: sd2)) as [r Hr].
  exists r. split; [now rewrite Heq|].
  destruct (analysis_fields _ Hr)
    as (_ & _ & _ & _ & _ & _ & Ha & Hv & Hh & _).
  auto.
Qed.

Section Inclusion.
Variables (log : Q -> Q) (std : list Q -> Q) (str : Q -> string).

Local Abbreviation EX := (exact log std str).











End Inclusion.


Lemma market_cap_tiers_sum_to_100_witness :
  exists r,
    portfolio_risk_analysis (A := Samples.exact_arith)
      [("AAPL"%string, Samples.aapl); ("XYZ"%string, Samples.failed)] = Ok r
    /\ large_cap_percentage
         (market_cap_distribution (portfolio_health_indicators r))
       + mid_cap_percentage
           (market_cap_distribution (portfolio_health_indicators r))
       + small_cap_percentage
           (market_cap_distribution (portfolio_health_indicators r))
       == 100.
Proof.
  destruct (market_cap_tiers_sum_to_100
              (fun x => x - 1) (fun _ => 0) (fun _ => "0.0"%string)
              [("AAPL"%string, Samples.aapl); ("XYZ"%string, Samples.failed)])
    as (r & Hr & Hsum & _).
  exists r. split; [exact Hr|]. apply Hsum.
  exists ("AAPL"%string, Samples.aapl). split; [now left | reflexivity].
Defined.

Lemma zero_pe_ratio_counts_as_absent_witness :
  0 == 0
  /\ portfolio_risk_analysis (A := Samples.exact_arith)
       ([] ++ ("AAPL"%string, with_pe_ratio (Some (Some 0)) Samples.aapl) :: [])
     = portfolio_risk_analysis (A := Samples.exact_arith)
         ([] ++ ("AAPL"%string, with_pe_ratio None Samples.aapl) :: []).
Proof.
  split; [reflexivity|].
  apply (zero_pe_ratio_counts_as_absent
           (fun x => x - 1) (fun _ => 0) (fun _ => "0.0"%string)
           [] [] "AAPL"%string Samples.aapl (pe := 0)).
  reflexivity.
Defined.


End AnalysisClaims.

(** * The diversification score in binary64 *)

Module DiversificationClaims.
Import AnalysisAgent.

(** With no sector at all the score is 0. *)
Lemma no_sector_score_is_zero
  (log : float -> float) (std : list float -> float) (str : float -> string) :
  _calculate_diversification_score (A := binary64 log std str) []
  = Ok 0%float.
Proof. reflexivity. Qed.

(** C4.  For the distribution of a single-sector portfolio,
    [{"Technology": 1}], the entropy sum and [np.log(1)] are both 0 and
    the score returned is their quotient, NaN: it is not 0 and not in
    [0,100]. *)
Theorem single_sector_score_is_nan
  (log : float -> float) (std : list float -> float) (str : float -> string) :
  log 1%float = 0%float ->
  exists score,
    _calculate_diversification_score (A := binary64 log std str)
      [("Technology"%string, 1%Z)] = Ok score
    /\ PrimFloat.is_nan score = true
    /\ PrimFloat.eqb score 0%float = false
    /\ PrimFloat.leb 0%float score = false
    /\ PrimFloat.leb score 100%float = false.
Proof.
  intros Hlog.
  unfold _calculate_diversification_score, py_truediv, py_sum, py_min, py_max.
  cbn [PyDict.values PyDict.len map snd List.length py_sum_int fold_left
       map_result bind Z.eqb Z.add Nat.ltb Nat.leb].
  cbn [of_int fdiv fmul fneg fadd flt np_log binary64 Z.of_nat].
  replace (PrimFloat.div (float_of_int 1) (float_of_int 1)) with 1%float
    by reflexivity.
  replace (float_of_int (Z.pos (Pos.of_succ_nat 0))) with 1%float
    by reflexivity.
  rewrite Hlog.
  eexists. split; [reflexivity|]. repeat split; reflexivity.
Qed.

Lemma single_sector_score_is_nan_witness :
  (fun x : float => PrimFloat.sub x 1) 1%float = 0%float
  /\ exists score,
       _calculate_diversification_score
         (A := binary64 (fun x => PrimFloat.sub x 1) (fun _ => 0%float)
                        (fun _ => EmptyString))
         [("Technology"%string, 1%Z)] = Ok score
       /\ PrimFloat.is_nan score = true
       /\ PrimFloat.eqb score 0%float = false
       /\ PrimFloat.leb 0%float score = false
       /\ PrimFloat.leb score 100%float = false.
Proof.
  split; [reflexivity|].
  apply (single_sector_score_is_nan
           (fun x => PrimFloat.sub x 1) (fun _ => 0%float)
           (fun _ => EmptyString)).
  reflexivity.
Defined.

End DiversificationClaims.

(** * Dictionaries built by successive insertions *)

Module PyDictFacts.
Section Keys.
Variable V : Type.

Lemma keys_set (d : PyDict.dict V) (k : string) (v : V) :
  PyDict.keys (PyDict.set d k v) = PyDict.insert_key (PyDict.keys d) k.
Proof.
  unfold PyDict.insert_key, PyDict.keys.
  induction d as [|[k' v'] d IH]; simpl.
  - reflexivity.
  - rewrite (String.eqb_sym k k').
    destruct (String.eqb_spec k' k) as [->|Hne]; simpl.
    + reflexivity.
    + rewrite IH. now destruct (existsb (String.eqb k) (map fst d)).
Qed.

Lemma keys_fold (f : PyDict.dict V -> string -> V) (l : list string)
  (d : PyDict.dict V) :
  PyDict.keys (fold_left (fun d t => PyDict.set d t (f d t)) l d)
  = fold_left PyDict.insert_key l (PyDict.keys d).
Proof.
  revert d; induction l as [|t l IH]; intros d; simpl.
  - reflexivity.
  - now rewrite IH, keys_set.
Qed.

End Keys.

Lemma set_Forall_values {V : Type} (P : V -> Prop) (d : PyDict.dict V)
  (k : string) (v : V) :
  Forall P (PyDict.values d) -> P v -> Forall P (PyDict.values (PyDict.set d k v)).
Proof.
  unfold PyDict.values. intros Hd Hv.
  induction d as [|[k' v'] d IH]; simpl.
  - constructor; [exact Hv | constructor].
  - inversion Hd; subst.
    destruct (String.eqb k' k); simpl; constructor; auto.
Qed.

Lemma fold_set_Forall {V : Type} (P : V -> Prop) (f : string -> V)
  (l : list string) (d : PyDict.dict V) :
  (forall t, P (f t)) -> Forall P (PyDict.values d) ->
  Forall P (PyDict.values (fold_left (fun d t => PyDict.set d t (f t)) l d)).
Proof.
  intros Hf. revert d; induction l as [|t l IH]; intros d Hd; simpl; auto.
  apply IH, set_Forall_values; auto.
Qed.

Lemma existsb_eqb_In (k : string) (ks : list string) :
  existsb (String.eqb k) ks = true <-> In k ks.
Proof.
  rewrite existsb_exists. split.
  - intros (x & Hx & He). apply String.eqb_eq in He. now subst.
  - intros H. exists k. split; [exact H | apply String.eqb_refl].
Qed.

Lemma insert_key_In (ks : list string) (k t : string) :
  In t (PyDict.insert_key ks k) <-> In t ks \/ t = k.
Proof.
  unfold PyDict.insert_key.
  destruct (existsb (String.eqb k) ks) eqn:E.
  - apply existsb_eqb_In in E. split; [auto|]. intros [H| ->]; assumption.
  - rewrite in_app_iff. simpl. intuition.
Qed.

Lemma insert_key_NoDup (ks : list string) (k : string) :
  NoDup ks -> NoDup (PyDict.insert_key ks k).
Proof.
  intros Hnd. unfold PyDict.insert_key.
  destruct (existsb (String.eqb k) ks) eqn:E; [exact Hnd|].
  assert (~ In k ks) as Hk.
  { intros Hin. apply existsb_eqb_In in Hin. congruence. }
  clear E. induction Hnd as [|x ks Hx Hnd IH]; simpl.
  - constructor; [intros [] | constructor].
  - constructor.
    + rewrite in_app_iff. simpl. intros [H|[H|[]]]; [auto|].
      subst. apply Hk. now left.
    + apply IH. intros H. apply Hk. now right.
Qed.

Lemma fold_insert_In (l ks : list string) (t : string) :
  In t (fold_left PyDict.insert_key l ks) <-> In t ks \/ In t l.
Proof.
  revert ks; induction l as [|x l IH]; intros ks; simpl.
  - intuition.
  - rewrite IH, insert_key_In. intuition.
Qed.

Lemma fold_insert_NoDup (l ks : list string) :
  NoDup ks -> NoDup (fold_left PyDict.insert_key l ks).
Proof.
  revert ks; induction l as [|x l IH]; intros ks H; simpl; auto.
  apply IH, insert_key_NoDup, H.
Qed.

Lemma fold_insert_fresh (l ks : list string) :
  NoDup l -> (forall t, In t l -> ~ In t ks) ->
  fold_left PyDict.insert_key l ks = ks ++ l.
Proof.
  revert ks; induction l as [|x l IH]; intros ks Hnd Hfresh; simpl.
  - now rewrite app_nil_r.
  - inversion Hnd as [|? ? Hx Hl]; subst.
    assert (PyDict.insert_key ks x = ks ++ [x]) as ->.
    { unfold PyDict.insert_key.
      destruct (existsb (String.eqb x) ks) eqn:E; [|reflexivity].
      apply existsb_eqb_In in E. exfalso. apply (Hfresh x); [now left | exact E]. }
    rewrite IH; [now rewrite <- app_assoc | exact Hl |].
    intros t Ht. rewrite in_app_iff. simpl. intros [H|[H|[]]].
    + apply (Hfresh t); [now right | exact H].
    + subst. contradiction.
Qed.

Lemma distinct_spec (l : list string) :
  NoDup (PyDict.distinct l)
  /\ (forall t, In t (PyDict.distinct l) <-> In t l)
  /\ (NoDup l -> PyDict.distinct l = l).
Proof.
  unfold PyDict.distinct. split; [|split].
  - apply fold_insert_NoDup. constructor.
  - intros t. rewrite fold_insert_In. simpl. intuition.
  - intros H. now rewrite fold_insert_fresh.
Qed.

End PyDictFacts.

(** * The FETCH stage *)

Module FetchClaims.

Lemma fetch_stock_data_keys {F : Type} (yf : @APIAgent.YFinance F)
  (tickers : list string) :
  PyDict.keys (APIAgent.fetch_stock_data yf tickers) = PyDict.distinct tickers.
Proof.
  unfold APIAgent.fetch_stock_data, PyDict.distinct.
  destruct (APIAgent.download yf tickers) as [price_data|e].
  - apply (PyDictFacts.keys_fold
             (fun _ ticker =>
                try_except (APIAgent.fetch_one yf price_data tickers ticker)
                           (fun e => APIAgent.error_record (exn_str e)))).
  - apply (PyDictFacts.keys_fold
             (fun _ _ => APIAgent.error_record "Batch fetch failed")).
Qed.

Lemma crawl_financial_news_keys (web : ScrapingAgent.Web)
  (tickers : list string) :
  PyDict.keys (ScrapingAgent.crawl_financial_news web tickers)
  = PyDict.distinct tickers.
Proof.
  unfold ScrapingAgent.crawl_financial_news, PyDict.distinct.
  apply (PyDictFacts.keys_fold
           (fun _ ticker =>
              fold_left (ScrapingAgent.scrape_source web)
                        (ScrapingAgent.news_sources ticker) [])).
Qed.

Lemma fetch_stock_data_settled {F : Type} (yf : @APIAgent.YFinance F)
  (tickers : list string) :
  Forall APIAgent.settled
         (PyDict.values (APIAgent.fetch_stock_data yf tickers)).
Proof.
  unfold APIAgent.fetch_stock_data.
  destruct (APIAgent.download yf tickers) as [price_data|e].
  - apply (@PyDictFacts.fold_set_Forall _ APIAgent.settled
             (fun ticker =>
                try_except (APIAgent.fetch_one yf price_data tickers ticker)
                           (fun e => APIAgent.error_record (exn_str e))));
      [|constructor].
    intros t. unfold APIAgent.fetch_one, APIAgent.settled.
    destruct (APIAgent.ticker_info yf t) as [info|e]; simpl; [|eauto].
    destruct (if (List.length tickers =? 1)%nat then price_data None
              else price_data (Some t)) as [p|e]; simpl; [|eauto].
    right. split; [reflexivity|]. eauto.
  - apply (@PyDictFacts.fold_set_Forall _ APIAgent.settled
             (fun _ => APIAgent.error_record "Batch fetch failed"));
      [|constructor].
    intros _. left. eauto.
Qed.

Lemma len_keys {V : Type} (d : PyDict.dict V) :
  PyDict.len d = List.length (PyDict.keys d).
Proof. unfold PyDict.len, PyDict.keys. now rewrite length_map. Qed.

(** C5, as stated, fails on a list with a repeated ticker: two tickers,
    one quote record and one news list, with every provider answering. *)
Lemma repeated_ticker_yields_one_record :
  PyDict.len (APIAgent.fetch_stock_data Samples.online_yfinance
                ["AAPL"; "AAPL"]%string) = 1%nat
  /\ PyDict.len (ScrapingAgent.crawl_financial_news Samples.offline_web
                   ["AAPL"; "AAPL"]%string) = 1%nat
  /\ ~ (forall (yf : @APIAgent.YFinance Q) (web : ScrapingAgent.Web)
               (tickers : list string),
          PyDict.len (APIAgent.fetch_stock_data yf tickers)
          = List.length tickers
          /\ PyDict.len (ScrapingAgent.crawl_financial_news web tickers)
             = List.length tickers).
Proof.
  split; [reflexivity|]. split; [reflexivity|].
  intros H.
  destruct (H Samples.online_yfinance Samples.offline_web
              ["AAPL"; "AAPL"]%string) as [H1 _].
  vm_compute in H1. discriminate.
Qed.

(** C5, amended.  The FETCH stage produces one quote record, valid or
    failed, and one news list per distinct ticker, keyed by ticker in
    order of first occurrence, whatever the providers answer; for a list
    of n pairwise distinct tickers that is exactly n records and n news
    lists. *)
Theorem fetch_one_entry_per_distinct_ticker
  {F : Type} (yf : @APIAgent.YFinance F) (web : ScrapingAgent.Web)
  (tickers : list string) :
  PyDict.keys (APIAgent.fetch_stock_data yf tickers) = PyDict.distinct tickers
  /\ PyDict.keys (ScrapingAgent.crawl_financial_news web tickers)
     = PyDict.distinct tickers
  /\ Forall APIAgent.settled
            (PyDict.values (APIAgent.fetch_stock_data yf tickers))
  /\ NoDup (PyDict.distinct tickers)
  /\ (forall t, In t (PyDict.distinct tickers) <-> In t tickers)
  /\ (NoDup tickers ->
      PyDict.keys (APIAgent.fetch_stock_data yf tickers) = tickers
      /\ PyDict.len (APIAgent.fetch_stock_data yf tickers)
         = List.length tickers
      /\ PyDict.keys (ScrapingAgent.crawl_financial_news web tickers)
         = tickers
      /\ PyDict.len (ScrapingAgent.crawl_financial_news web tickers)
         = List.length tickers).
Proof.
  destruct (PyDictFacts.distinct_spec tickers) as (Hnd & Hin & Hid).
  repeat split; try apply Hin; auto using fetch_stock_data_keys,
    crawl_financial_news_keys, fetch_stock_data_settled.
  all: intros; rewrite ?len_keys, ?fetch_stock_data_keys,
    ?crawl_financial_news_keys, Hid; auto.
Qed.

Lemma fetch_one_entry_per_distinct_ticker_witness :
  NoDup ["AAPL"; "MSFT"]%string
  /\ PyDict.len (APIAgent.fetch_stock_data Samples.offline_yfinance
                   ["AAPL"; "MSFT"]%string) = 2%nat
  /\ PyDict.len (ScrapingAgent.crawl_financial_news Samples.offline_web
                   ["AAPL"; "MSFT"]%string) = 2%nat.
Proof.
  assert (Hnd : NoDup ["AAPL"; "MSFT"]%string).
  { constructor; [simpl; intros [H|[]]; discriminate|].
    constructor; [intros [] | constructor]. }
  split; [exact Hnd|].
  destruct (fetch_one_entry_per_distinct_ticker
              Samples.offline_yfinance Samples.offline_web
              ["AAPL"; "MSFT"]%string) as (_ & _ & _ & _ & _ & H).
  destruct (H Hnd) as (_ & H1 & _ & H2). split; [exact H1 | exact H2].
Defined.

End FetchClaims.

(** * Ticker resolution *)

Module TickerClaims.
Import AgentCoordinator.

Lemma split_not_nil (sep : ascii) (s : string) : PyStr.split sep s <> [].
Proof.
  destruct s as [|c s]; simpl; [discriminate|].
  destruct (Ascii.eqb c sep); [discriminate|].
  destruct (PyStr.split sep s); discriminate.
Qed.

(** A reply of the model, whatever its text, is split and normalized; the
    list is never empty, so the fallback branch of the conditional
    expression is never taken. *)
Lemma extract_on_reply {F : Type} (c : @Collaborators F) (query text : string) :
  generate_content c (extraction_prompt query) = Ok text ->
  _extract_tickers_with_gemini c query
  = map (fun ticker => PyStr.upper (PyStr.strip ticker))
        (PyStr.split "," (PyStr.strip text)).
Proof.
  intros H. unfold _extract_tickers_with_gemini. rewrite H. simpl.
  pose proof (split_not_nil "," (PyStr.strip text)) as Hne.
  destruct (PyStr.split "," (PyStr.strip text)); [congruence | reflexivity].
Qed.

Lemma extract_on_error {F : Type} (c : @Collaborators F) (query : string) e :
  generate_content c (extraction_prompt query) = Raise e ->
  _extract_tickers_with_gemini c query = fallback_tickers.
Proof.
  intros H. unfold _extract_tickers_with_gemini. now rewrite H.
Qed.


(** C6.  When the extraction collaborator returns an empty text, the
    resolver returns the one-element list holding the empty symbol, not
    the fallback ticker set: [''.split(',')] is [['']], which is truthy. *)
Theorem empty_reply_is_not_replaced_by_fallback
  {F : Type} (c : @Collaborators F) (query : string) :
  generate_content c (extraction_prompt query) = Ok EmptyString ->
  _extract_tickers_with_gemini c query = [EmptyString]
  /\ _extract_tickers_with_gemini c query <> fallback_tickers.
Proof.
  intros H. rewrite (extract_on_reply c query H). split.
  - reflexivity.
  - discriminate.
Qed.

Lemma empty_reply_is_not_replaced_by_fallback_witness :
  _extract_tickers_with_gemini
    (Samples.collaborators (Ok EmptyString) Samples.length_encoder)
    "How are tech stocks doing?"
  = [EmptyString].
Proof.
  apply (empty_reply_is_not_replaced_by_fallback
           (Samples.collaborators (Ok EmptyString) Samples.length_encoder)
           "How are tech stocks doing?").
  reflexivity.
Defined.

End TickerClaims.

(** * Indexing and retrieval *)

Module RetrieverFacts.
Import RetrieverAgent.

Section Generic.
Context {F : Type} {A : Arith F}.

Lemma embed_documents_total (emb : string -> list F) (docs : list (@Document F))
  (embeddings : list (list F)) (store : list (@Document F)) :
  embed_documents (fun text => Ok (emb text)) docs embeddings store
  = (Ok (embeddings ++ map (fun doc => emb (_document_to_text doc)) docs),
     store ++ docs).
Proof.
  revert embeddings store; induction docs as [|doc docs IH];
    intros embeddings store; simpl.
  - now rewrite !app_nil_r.
  - rewrite IH, <- !app_assoc. reflexivity.
Qed.

Lemma np_array_uniform (dim : nat) (embeddings : list (list F)) :
  (forall v, In v embeddings -> List.length v = dim) ->
  np_array embeddings = Ok embeddings.
Proof.
  intros H. destruct embeddings as [|v rest]; simpl; [reflexivity|].
  replace (forallb _ rest) with true; [reflexivity|].
  symmetry. apply forallb_forall. intros w Hw.
  apply Nat.eqb_eq. rewrite (H v), (H w); simpl; auto.
Qed.

(** What [index_documents] does with an encoder that answers every text
    with a vector of one dimension. *)
Lemma index_documents_total (emb : string -> list F) (dim : nat)
  (self : @State F) (doc : @Document F) (docs : list (@Document F)) :
  (forall text, List.length (emb text) = dim) ->
  index_documents (fun text => Ok (emb text)) self (doc :: docs)
  = (Ok tt,
     {| faiss_index :=
          Some {| dimension := dim;
                  vectors := map (fun d => emb (_document_to_text d))
                                 (doc :: docs) |};
        document_store := doc :: docs |}).
Proof.
  intros Hdim. unfold index_documents.
  rewrite embed_documents_total. cbn [app bind].
  rewrite (@np_array_uniform dim).
  - cbn [bind shape_1 map]. now rewrite Hdim.
  - intros v Hv. apply in_map_iff in Hv. destruct Hv as (d & <- & _).
    apply Hdim.
Qed.

Lemma index_documents_empty (encode : @Encoder F) (self : @State F) :
  index_documents encode self []
  = (Raise IndexError,
     {| faiss_index := faiss_index self; document_store := [] |}).
Proof. reflexivity. Qed.

End Generic.
End RetrieverFacts.

Module IndexingClaims.
Import RetrieverAgent RetrieverFacts.

(** C3, as stated, fails: a document without extractable text (a failed
    quote record) is embedded, stored and indexed like any other, and no
    error is raised although every document has an empty text. *)
Lemma empty_text_document_is_indexed :
  _document_to_text (A := Samples.exact_arith)
    [("error"%string, PyStr "Batch fetch failed"%string)] = EmptyString
  /\ index_documents (A := Samples.exact_arith) Samples.length_encoder init
       [[("error"%string, PyStr "Batch fetch failed"%string)]]
     = (Ok tt,
        {| faiss_index := Some {| dimension := 1; vectors := [[0]] |};
           document_store :=
             [[("error"%string, PyStr "Batch fetch failed"%string)]] |}).
Proof. split; reflexivity. Qed.

(** C3, amended.  With an encoder that answers every text with a vector of
    one dimension, [index_documents] on a non-empty sequence stores every
    document, in order, whatever its text, and builds the index over one
    embedding per document.  On the empty sequence it raises [IndexError]
    for every encoder, builds no index (the previous one stays) and
    leaves the store empty. *)
Theorem index_documents_keeps_every_document
  {F : Type} {A : Arith F} (emb : string -> list F) (dim : nat)
  (self : @State F) (docs : list (@Document F)) :
  (forall text, List.length (emb text) = dim) ->
  (docs <> [] ->
   index_documents (fun text => Ok (emb text)) self docs
   = (Ok tt,
      {| faiss_index :=
           Some {| dimension := dim;
                   vectors := map (fun d => emb (_document_to_text d)) docs |};
         document_store := docs |}))
  /\ (forall encode : @Encoder F,
        index_documents encode self []
        = (Raise IndexError,
           {| faiss_index := faiss_index self; document_store := [] |})).
Proof.
  intros Hdim. split.
  - destruct docs as [|doc docs]; [congruence|]. intros _.
    now apply index_documents_total.
  - intros encode. apply index_documents_empty.
Qed.

Lemma index_documents_keeps_every_document_witness :
  index_documents (A := Samples.exact_arith)
    (fun text => Ok [inject_Z (Z.of_nat (String.length text))]) init
    [Samples.headline; [("error"%string, PyStr "Batch fetch failed"%string)]]
  = (Ok tt,
     {| faiss_index :=
          Some {| dimension := 1;
                  vectors :=
                    map (fun d =>
                           [inject_Z (Z.of_nat (String.length
                              (_document_to_text (A := Samples.exact_arith) d)))])
                        [Samples.headline;
                         [("error"%string, PyStr "Batch fetch failed"%string)]] |};
        document_store :=
          [Samples.headline;
           [("error"%string, PyStr "Batch fetch failed"%string)]] |}).
Proof.
  apply (index_documents_keeps_every_document (A := Samples.exact_arith)
           (fun text => [inject_Z (Z.of_nat (String.length text))]) (dim := 1)).
  - intros text. reflexivity.
  - discriminate.
Defined.

(** A negative label is not skipped: Python indexes from the end. *)
Lemma negative_label_reads_last_document
  {F : Type} (store : list (@Document F)) (doc : @Document F)
  (results : list (@Document F)) :
  retrieve (store ++ [doc]) [(-1)%Z] results = Ok (results ++ [doc]).
Proof.
  unfold retrieve, py_getitem.
  rewrite length_app. cbn [List.length]. rewrite Nat.add_1_r, Nat2Z.inj_succ.
  destruct (Z.ltb_spec (-1) (Z.succ (Z.of_nat (List.length store)))); [|lia].
  cbn [Z.ltb Z.compare].
  replace (-1 + Z.succ (Z.of_nat (List.length store)))%Z
    with (Z.of_nat (List.length store)) by lia.
  destruct (Z.leb_spec 0 (Z.of_nat (List.length store))); [|lia].
  destruct (Z.ltb_spec (Z.of_nat (List.length store))
                       (Z.succ (Z.of_nat (List.length store)))); [|lia].
  cbn [andb]. rewrite Nat2Z.id, nth_error_app2, Nat.sub_diag by lia.
  reflexivity.
Qed.

(** C2.  On a store of one document, a search with [top_k = 3 >= 1] gets
    the labels [0, -1, -1] from the flat index and returns the document
    three times: the label [-1], outside the store bounds, passes the
    test [idx < len(document_store)] and is read as the last document. *)
Theorem search_beyond_store_size_repeats_last_document :
  let built :=
    index_documents (A := Samples.exact_arith) Samples.length_encoder init
                    [Samples.headline] in
  fst built = Ok tt
  /\ document_store (snd built) = [Samples.headline]
  /\ (exists index,
        faiss_index (snd built) = Some index
        /\ faiss_search (A := Samples.exact_arith) index [8] 3
           = Ok [0; -1; -1]%Z)
  /\ semantic_search (A := Samples.exact_arith) Samples.length_encoder
       (snd built) "earnings" 3
     = Ok [Samples.headline; Samples.headline; Samples.headline].
Proof.
  cbv zeta. split; [reflexivity|]. split; [reflexivity|]. split.
  - eexists. split; reflexivity.
  - reflexivity.
Qed.

End IndexingClaims.

(** * The coordinator's top-level operation *)

Module SearchFacts.
Import RetrieverAgent.

Section Generic.
Context {F : Type} {A : Arith F}.

Lemma insert_asc_In (x y : nat * F) (l : list (nat * F)) :
  In y (insert_asc x l) -> y = x \/ In y l.
Proof.
  induction l as [|z l IH]; simpl.
  - intros [H|[]]; auto.
  - destruct (flt (snd z) (snd x)); simpl; intros [H|H]; auto.
    destruct (IH H); auto.
Qed.

Lemma rank_In (y : nat * F) (l : list (nat * F)) : In y (rank l) -> In y l.
Proof.
  induction l as [|x l IH]; simpl; [auto|].
  intros H. apply insert_asc_In in H. destruct H; auto.
Qed.

Lemma firstn_incl {X : Type} (k : nat) (l : list X) (x : X) :
  In x (firstn k l) -> In x l.
Proof.
  intros H. rewrite <- (firstn_skipn k l). apply in_or_app. now left.
Qed.

(** Every label is a position of the index or the filler [-1]. *)
Lemma faiss_labels_range (index : IndexFlatL2) (query : list F) (k : nat)
  (i : Z) :
  In i (faiss_labels index query k) ->
  (i = -1 \/ 0 <= i < Z.of_nat (List.length (vectors index)))%Z.
Proof.
  unfold faiss_labels. rewrite in_app_iff. intros [H|H].
  - right. apply in_map_iff in H. destruct H as (p & <- & Hp).
    apply firstn_incl, rank_In in Hp. destruct p as [n d].
    apply in_combine_l in Hp. apply in_seq in Hp. simpl. lia.
  - left. now apply repeat_spec in H.
Qed.

Lemma py_getitem_ok {X : Type} (l : list X) (idx : Z) :
  (- Z.of_nat (List.length l) <= idx < Z.of_nat (List.length l))%Z ->
  exists x, py_getitem l idx = Ok x /\ In x l.
Proof.
  intros H. unfold py_getitem.
  set (n := Z.of_nat (List.length l)) in *.
  set (i := if (idx <? 0)%Z then (idx + n)%Z else idx).
  assert (0 <= i < n)%Z as Hi.
  { unfold i. destruct (Z.ltb_spec idx 0); lia. }
  destruct (Z.leb_spec 0 i); [|lia]. destruct (Z.ltb_spec i n); [|lia].
  cbn [andb].
  destruct (nth_error l (Z.to_nat i)) as [x|] eqn:E.
  - exists x. split; [reflexivity|]. eapply nth_error_In, E.
  - apply nth_error_None in E. unfold n in *. lia.
Qed.



End Generic.
End SearchFacts.

Module PipelineFacts.
Import AgentCoordinator.

Section Generic.
Context {F : Type} {A : Arith F}.

Lemma stock_lines_ok (stock_data : PyDict.dict (QuoteRecord F)) :
  Forall APIAgent.settled (PyDict.values stock_data) ->
  exists lines,
    map_result stock_line
      (filter (fun item => no_error (snd item)) (PyDict.items stock_data))
    = Ok lines.
Proof.
  intros H. apply AnalysisFacts.map_result_ok.
  intros [t data] Hin. apply filter_In in Hin. destruct Hin as [Hin Hv].
  assert (APIAgent.settled data) as Hp.
  { rewrite Forall_forall in H. apply H. unfold PyDict.values.
    apply in_map_iff. exists (t, data). auto. }
  destruct Hp as [[msg ->]|(_ & p & m & _ & Hm)]; [discriminate|].
  unfold stock_line. rewrite Hm. simpl. eauto.
Qed.

Lemma get_app {V : Type} (d1 d2 : PyDict.dict V) (k : string) :
  PyDict.get (d1 ++ d2) k
  = match PyDict.get d1 k with
    | Some v => Some v
    | None => PyDict.get d2 k
    end.
Proof.
  induction d1 as [|[k' v'] d1 IH]; simpl; [reflexivity|].
  now destruct (String.eqb k' k).
Qed.

Lemma get_opt_item (k' k : string) (v : option (pyval F)) :
  String.eqb k' k = false -> PyDict.get (opt_item k' v) k = None.
Proof.
  intros H. destruct v; simpl; [now rewrite H | reflexivity].
Qed.

Lemma quote_document_title (data : QuoteRecord F) :
  insight_title (quote_document data) = Ok "Insight"%string.
Proof.
  unfold insight_title, PyDict.get_default, quote_document.
  rewrite !get_app, !get_opt_item by reflexivity. reflexivity.
Qed.

(** The fetch stores no ['ticker'] key, so a quote record has no text. *)
Lemma quote_document_text (data : QuoteRecord F) :
  RetrieverAgent._document_to_text (quote_document data) = EmptyString.
Proof.
  unfold RetrieverAgent._document_to_text, PyDict.contains, quote_document.
  rewrite !get_app, !get_opt_item by reflexivity. reflexivity.
Qed.

Lemma news_document_title (article : ScrapingAgent.NewsItem) :
  insight_title (@news_document F article) = Ok (ScrapingAgent.title article).
Proof. reflexivity. Qed.

Lemma combined_documents_app
  (stock_data : PyDict.dict (QuoteRecord F))
  (news_data : PyDict.dict (list ScrapingAgent.NewsItem)) :
  combined_documents stock_data news_data
  = map quote_document (PyDict.values stock_data)
    ++ map news_document (List.concat (PyDict.values news_data)).
Proof. reflexivity. Qed.

Lemma titles_ok (stock_data : PyDict.dict (QuoteRecord F))
  (news_data : PyDict.dict (list ScrapingAgent.NewsItem))
  (found : list (@RetrieverAgent.Document F)) :
  (forall d, In d found -> In d (combined_documents stock_data news_data)) ->
  exists titles, map_result insight_title found = Ok titles.
Proof.
  intros H. apply AnalysisFacts.map_result_ok. intros d Hd.
  apply H in Hd. rewrite combined_documents_app in Hd.
  apply in_app_iff in Hd. destruct Hd as [Hd|Hd];
    apply in_map_iff in Hd; destruct Hd as (x & <- & _).
  - rewrite quote_document_title. eauto.
  - rewrite news_document_title. eauto.
Qed.



End Generic.
End PipelineFacts.

Module PipelineClaims.
Import AgentCoordinator PipelineFacts.

(** A search before any index was built raises [ValueError]. *)
Lemma never_built_index_raises {F : Type} {A : Arith F}
  (encode : @RetrieverAgent.Encoder F) (query : string) (top_k : nat) :
  RetrieverAgent.semantic_search encode RetrieverAgent.init query top_k
  = Raise (ValueError "Index not created. Call index_documents first.").
Proof. reflexivity. Qed.

(** Without an API key the constructor raises; nothing else is attempted. *)
Lemma missing_api_key_raises {F : Type} :
  @init F None None
  = Raise (ValueError
      "Gemini API key is required. Set GEMINI_API_KEY environment variable.").
Proof. reflexivity. Qed.





End PipelineClaims.

(** * Further properties of the agents *)

Module PyDictLookup.
Section Lookup.
Variable V : Type.

Lemma get_set_same (d : PyDict.dict V) (k : string) (v : V) :
  PyDict.get (PyDict.set d k v) k = Some v.
Proof.
  induction d as [|[k' v'] d IH]; simpl.
  - now rewrite String.eqb_refl.
  - destruct (String.eqb k' k) eqn:E; simpl.
    + now rewrite String.eqb_refl.
    + now rewrite E.
Qed.

Lemma get_set_other (d : PyDict.dict V) (k k' : string) (v : V) :
  k <> k' -> PyDict.get (PyDict.set d k v) k' = PyDict.get d k'.
Proof.
  intros Hne. induction d as [|[k0 v0] d IH]; simpl.
  - destruct (String.eqb_spec k k'); [contradiction | reflexivity].
  - destruct (String.eqb_spec k0 k) as [->|H0]; simpl.
    + destruct (String.eqb_spec k k'); [contradiction | reflexivity].
    + destruct (String.eqb k0 k'); [reflexivity | exact IH].
Qed.

(** After a run of insertions whose values depend on the key alone, a
    key of the run holds its own value and any other key is untouched. *)
Lemma get_fold_set (f : string -> V) (l : list string) (d : PyDict.dict V)
  (k : string) :
  PyDict.get (fold_left (fun d t => PyDict.set d t (f t)) l d) k
  = if existsb (String.eqb k) l then Some (f k) else PyDict.get d k.
Proof.
  revert d; induction l as [|t l IH]; intros d; simpl; [reflexivity|].
  rewrite IH. destruct (existsb (String.eqb k) l) eqn:E.
  - now rewrite orb_true_r.
  - rewrite orb_false_r. destruct (String.eqb_spec k t) as [->|Hne].
    + apply get_set_same.
    + apply get_set_other. congruence.
Qed.

End Lookup.
End PyDictLookup.

Module ResultFacts.

Lemma map_result_Forall2 {X Y : Type} (f : X -> result Y) (l : list X)
  (ys : list Y) :
  map_result f l = Ok ys -> Forall2 (fun x y => f x = Ok y) l ys.
Proof.
  revert ys; induction l as [|x l IH]; intros ys; simpl.
  - intros H; injection H as <-. constructor.
  - destruct (f x) as [y|e] eqn:Hx; simpl; [|discriminate].
    destruct (map_result f l) as [zs|e]; simpl; [|discriminate].
    intros H; injection H as <-. constructor; auto.
Qed.

(** A comprehension raises as soon as one element does; when every
    element that raises raises [e], so does the comprehension. *)
Lemma map_result_raise {X Y : Type} (f : X -> result Y) (l : list X)
  (e : exn) :
  (exists x, In x l /\ f x = Raise e) ->
  (forall x e', In x l -> f x = Raise e' -> e' = e) ->
  map_result f l = Raise e.
Proof.
  induction l as [|x l IH]; intros (x0 & Hin & Hx0) Hall; [inversion Hin|].
  simpl. destruct (f x) as [y|e'] eqn:Hx; simpl.
  - rewrite IH; [reflexivity | | ].
    + destruct Hin as [->|Hin]; [congruence|]. eauto.
    + intros z e' Hz. apply Hall. now right.
  - f_equal. apply (Hall x); [now left | exact Hx].
Qed.

Lemma map_result_raise_inv {X Y : Type} (f : X -> result Y) (l : list X)
  (e : exn) :
  map_result f l = Raise e -> exists x, In x l /\ f x = Raise e.
Proof.
  induction l as [|x l IH]; simpl; [discriminate|].
  destruct (f x) as [y|e'] eqn:Hx; simpl.
  - destruct (map_result f l) as [ys|e'']; simpl; [discriminate|].
    intros H; injection H as ->. destruct IH as (z & Hz & Hf); eauto.
  - intros H; injection H as ->. eauto.
Qed.

End ResultFacts.

Module FetchProperties.

Lemma existsb_eqb_false (k : string) (l : list string) :
  ~ In k l -> existsb (String.eqb k) l = false.
Proof.
  intros H. destruct (existsb (String.eqb k) l) eqn:E; [|reflexivity].
  apply PyDictFacts.existsb_eqb_In in E. contradiction.
Qed.

(** X1.  When the batch download succeeds, the record stored for a ticker
    is the outcome of that ticker's own fetch: the record it built, or a
    failed record carrying its own error message.  What happens to the
    other tickers does not enter into it, and no other key is stored. *)
Theorem fetch_stock_data_isolates_tickers
  {F : Type} (yf : @APIAgent.YFinance F) (tickers : list string)
  (price_data : @APIAgent.PriceData F) (t : string) :
  APIAgent.download yf tickers = Ok price_data ->
  (In t tickers ->
   PyDict.get (APIAgent.fetch_stock_data yf tickers) t
   = Some (match APIAgent.fetch_one yf price_data tickers t with
           | Ok data => data
           | Raise e => APIAgent.error_record (exn_str e)
           end))
  /\ (~ In t tickers ->
      PyDict.get (APIAgent.fetch_stock_data yf tickers) t = None).
Proof.
  intros Hd. unfold APIAgent.fetch_stock_data. rewrite Hd.
  rewrite (PyDictLookup.get_fold_set
             (fun ticker =>
                try_except (APIAgent.fetch_one yf price_data tickers ticker)
                           (fun e => APIAgent.error_record (exn_str e)))).
  split; intros Hin.
  - apply PyDictFacts.existsb_eqb_In in Hin. rewrite Hin. reflexivity.
  - now rewrite existsb_eqb_false.
Qed.

Lemma fetch_stock_data_isolates_tickers_witness :
  PyDict.get (APIAgent.fetch_stock_data Samples.online_yfinance
                ["AAPL"; "MSFT"]%string) "MSFT"
  = Some (match APIAgent.fetch_one Samples.online_yfinance
                  (fun _ => Ok 150) ["AAPL"; "MSFT"]%string "MSFT" with
          | Ok data => data
          | Raise e => APIAgent.error_record (exn_str e)
          end).
Proof.
  apply (fetch_stock_data_isolates_tickers Samples.online_yfinance
           ["AAPL"; "MSFT"]%string (price_data := fun _ => Ok 150) "MSFT").
  - reflexivity.
  - simpl. auto.
Defined.

(** X2.  When the batch download raises, every requested ticker is stored
    as a failed record with the reason ['Batch fetch failed'], and the
    per-ticker provider is never consulted. *)
Theorem batch_failure_fails_every_ticker
  {F : Type} (yf : @APIAgent.YFinance F) (tickers : list string)
  (e : exn) (t : string) :
  APIAgent.download yf tickers = Raise e ->
  In t tickers ->
  PyDict.get (APIAgent.fetch_stock_data yf tickers) t
  = Some (APIAgent.error_record "Batch fetch failed")
  /\ forall info : string -> result (@APIAgent.TickerInfo F),
       APIAgent.fetch_stock_data
         {| APIAgent.download := APIAgent.download yf;
            APIAgent.ticker_info := info |} tickers
       = APIAgent.fetch_stock_data yf tickers.
Proof.
  intros Hd Hin. unfold APIAgent.fetch_stock_data. simpl. rewrite Hd. split.
  - rewrite (PyDictLookup.get_fold_set
               (fun _ => APIAgent.error_record "Batch fetch failed")).
    apply PyDictFacts.existsb_eqb_In in Hin. now rewrite Hin.
  - reflexivity.
Qed.

Lemma batch_failure_fails_every_ticker_witness :
  PyDict.get (APIAgent.fetch_stock_data Samples.offline_yfinance
                ["AAPL"; "MSFT"]%string) "AAPL"
  = Some (APIAgent.error_record "Batch fetch failed").
Proof.
  apply (batch_failure_fails_every_ticker Samples.offline_yfinance
           ["AAPL"; "MSFT"]%string (e := ExternalError "no network") "AAPL").
  - reflexivity.
  - simpl. auto.
Defined.

End FetchProperties.

Module NewsProperties.
Import ScrapingAgent.

Lemma set_Forall_items {V : Type} (P : string -> V -> Prop)
  (d : PyDict.dict V) (k : string) (v : V) :
  Forall (fun kv => P (fst kv) (snd kv)) d -> P k v ->
  Forall (fun kv => P (fst kv) (snd kv)) (PyDict.set d k v).
Proof.
  intros Hd Hv. induction d as [|[k' v'] d IH]; simpl.
  - constructor; [exact Hv | constructor].
  - inversion Hd; subst.
    destruct (String.eqb k' k); constructor; simpl; auto.
Qed.

Lemma fold_set_Forall_items {V : Type} (P : string -> V -> Prop)
  (f : string -> V) (l : list string) (d : PyDict.dict V) :
  (forall t, P t (f t)) ->
  Forall (fun kv => P (fst kv) (snd kv)) d ->
  Forall (fun kv => P (fst kv) (snd kv))
         (fold_left (fun d t => PyDict.set d t (f t)) l d).
Proof.
  intros Hf. revert d; induction l as [|t l IH]; intros d Hd; simpl; auto.
  apply IH, set_Forall_items; auto.
Qed.

Lemma append_articles_bound (url : string) (articles : list Heading)
  (ticker_news : list NewsItem) :
  (List.length (append_articles url articles ticker_news)
   <= List.length ticker_news + List.length articles)%nat
  /\ (Forall (fun a => source a = url) ticker_news ->
      Forall (fun a => source a = url)
             (append_articles url articles ticker_news)).
Proof.
  revert ticker_news; induction articles as [|a rest IH];
    intros ticker_news; simpl.
  - split; [lia | auto].
  - destruct (anchor a) as [[href|]|].
    + destruct (IH (ticker_news ++ [{| title := get_text a; link := href;
                                       source := url |}])) as [Hl Hs].
      rewrite length_app in Hl. simpl in Hl. split; [lia|].
      intros H. apply Hs. apply Forall_app. split; [exact H|].
      constructor; [reflexivity | constructor].
    + split; [lia | auto].
    + destruct (IH (ticker_news ++ [{| title := get_text a; link := url;
                                       source := url |}])) as [Hl Hs].
      rewrite length_app in Hl. simpl in Hl. split; [lia|].
      intros H. apply Hs. apply Forall_app. split; [exact H|].
      constructor; [reflexivity | constructor].
Qed.

Lemma scraped_news_bound (web : Web) (ticker : string) :
  (List.length (fold_left (scrape_source web) (news_sources ticker) [])
   <= 3)%nat
  /\ Forall (fun a =>
               source a
               = ("https://finance.yahoo.com/quote/" ++ ticker ++ "/news")%string)
            (fold_left (scrape_source web) (news_sources ticker) []).
Proof.
  unfold news_sources. cbn [fold_left]. unfold scrape_source.
  set (url := ("https://finance.yahoo.com/quote/" ++ ticker ++ "/news")%string).
  destruct (web url) as [articles|e].
  - destruct (append_articles_bound url (firstn 3 articles) []) as [Hl Hs].
    split; [|apply Hs; constructor].
    cbn [List.length] in Hl. pose proof (firstn_le_length 3 articles). lia.
  - split; [cbn [List.length]; lia | constructor].
Qed.

(** X3.  Whatever the news source answers, every ticker's news list holds
    at most three articles, and each article names as its source the
    Yahoo news page of the ticker it is filed under. *)
Theorem news_lists_are_bounded_and_attributed
  (web : Web) (tickers : list string) :
  Forall (fun item =>
            (List.length (snd item) <= 3)%nat
            /\ Forall (fun a =>
                         source a
                         = ("https://finance.yahoo.com/quote/"
                            ++ fst item ++ "/news")%string)
                      (snd item))
         (PyDict.items (crawl_financial_news web tickers)).
Proof.
  unfold crawl_financial_news, fetch_news_for_ticker, PyDict.items.
  apply (fold_set_Forall_items
           (fun t news =>
              (List.length news <= 3)%nat
              /\ Forall (fun a =>
                           source a
                           = ("https://finance.yahoo.com/quote/"
                              ++ t ++ "/news")%string) news)
           (fun t => fold_left (scrape_source web) (news_sources t) [])).
  - intros t. apply scraped_news_bound.
  - constructor.
Qed.

(** X4.  A ticker whose news page cannot be fetched gets the empty news
    list; a ticker whose page is fetched gets the first three headings,
    up to the first one whose link has no [href].  Neither depends on
    the other tickers. *)
Theorem news_fetch_isolates_tickers
  (web : Web) (tickers : list string) (t : string) :
  In t tickers ->
  PyDict.get (crawl_financial_news web tickers) t
  = Some (match web ("https://finance.yahoo.com/quote/" ++ t ++ "/news")%string
          with
          | Ok articles =>
              append_articles
                ("https://finance.yahoo.com/quote/" ++ t ++ "/news")%string
                (firstn 3 articles) []
          | Raise _ => []
          end).
Proof.
  intros Hin. unfold crawl_financial_news, fetch_news_for_ticker.
  rewrite (PyDictLookup.get_fold_set
             (fun t => fold_left (scrape_source web) (news_sources t) [])).
  apply PyDictFacts.existsb_eqb_In in Hin. rewrite Hin. reflexivity.
Qed.

Lemma news_fetch_isolates_tickers_witness :
  PyDict.get (crawl_financial_news Samples.offline_web
                ["AAPL"; "MSFT"]%string) "MSFT"
  = Some [].
Proof.
  apply (news_fetch_isolates_tickers Samples.offline_web
           ["AAPL"; "MSFT"]%string "MSFT").
  simpl. auto.
Defined.

End NewsProperties.

Module RecommendationProperties.
Import Recommendations.

Section Generic.
Context {F : Type} {A : Arith F}.

Lemma recommend_one_shape (item : string * QuoteRecord F) r :
  recommend_one item = Ok r ->
  rec_ticker r = fst item
  /\ company_name (snd item) = Some (rec_company_name r)
  /\ ((recommendation r = "Buy"%string /\ reasons r <> [])
      \/ (recommendation r = "Hold"%string /\ reasons r = [])).
Proof.
  destruct item as [t data]. unfold recommend_one. cbn [fst snd].
  destruct (company_name data) as [n|] eqn:E; simpl; [|discriminate].
  intros H; injection H as <-. simpl. split; [reflexivity|].
  split; [reflexivity|].
  destruct (low_pe data), (far_below_high data); simpl;
    (left; split; [reflexivity | discriminate])
    || (right; split; reflexivity).
Qed.

Lemma fetch_stock_data_named (yf : @APIAgent.YFinance F)
  (tickers : list string) :
  Forall (fun data => no_error data = true -> company_name data <> None)
         (PyDict.values (APIAgent.fetch_stock_data yf tickers)).
Proof.
  unfold APIAgent.fetch_stock_data.
  destruct (APIAgent.download yf tickers) as [price_data|e].
  - apply (@PyDictFacts.fold_set_Forall _
             (fun data => no_error data = true -> company_name data <> None)
             (fun ticker =>
                try_except (APIAgent.fetch_one yf price_data tickers ticker)
                           (fun e => APIAgent.error_record (exn_str e))));
      [|constructor].
    intros t. unfold APIAgent.fetch_one.
    destruct (APIAgent.ticker_info yf t) as [info|e]; simpl;
      [|discriminate].
    destruct (if (List.length tickers =? 1)%nat then price_data None
              else price_data (Some t)) as [p|e]; simpl; discriminate.
  - apply (@PyDictFacts.fold_set_Forall _
             (fun data => no_error data = true -> company_name data <> None)
             (fun _ => APIAgent.error_record "Batch fetch failed"));
      [|constructor].
    intros _. discriminate.
Qed.

End Generic.

(** X5.  When [get_stock_recommendations] returns, it holds one
    recommendation per record without an error marker, in the order of
    the batch and under the record's ticker and company name; each one is
    either ['Buy'] with at least one reason or ['Hold'] with none. *)
Theorem recommendations_follow_valid_records
  {F : Type} {A : Arith F} (stock_data : PyDict.dict (QuoteRecord F))
  (recs : list Recommendation) :
  get_stock_recommendations stock_data = Ok recs ->
  map rec_ticker recs
  = map fst (filter (fun item => no_error (snd item)) stock_data)
  /\ map (fun r => Some (rec_company_name r)) recs
     = map (fun item => company_name (snd item))
           (filter (fun item => no_error (snd item)) stock_data)
  /\ Forall (fun r =>
               (recommendation r = "Buy"%string /\ reasons r <> [])
               \/ (recommendation r = "Hold"%string /\ reasons r = []))
            recs.
Proof.
  unfold get_stock_recommendations, PyDict.items. intros H.
  apply ResultFacts.map_result_Forall2 in H.
  induction H as [|item r l rs Hr _ IH].
  - repeat split; constructor.
  - destruct (recommend_one_shape item Hr) as (Ht & Hn & Hs).
    destruct IH as (IH1 & IH2 & IH3). simpl.
    rewrite Ht, Hn, IH1, IH2. repeat split. constructor; assumption.
Qed.

Lemma recommendations_follow_valid_records_witness :
  map rec_ticker
      [{| rec_ticker := "AAPL"; rec_company_name := "Apple Inc.";
          recommendation := "Hold"; reasons := [] |}]
  = map fst (filter (fun item => no_error (snd item))
                    [("AAPL"%string, Samples.aapl);
                     ("XYZ"%string, Samples.failed)]).
Proof.
  apply (recommendations_follow_valid_records (A := Samples.exact_arith)
           [("AAPL"%string, Samples.aapl); ("XYZ"%string, Samples.failed)]).
  reflexivity.
Defined.

(** X6.  [get_stock_recommendations] raises exactly when some record
    without an error marker lacks the ['company_name'] key, and what it
    raises is [KeyError] for that key. *)
Theorem recommendations_need_company_name
  {F : Type} {A : Arith F} (stock_data : PyDict.dict (QuoteRecord F)) :
  ((exists t data,
       In (t, data) stock_data /\ error data = None
       /\ company_name data = None) ->
   get_stock_recommendations stock_data = Raise (KeyError "company_name"))
  /\ (forall e,
        get_stock_recommendations stock_data = Raise e ->
        e = KeyError "company_name"
        /\ exists t data,
             In (t, data) stock_data /\ error data = None
             /\ company_name data = None).
Proof.
  split.
  2:{ intros e H. unfold get_stock_recommendations, PyDict.items in H.
      apply ResultFacts.map_result_raise_inv in H.
      destruct H as ([t data] & Hin & Hr).
      apply filter_In in Hin. destruct Hin as [Hin Hv].
      unfold recommend_one in Hr.
      destruct (company_name data) eqn:Hn; simpl in Hr; [discriminate|].
      injection Hr as <-. split; [reflexivity|].
      exists t, data. split; [exact Hin|]. split; [|exact Hn].
      unfold no_error in Hv. simpl in Hv.
      destruct (error data); [discriminate | reflexivity]. }
  intros (t & data & Hin & He & Hn).
  unfold get_stock_recommendations, PyDict.items.
  apply ResultFacts.map_result_raise.
  - exists (t, data). split.
    + apply filter_In. split; [exact Hin|]. unfold no_error. simpl.
      now rewrite He.
    + unfold recommend_one. now rewrite Hn.
  - intros [t' d'] e' _. unfold recommend_one.
    destruct (company_name d'); simpl; [discriminate|].
    intros H; now injection H as <-.
Qed.

Lemma recommendations_need_company_name_witness :
  get_stock_recommendations (A := Samples.exact_arith)
    [("AAPL"%string,
      {| error := None; current_price := Some 150; company_name := None;
         sector := None; market_cap := None; pe_ratio := None;
         week52_high := None; week52_low := None; earnings_date := None |})]
  = Raise (KeyError "company_name").
Proof.
  apply (recommendations_need_company_name (A := Samples.exact_arith)).
  eexists _, _. split; [left; reflexivity|]. split; reflexivity.
Defined.

(** X7.  On the records that [fetch_stock_data] produces, whatever the
    provider does, [get_stock_recommendations] never raises: it returns
    one recommendation per valid record. *)
Theorem recommendations_of_fetched_data_never_raise
  {F : Type} {A : Arith F} (yf : @APIAgent.YFinance F)
  (tickers : list string) :
  exists recs,
    get_stock_recommendations (APIAgent.fetch_stock_data yf tickers) = Ok recs
    /\ List.length recs
       = List.length (filter (fun item => no_error (snd item))
                             (APIAgent.fetch_stock_data yf tickers)).
Proof.
  destruct (AnalysisFacts.map_result_ok recommend_one
              (filter (fun item => no_error (snd item))
                      (PyDict.items (APIAgent.fetch_stock_data yf tickers))))
    as [recs Hrecs].
  - intros [t data] Hin. apply filter_In in Hin. destruct Hin as [Hin Hv].
    pose proof (fetch_stock_data_named yf tickers) as Hn.
    rewrite Forall_forall in Hn.
    assert (company_name data <> None) as Hc.
    { apply Hn; [|exact Hv]. unfold PyDict.values. apply in_map_iff.
      exists (t, data). auto. }
    unfold recommend_one. destruct (company_name data); [|congruence].
    simpl. eauto.
  - exists recs. split; [exact Hrecs|].
    apply ResultFacts.map_result_Forall2, Forall2_length in Hrecs.
    symmetry. exact Hrecs.
Qed.

End RecommendationProperties.

Module KeyInsightProperties.
Import KeyInsights.

Lemma ticker_insights_flat_map (articles : list ScrapingAgent.NewsItem)
  (insights : list string) :
  fold_left (fun insights article => insights ++ article_insights article)
            articles insights
  = insights ++ flat_map article_insights articles.
Proof.
  revert insights; induction articles as [|a rest IH]; intros insights; simpl.
  - now rewrite app_nil_r.
  - now rewrite IH, app_assoc.
Qed.

Lemma article_insights_bound (article : ScrapingAgent.NewsItem) :
  (List.length (article_insights article) <= 3)%nat
  /\ forall insight,
       In insight (article_insights article) ->
       exists label,
         In label ["Earnings-related: "; "Strategic move: ";
                   "Tech development: "]%string
         /\ insight = (label ++ ScrapingAgent.title article)%string.
Proof.
  unfold article_insights.
  destruct (mentions earnings_keywords _), (mentions strategy_keywords _),
    (mentions tech_keywords _); cbn [app List.length]; (split; [lia|]);
    intros insight H; cbn [In] in H;
    repeat match goal with
           | H : _ \/ _ |- _ => destruct H as [H|H]
           end;
    try contradiction; subst insight;
    eexists; (split; [|reflexivity]); cbn [In]; tauto.
Qed.

(** X8.  The insights of a ticker are those of its articles, in article
    order: at most three per article, each one a label followed by the
    title of one of the ticker's articles, and none at all when no
    article mentions a keyword. *)
Theorem ticker_insights_come_from_articles
  (articles : list ScrapingAgent.NewsItem) :
  (List.length (ticker_insights articles) <= 3 * List.length articles)%nat
  /\ (forall insight,
        In insight (ticker_insights articles) ->
        exists article label,
          In article articles
          /\ In label ["Earnings-related: "; "Strategic move: ";
                       "Tech development: "]%string
          /\ insight = (label ++ ScrapingAgent.title article)%string)
  /\ ((forall article,
         In article articles ->
         mentions (earnings_keywords ++ strategy_keywords ++ tech_keywords)
                  (ScrapingAgent.title article) = false) ->
      ticker_insights articles = []).
Proof.
  unfold ticker_insights. rewrite ticker_insights_flat_map. cbn [app].
  split; [|split].
  - induction articles as [|a rest IH]; simpl; [lia|].
    rewrite length_app.
    destruct (article_insights_bound a) as [Ha _]. lia.
  - intros insight H. apply in_flat_map in H. destruct H as (a & Ha & Hi).
    destruct (article_insights_bound a) as [_ Hl].
    destruct (Hl insight Hi) as (label & Hlabel & ->).
    exists a, label. auto.
  - intros Hnone. induction articles as [|a rest IH]; simpl; [reflexivity|].
    rewrite IH by (intros; apply Hnone; now right).
    assert (mentions (earnings_keywords ++ strategy_keywords ++ tech_keywords)
                     (ScrapingAgent.title a) = false) as Ha
      by (apply Hnone; now left).
    unfold mentions in Ha. rewrite !existsb_app in Ha.
    apply orb_false_iff in Ha. destruct Ha as [He Ha].
    apply orb_false_iff in Ha. destruct Ha as [Hs Ht].
    unfold article_insights, mentions. now rewrite He, Hs, Ht.
Qed.

Lemma ticker_insights_come_from_articles_witness :
  mentions (earnings_keywords ++ strategy_keywords ++ tech_keywords)
           "Apple opens a new store" = false
  /\ ticker_insights
       [{| ScrapingAgent.title := "Apple opens a new store";
           ScrapingAgent.link := "l"; ScrapingAgent.source := "s" |}] = [].
Proof.
  split; [reflexivity|].
  destruct (ticker_insights_come_from_articles
              [{| ScrapingAgent.title := "Apple opens a new store";
                  ScrapingAgent.link := "l"; ScrapingAgent.source := "s" |}])
    as (_ & _ & H).
  apply H. intros article [<-|[]]. reflexivity.
Defined.

Lemma lower_upper_char (c : ascii) :
  lower_char (PyStr.upper_char c) = lower_char c.
Proof.
  destruct c as [[] [] [] [] [] [] [] []]; reflexivity.
Qed.

Lemma lower_upper (s : string) : lower (PyStr.upper s) = lower s.
Proof.
  induction s as [|c s IH]; simpl; [reflexivity|].
  now rewrite lower_upper_char, IH.
Qed.

(** X9.  Keyword matching ignores letter case: a title and its
    upper-cased form pass the same keyword tests. *)
Theorem keyword_matching_ignores_case
  (keywords : list string) (title : string) :
  mentions keywords (PyStr.upper title) = mentions keywords title.
Proof.
  unfold mentions. now rewrite lower_upper.
Qed.

Lemma set_fresh {V : Type} (d : PyDict.dict V) (k : string) (v : V) :
  ~ In k (PyDict.keys d) -> PyDict.set d k v = d ++ [(k, v)].
Proof.
  unfold PyDict.keys. induction d as [|[k' v'] d IH]; simpl; intros H.
  - reflexivity.
  - destruct (String.eqb_spec k' k) as [->|Hne]; [tauto|].
    rewrite IH; tauto.
Qed.

Lemma extract_fold (news_data : PyDict.dict (list ScrapingAgent.NewsItem))
  (insights : PyDict.dict (list string)) :
  NoDup (PyDict.keys insights ++ PyDict.keys news_data) ->
  fold_left
    (fun insights item =>
       PyDict.set insights (fst item) (ticker_insights (snd item)))
    news_data insights
  = insights
    ++ map (fun item => (fst item, ticker_insights (snd item))) news_data.
Proof.
  revert insights; induction news_data as [|[t articles] rest IH];
    intros insights Hnd; simpl.
  - now rewrite app_nil_r.
  - cbn [PyDict.keys map fst] in Hnd. pose proof Hnd as Hnd'.
    apply NoDup_remove_2 in Hnd'.
    rewrite set_fresh by (intros H; apply Hnd'; apply in_or_app; now left).
    rewrite IH.
    + now rewrite <- app_assoc.
    + unfold PyDict.keys in *. rewrite map_app. simpl.
      rewrite <- app_assoc. exact Hnd.
Qed.

(** X10.  On a news dictionary (distinct tickers), [extract_key_insights]
    returns one entry per ticker, in the same order, holding that
    ticker's insights: a ticker without news, or without a keyword in
    its titles, keeps its entry with an empty list. *)
Theorem key_insights_keep_every_ticker
  (news_data : PyDict.dict (list ScrapingAgent.NewsItem)) :
  NoDup (PyDict.keys news_data) ->
  extract_key_insights news_data
  = map (fun item => (fst item, ticker_insights (snd item))) news_data.
Proof.
  intros Hnd. unfold extract_key_insights, PyDict.items.
  now rewrite extract_fold.
Qed.

Lemma key_insights_keep_every_ticker_witness :
  extract_key_insights
    [("AAPL"%string,
      [{| ScrapingAgent.title := "AAPL beats earnings";
          ScrapingAgent.link := "l"; ScrapingAgent.source := "s" |}]);
     ("MSFT"%string, [])]
  = [("AAPL"%string, ["Earnings-related: AAPL beats earnings"%string]);
     ("MSFT"%string, [])].
Proof.
  apply (key_insights_keep_every_ticker
           [("AAPL"%string,
             [{| ScrapingAgent.title := "AAPL beats earnings";
                 ScrapingAgent.link := "l"; ScrapingAgent.source := "s" |}]);
            ("MSFT"%string, [])]).
  constructor; [simpl; intros [H|[]]; discriminate|].
  constructor; [intros [] | constructor].
Defined.

End KeyInsightProperties.

Module AnalysisProperties.
Import AnalysisAgent AnalysisFacts.

Section Generic.
Context {F : Type} {A : Arith F}.

Lemma set_count_sum (d : PyDict.dict Z) (k : string) :
  py_sum_int (PyDict.values
                (PyDict.set d k (PyDict.get_default d k 0 + 1)%Z))
  = (py_sum_int (PyDict.values d) + 1)%Z.
Proof.
  unfold PyDict.get_default, PyDict.values.
  induction d as [|[k' v'] d IH]; simpl.
  - reflexivity.
  - destruct (String.eqb k' k); cbn [map snd].
    + rewrite !py_sum_int_cons. lia.
    + rewrite !py_sum_int_cons, IH. lia.
Qed.

Lemma collect_sector_invariant (l : list (string * QuoteRecord F)) c :
  NoDup (PyDict.keys (sector_distribution c)) ->
  NoDup (PyDict.keys (sector_distribution (fold_left collect_one l c)))
  /\ py_sum_int (PyDict.values
                   (sector_distribution (fold_left collect_one l c)))
     = (py_sum_int (PyDict.values (sector_distribution c))
        + Z.of_nat (List.length l))%Z.
Proof.
  revert c; induction l as [|x l IH]; intros c Hc.
  - simpl. split; [exact Hc | lia].
  - cbn [fold_left List.length].
    destruct (IH (collect_one c x)) as [Hk Hs].
    + cbn [collect_one sector_distribution].
      rewrite PyDictFacts.keys_set. now apply PyDictFacts.insert_key_NoDup.
    + split; [exact Hk|]. rewrite Hs.
      cbn [collect_one sector_distribution]. rewrite set_count_sum. lia.
Qed.

Lemma analysis_sector_fields (sd : PyDict.dict (QuoteRecord F)) r :
  portfolio_risk_analysis sd = Ok r ->
  let dist := sector_distribution (collect (valid_stocks sd)) in
  total_stocks r = List.length (valid_stocks sd)
  /\ rm_sector_distribution (risk_metrics r) = dist
  /\ _calculate_diversification_score dist
     = Ok (diversification_score (portfolio_health_indicators r))
  /\ _analyze_sector_concentration dist
     = Ok (sector_concentration (portfolio_health_indicators r))
  /\ valuation_health (portfolio_health_indicators r)
     = _assess_valuation_health (pe_ratios (collect (valid_stocks sd))).
Proof.
  unfold portfolio_risk_analysis, _assess_portfolio_health.
  destruct (_calculate_diversification_score _) as [s|]; [|discriminate].
  destruct (_analyze_sector_concentration _) as [n|]; [|discriminate].
  destruct (_classify_market_cap_distribution _) as [m|]; [|discriminate].
  simpl. intros H; injection H as <-. simpl. repeat split; reflexivity.
Qed.

End Generic.

(** X11.  The analyzer returns a result for every batch, in every
    arithmetic: its integer divisions are never by zero.  The sector
    distribution it reports has one entry per sector, each count at least
    1, and the counts add up to [total_stocks]. *)
Theorem analysis_never_raises_and_counts_every_stock
  {F : Type} {A : Arith F} (stock_data : PyDict.dict (QuoteRecord F)) :
  exists r,
    portfolio_risk_analysis stock_data = Ok r
    /\ NoDup (PyDict.keys (rm_sector_distribution (risk_metrics r)))
    /\ Forall (fun count => (1 <= count)%Z)
              (PyDict.values (rm_sector_distribution (risk_metrics r)))
    /\ py_sum_int (PyDict.values (rm_sector_distribution (risk_metrics r)))
       = Z.of_nat (total_stocks r).
Proof.
  destruct (analysis_ok stock_data) as [r Hr]. exists r.
  split; [exact Hr|].
  destruct (analysis_sector_fields _ Hr) as (Ht & Hd & _).
  rewrite Hd, Ht. unfold collect.
  destruct (collect_sector_invariant (valid_stocks stock_data)
              no_collections) as [Hk Hs]; [constructor|].
  split; [exact Hk|]. split.
  - pose proof (collect_positive_counts (valid_stocks stock_data)) as Hp.
    unfold positive_counts, collect in Hp. unfold PyDict.values.
    rewrite Forall_map. exact Hp.
  - rewrite Hs. reflexivity.
Qed.

(** X12.  Called on their own with a non-empty distribution whose counts
    add up to zero, both sector functions raise [ZeroDivisionError]: the
    first proportion is an integer division by the total. *)
Theorem zero_total_distribution_raises
  {F : Type} {A : Arith F} (sector_distribution : PyDict.dict Z) :
  sector_distribution <> [] ->
  py_sum_int (PyDict.values sector_distribution) = 0%Z ->
  _calculate_diversification_score sector_distribution
  = Raise ZeroDivisionError
  /\ _analyze_sector_concentration sector_distribution
     = Raise ZeroDivisionError.
Proof.
  intros Hne Hz.
  unfold _calculate_diversification_score, _analyze_sector_concentration.
  rewrite Hz. destruct sector_distribution as [|[k v] d]; [congruence|].
  split; reflexivity.
Qed.

Lemma zero_total_distribution_raises_witness :
  _calculate_diversification_score (A := Samples.exact_arith)
    [("Technology"%string, 0%Z)] = Raise ZeroDivisionError
  /\ _analyze_sector_concentration (A := Samples.exact_arith)
       [("Technology"%string, 0%Z)] = Raise ZeroDivisionError.
Proof.
  apply (zero_total_distribution_raises (A := Samples.exact_arith)
           (sector_distribution := [("Technology"%string, 0%Z)])).
  - discriminate.
  - reflexivity.
Defined.

End AnalysisProperties.

Module ExactAnalysisProperties.
Import AnalysisAgent AnalysisFacts.

Section Exact.
Variables (log : Q -> Q) (std : list Q -> Q) (str : Q -> string).
Local Abbreviation EX := (exact log std str).

Lemma flt_exact (a b : Q) : @flt Q EX a b = true <-> a < b.
Proof.
  simpl. rewrite negb_true_iff. split.
  - intros H. apply Qnot_le_lt. intros Hle.
    apply Qle_bool_iff in Hle. congruence.
  - intros H. destruct (Qle_bool b a) eqn:E; [|reflexivity].
    apply Qle_bool_iff in E. exfalso. apply (Qlt_not_le a b H E).
Qed.

Lemma flt_exact_false (a b : Q) : @flt Q EX a b = false <-> b <= a.
Proof.
  simpl. rewrite negb_false_iff. apply Qle_bool_iff.
Qed.

Lemma py_sum_cons (x : Q) (l : list Q) :
  @py_sum Q EX (x :: l) == x + @py_sum Q EX l.
Proof.
  unfold py_sum. cbn [fold_left].
  change (@fadd Q EX) with Qplus. change (@of_int Q EX 0) with 0.
  rewrite AnalysisClaims.fold_Qplus_shift. ring.
Qed.

(** *** Sector concentration *)

Lemma percentages_exact (T : Z) (d : PyDict.dict Z) :
  T <> 0%Z ->
  map_result
    (fun item : string * Z =>
       q <- @py_truediv Q EX (snd item) T ;;
       Ok (fst item, @fmul Q EX q (@of_int Q EX 100)))
    d
  = Ok (map (fun item => (fst item, inject_Z (snd item) / inject_Z T * 100))
            d).
Proof.
  intros HT. induction d as [|[k v] d IH]; [reflexivity|].
  cbn [map_result map fst snd]. rewrite IH.
  unfold py_truediv. destruct (Z.eqb_spec T 0); [contradiction|].
  reflexivity.
Qed.

Lemma percentages_sum (T : Z) (d : PyDict.dict Z) :
  @py_sum Q EX
    (map snd (map (fun item : string * Z =>
                     (fst item, inject_Z (snd item) / inject_Z T * 100)) d))
  == inject_Z (py_sum_int (PyDict.values d)) / inject_Z T * 100.
Proof.
  induction d as [|[k v] d IH].
  - unfold py_sum, py_sum_int. simpl. unfold Qdiv. ring.
  - cbn [map snd fst PyDict.values]. rewrite py_sum_cons, IH.
    unfold PyDict.values. rewrite py_sum_int_cons, inject_Z_plus.
    unfold Qdiv. ring.
Qed.

Lemma insert_desc_In (x y : string * Q) (l : list (string * Q)) :
  In y (@insert_desc Q EX x l) <-> y = x \/ In y l.
Proof.
  induction l as [|z l IH]; simpl.
  - intuition.
  - destruct (negb (Qle_bool (snd z) (snd x))); simpl; rewrite ?IH;
      intuition.
Qed.

Lemma insert_desc_sorted (x : string * Q) (l : list (string * Q)) :
  StronglySorted (fun a b : string * Q => snd b <= snd a) l ->
  StronglySorted (fun a b : string * Q => snd b <= snd a)
                 (@insert_desc Q EX x l).
Proof.
  induction 1 as [|z l Hs IH Hz]; simpl.
  - constructor; constructor.
  - destruct (negb (Qle_bool (snd z) (snd x))) eqn:E.
    + constructor; [exact IH|].
      rewrite Forall_forall in *. intros y Hy.
      apply insert_desc_In in Hy. destruct Hy as [->|Hy]; [|auto].
      apply Qlt_le_weak. apply flt_exact. exact E.
    + assert (snd z <= snd x) as Hzx by (apply flt_exact_false; exact E).
      constructor; [constructor; assumption|].
      constructor; [exact Hzx|].
      rewrite Forall_forall in *. intros y Hy.
      apply Qle_trans with (snd z); auto.
Qed.

Lemma sorted_desc_spec (l : list (string * Q)) :
  StronglySorted (fun a b : string * Q => snd b <= snd a)
                 (@sorted_desc Q EX l)
  /\ forall y, In y (@sorted_desc Q EX l) <-> In y l.
Proof.
  induction l as [|x l [IHs IHi]]; simpl.
  - split; [constructor | tauto].
  - split; [now apply insert_desc_sorted|].
    intros y. rewrite insert_desc_In, IHi. intuition.
Qed.

Lemma concentration_exact (d : PyDict.dict Z) c :
  py_sum_int (PyDict.values d) <> 0%Z ->
  @_analyze_sector_concentration Q EX d = Ok c ->
  sector_percentages c
  = map (fun item =>
           (fst item,
            inject_Z (snd item)
            / inject_Z (py_sum_int (PyDict.values d)) * 100)) d
  /\ (d <> [] ->
      In (most_concentrated_sector c, most_concentrated_percentage c)
         (sector_percentages c))
  /\ (forall item,
        In item (sector_percentages c) ->
        snd item <= most_concentrated_percentage c).
Proof.
  intros HT. unfold _analyze_sector_concentration, PyDict.items.
  rewrite (percentages_exact d HT). cbn [bind].
  set (P := map _ d).
  destruct (sorted_desc_spec P) as [Hs Hi].
  intros H; injection H as <-. cbn [sector_percentages
    most_concentrated_sector most_concentrated_percentage].
  split; [reflexivity|].
  destruct (@sorted_desc Q EX P) as [|x rest] eqn:E.
  - split.
    + intros Hne. destruct d; [congruence|]. exfalso.
      apply (proj2 (Hi _) (or_introl eq_refl)).
    + intros item Hin. apply Hi in Hin. destruct Hin.
  - split.
    + intros _. apply Hi. left. now destruct x.
    + intros item Hin. apply Hi in Hin. destruct Hin as [<-|Hin].
      * apply Qle_refl.
      * inversion Hs as [|? ? _ Hall]; subst.
        rewrite Forall_forall in Hall. now apply Hall.
Qed.

(** *** Valuation health *)

Lemma fold_min_spec (rest : list Q) (a : Q) :
  fold_left (@py_min Q EX) rest a <= a
  /\ Forall (fun x => fold_left (@py_min Q EX) rest a <= x) rest
  /\ In (fold_left (@py_min Q EX) rest a) (a :: rest).
Proof.
  revert a; induction rest as [|b rest IH]; intros a; cbn [fold_left].
  - split; [apply Qle_refl|]. split; [constructor | now left].
  - destruct (IH (@py_min Q EX a b)) as (Hle & Hall & Hin).
    assert (@py_min Q EX a b <= a /\ @py_min Q EX a b <= b
            /\ (@py_min Q EX a b = a \/ @py_min Q EX a b = b))
      as (Ha & Hb & Hor).
    { unfold py_min. destruct (@flt Q EX b a) eqn:E.
      - apply flt_exact in E. repeat split; auto using Qle_refl.
        now apply Qlt_le_weak.
      - apply flt_exact_false in E. repeat split; auto using Qle_refl. }
    split; [eapply Qle_trans; eauto|]. split.
    + constructor; [eapply Qle_trans; eauto | exact Hall].
    + destruct Hin as [Hin|Hin]; [|now right; right].
      rewrite <- Hin. destruct Hor as [->| ->]; [now left | now right; left].
Qed.

Lemma fold_max_spec (rest : list Q) (a : Q) :
  a <= fold_left (@py_max Q EX) rest a
  /\ Forall (fun x => x <= fold_left (@py_max Q EX) rest a) rest
  /\ In (fold_left (@py_max Q EX) rest a) (a :: rest).
Proof.
  revert a; induction rest as [|b rest IH]; intros a; cbn [fold_left].
  - split; [apply Qle_refl|]. split; [constructor | now left].
  - destruct (IH (@py_max Q EX a b)) as (Hle & Hall & Hin).
    assert (a <= @py_max Q EX a b /\ b <= @py_max Q EX a b
            /\ (@py_max Q EX a b = a \/ @py_max Q EX a b = b))
      as (Ha & Hb & Hor).
    { unfold py_max. destruct (@flt Q EX a b) eqn:E.
      - apply flt_exact in E. repeat split; auto using Qle_refl.
        now apply Qlt_le_weak.
      - apply flt_exact_false in E. repeat split; auto using Qle_refl. }
    split; [eapply Qle_trans; eauto|]. split.
    + constructor; [eapply Qle_trans; eauto | exact Hall].
    + destruct Hin as [Hin|Hin]; [|now right; right].
      rewrite <- Hin. destruct Hor as [->| ->]; [now left | now right; left].
Qed.

Lemma py_sum_bounds (l : list Q) (lo hi : Q) :
  Forall (fun x => lo <= x /\ x <= hi) l ->
  lo * inject_Z (Z.of_nat (List.length l)) <= @py_sum Q EX l
  /\ @py_sum Q EX l <= hi * inject_Z (Z.of_nat (List.length l)).
Proof.
  induction 1 as [|x l [Hlo Hhi] _ [IHlo IHhi]].
  - unfold py_sum. simpl. split; ring_simplify; apply Qle_refl.
  - cbn [List.length]. rewrite Nat2Z.inj_succ. unfold Z.succ.
    rewrite inject_Z_plus, py_sum_cons. change (inject_Z 1) with 1.
    set (n := inject_Z (Z.of_nat (List.length l))) in *. split.
    + setoid_replace (lo * (n + 1)) with (lo + lo * n) by ring.
      now apply Qplus_le_compat.
    + setoid_replace (hi * (n + 1)) with (hi + hi * n) by ring.
      now apply Qplus_le_compat.
Qed.

Lemma np_mean_bounds (l : list Q) (lo hi : Q) :
  l <> [] ->
  Forall (fun x => lo <= x /\ x <= hi) l ->
  lo <= @np_mean Q EX l /\ @np_mean Q EX l <= hi.
Proof.
  intros Hne Hall. destruct (py_sum_bounds Hall) as [Hlo Hhi].
  unfold np_mean. change (@fdiv Q EX) with Qdiv.
  change (@of_int Q EX) with inject_Z.
  assert (0 < inject_Z (Z.of_nat (List.length l))) as Hn.
  { change 0 with (inject_Z 0). rewrite <- Zlt_Qlt.
    destruct l; [congruence | simpl; lia]. }
  split.
  - apply Qle_shift_div_l; assumption.
  - apply Qle_shift_div_r; assumption.
Qed.

End Exact.

(** X13.  In exact arithmetic, for a batch with at least one valid
    record, the sector percentages of the analysis add up to 100, and
    the most concentrated sector is one of the sectors, with a
    percentage no smaller than any other. *)
Theorem sector_percentages_sum_and_maximum
  (log : Q -> Q) (std : list Q -> Q) (str : Q -> string)
  (stock_data : PyDict.dict (QuoteRecord Q)) :
  (exists item, In item stock_data /\ error (snd item) = None) ->
  exists r,
    portfolio_risk_analysis (A := exact log std str) stock_data = Ok r
    /\ py_sum (A := exact log std str)
         (map snd (sector_percentages
                     (sector_concentration (portfolio_health_indicators r))))
       == 100
    /\ In (most_concentrated_sector
             (sector_concentration (portfolio_health_indicators r)),
           most_concentrated_percentage
             (sector_concentration (portfolio_health_indicators r)))
          (sector_percentages
             (sector_concentration (portfolio_health_indicators r)))
    /\ (forall item,
          In item (sector_percentages
                     (sector_concentration (portfolio_health_indicators r))) ->
          snd item
          <= most_concentrated_percentage
               (sector_concentration (portfolio_health_indicators r))).
Proof.
  intros (item & Hin & Herr).
  destruct (analysis_ok (A := exact log std str) stock_data) as [r Hr].
  exists r. split; [exact Hr|].
  destruct (AnalysisProperties.analysis_sector_fields _ Hr)
    as (_ & _ & _ & Hc & _).
  assert (Hv : In item (valid_stocks stock_data)).
  { apply filter_In. split; [exact Hin|]. unfold no_error. now rewrite Herr. }
  destruct (AnalysisProperties.collect_sector_invariant
              (A := exact log std str) (valid_stocks stock_data)
              no_collections) as [_ Hsum]; [constructor|].
  fold (collect (A := exact log std str) (valid_stocks stock_data)) in Hsum.
  set (dist := sector_distribution
                 (collect (A := exact log std str)
                          (valid_stocks stock_data))) in *.
  assert (HT : py_sum_int (PyDict.values dist) <> 0%Z).
  { rewrite Hsum. unfold py_sum_int at 1. simpl.
    destruct (valid_stocks stock_data); [inversion Hv | simpl; lia]. }
  destruct (concentration_exact log std str dist HT Hc) as (HP & Hmem & Hmax).
  split; [|split; [|exact Hmax]].
  - rewrite HP, (percentages_sum log std str). field.
    intros H0. apply HT. unfold Qeq in H0. simpl in H0. lia.
  - apply Hmem. intros Hnil. apply HT. now rewrite Hnil.
Qed.

Lemma sector_percentages_sum_and_maximum_witness :
  exists r,
    portfolio_risk_analysis (A := Samples.exact_arith)
      [("AAPL"%string, Samples.aapl); ("XYZ"%string, Samples.failed)] = Ok r
    /\ py_sum (A := Samples.exact_arith)
         (map snd (sector_percentages
                     (sector_concentration (portfolio_health_indicators r))))
       == 100.
Proof.
  destruct (sector_percentages_sum_and_maximum
              (fun x => x - 1) (fun _ => 0) (fun _ => "0.0"%string)
              [("AAPL"%string, Samples.aapl); ("XYZ"%string, Samples.failed)])
    as (r & Hr & Hsum & _).
  - exists ("AAPL"%string, Samples.aapl). split; [now left | reflexivity].
  - exists r. split; [exact Hr | exact Hsum].
Defined.

(** X14.  In exact arithmetic, for a non-empty list of P/E ratios the
    reported range is made of two of the ratios, every ratio lies in it,
    and so does the reported average; the valuation status is the
    bucket of that average: below 10, from 10 to below 20, from 20 to
    below 30, or 30 and above. *)
Theorem valuation_range_brackets_the_average
  (log : Q -> Q) (std : list Q -> Q) (str : Q -> string)
  (pe : Q) (rest : list Q) :
  let v := _assess_valuation_health (A := exact log std str) (pe :: rest) in
  In (pe_ratio_min v) (pe :: rest)
  /\ In (pe_ratio_max v) (pe :: rest)
  /\ (forall x, In x (pe :: rest) -> pe_ratio_min v <= x <= pe_ratio_max v)
  /\ pe_ratio_min v <= average_pe_ratio v <= pe_ratio_max v
  /\ (average_pe_ratio v < 10 ->
      valuation_status v = "Potentially Undervalued"%string)
  /\ (10 <= average_pe_ratio v < 20 ->
      valuation_status v = "Fairly Valued"%string)
  /\ (20 <= average_pe_ratio v < 30 ->
      valuation_status v = "Slightly Overvalued"%string)
  /\ (30 <= average_pe_ratio v ->
      valuation_status v = "Overvalued"%string).
Proof.
  cbv zeta. unfold _assess_valuation_health.
  cbn [pe_ratio_min pe_ratio_max average_pe_ratio valuation_status].
  destruct (fold_min_spec log std str rest pe) as (Hm1 & Hm2 & Hm3).
  destruct (fold_max_spec log std str rest pe) as (HM1 & HM2 & HM3).
  set (lo := fold_left (py_min (A := exact log std str)) rest pe) in *.
  set (hi := fold_left (py_max (A := exact log std str)) rest pe) in *.
  assert (Hall : Forall (fun x => lo <= x /\ x <= hi) (pe :: rest)).
  { constructor; [split; assumption|].
    rewrite Forall_forall in *. intros x Hx. split; auto. }
  split; [exact Hm3|]. split; [exact HM3|]. split.
  { rewrite Forall_forall in Hall. exact Hall. }
  split.
  { apply (np_mean_bounds log std str); [discriminate | exact Hall]. }
  set (avg := np_mean (A := exact log std str) (pe :: rest)).
  change (of_int (Arith := exact log std str) 10) with 10.
  change (of_int (Arith := exact log std str) 20) with 20.
  change (of_int (Arith := exact log std str) 30) with 30.
  destruct (flt (Arith := exact log std str) avg 10) eqn:E10.
  { apply (flt_exact log std str) in E10.
    repeat split; try reflexivity; intros H;
      exfalso; apply (Qlt_not_le _ _ E10);
      [apply H | apply Qle_trans with 20; [discriminate | apply H]
      | apply Qle_trans with 30; [discriminate | exact H]]. }
  apply (flt_exact_false log std str) in E10.
  assert (fle (Arith := exact log std str) 10 avg = true) as ->
    by (apply Qle_bool_iff; exact E10).
  cbn [andb].
  destruct (flt (Arith := exact log std str) avg 20) eqn:E20.
  { apply (flt_exact log std str) in E20.
    repeat split; try reflexivity; intros H; exfalso.
    - apply (Qlt_not_le _ _ H E10).
    - apply (Qlt_not_le _ _ E20). apply H.
    - apply (Qlt_not_le _ _ E20).
      apply Qle_trans with 30; [discriminate | exact H]. }
  apply (flt_exact_false log std str) in E20.
  assert (fle (Arith := exact log std str) 20 avg = true) as ->
    by (apply Qle_bool_iff; exact E20).
  cbn [andb].
  destruct (flt (Arith := exact log std str) avg 30) eqn:E30.
  { apply (flt_exact log std str) in E30.
    repeat split; try reflexivity; intros H; exfalso.
    - apply (Qlt_not_le _ _ H).
      apply Qle_trans with 20; [discriminate | exact E20].
    - apply (Qlt_not_le avg 20); [apply H | exact E20].
    - apply (Qlt_not_le _ _ E30 H). }
  apply (flt_exact_false log std str) in E30.
  repeat split; try reflexivity; intros H; exfalso.
  - apply (Qlt_not_le _ _ H).
    apply Qle_trans with 30; [discriminate | exact E30].
  - apply (Qlt_not_le avg 20); [apply H|].
    apply Qle_trans with 30; [discriminate | exact E30].
  - apply (Qlt_not_le avg 30); [apply H | exact E30].
Qed.

Lemma valuation_range_brackets_the_average_witness :
  28 <= 28 < 30
  /\ valuation_status
       (_assess_valuation_health (A := Samples.exact_arith) [28])
     = "Slightly Overvalued"%string.
Proof.
  assert (H : 20 <= 28 < 30) by (split; [discriminate | reflexivity]).
  split; [split; [apply Qle_refl | reflexivity]|].
  destruct (valuation_range_brackets_the_average
              (fun x => x - 1) (fun _ => 0) (fun _ => "0.0"%string) 28 [])
    as (_ & _ & _ & _ & _ & _ & Hs & _).
  apply Hs. exact H.
Defined.

End ExactAnalysisProperties.

Module RetrievalProperties.
Import RetrieverAgent.

Section Generic.
Context {F : Type} {A : Arith F}.

Lemma insert_asc_perm (x : nat * F) (l : list (nat * F)) :
  Permutation (insert_asc x l) (x :: l).
Proof.
  induction l as [|y l IH]; simpl; [reflexivity|].
  destruct (flt (snd y) (snd x)); [|reflexivity].
  rewrite IH. apply perm_swap.
Qed.

Lemma rank_perm (l : list (nat * F)) : Permutation (rank l) l.
Proof.
  induction l as [|x l IH]; simpl; [constructor|].
  rewrite insert_asc_perm. now constructor.
Qed.

Lemma map_fst_combine {X Y : Type} (l : list X) (l' : list Y) :
  List.length l = List.length l' -> map fst (combine l l') = l.
Proof.
  revert l'; induction l as [|x l IH]; intros [|y l'] H; simpl in *;
    try discriminate; [reflexivity|].
  f_equal. apply IH. lia.
Qed.


(** The positions ranked by the flat index: each position once. *)
Lemma ranked_positions (index : IndexFlatL2) (query : list F) :
  let scored :=
    combine (seq 0 (List.length (vectors index)))
            (map (l2_distance query) (vectors index)) in
  Permutation (map fst (rank scored)) (seq 0 (List.length (vectors index))).
Proof.
  cbv zeta. rewrite rank_perm, map_fst_combine; [reflexivity|].
  now rewrite length_seq, length_map.
Qed.

Lemma faiss_labels_length (index : IndexFlatL2) (query : list F) (k : nat) :
  List.length (faiss_labels index query k) = k.
Proof.
  unfold faiss_labels.
  rewrite length_app, length_map, length_firstn, repeat_length.
  pose proof (Permutation_length (ranked_positions index query)) as H.
  cbv zeta in H. rewrite !length_map, length_seq in H. rewrite H. lia.
Qed.

Lemma retrieve_all (store : list (@Document F)) (indices : list Z)
  (results : list (@Document F)) :
  (forall i, In i indices ->
             (- Z.of_nat (List.length store) <= i
              < Z.of_nat (List.length store))%Z) ->
  exists found,
    retrieve store indices results = Ok found
    /\ List.length found = (List.length results + List.length indices)%nat
    /\ (forall d, In d found -> In d results \/ In d store).
Proof.
  revert results; induction indices as [|idx rest IH]; intros results H.
  - exists results. simpl. repeat split; auto; lia.
  - cbn [retrieve].
    destruct (Z.ltb_spec idx (Z.of_nat (List.length store))) as [Hlt|Hge].
    + destruct (@SearchFacts.py_getitem_ok _ store idx) as (x & Hx & Hin).
      { apply H. now left. }
      rewrite Hx. cbn [bind].
      destruct (IH (results ++ [x])) as (found & Hf & Hl & Hsub).
      { intros i Hi. apply H. now right. }
      exists found. split; [exact Hf|]. split.
      * rewrite Hl, length_app. simpl. lia.
      * intros d Hd. destruct (Hsub d Hd) as [Hd'|Hd']; [|now right].
        apply in_app_iff in Hd'. destruct Hd' as [Hd'|[<-|[]]]; auto.
    + exfalso. assert (idx < Z.of_nat (List.length store))%Z; [|lia].
      apply H. now left.
Qed.

Lemma embed_documents_prefix (encode : @Encoder F)
  (docs1 : list (@Document F)) (doc : @Document F)
  (docs2 : list (@Document F)) (e : exn)
  (embeddings : list (list F)) (store : list (@Document F)) :
  Forall (fun d => exists v, encode (_document_to_text d) = Ok v) docs1 ->
  encode (_document_to_text doc) = Raise e ->
  embed_documents encode (docs1 ++ doc :: docs2) embeddings store
  = (Raise e, store ++ docs1).
Proof.
  intros H He. revert embeddings store.
  induction H as [|d docs1 [v Hv] _ IH]; intros embeddings store; simpl.
  - now rewrite He, app_nil_r.
  - rewrite Hv, IH, <- app_assoc. reflexivity.
Qed.




End Generic.

(** X15.  A document with a ['ticker'] key always has a non-empty text,
    starting with ["Ticker: "], whatever its other keys and values; a
    document with neither a ['ticker'] nor a ['title'] key has the empty
    text. *)
Theorem document_text_by_kind
  {F : Type} {A : Arith F} (doc : @Document F) :
  (PyDict.contains doc "ticker" = true ->
   exists rest, _document_to_text doc = ("Ticker: " ++ rest)%string)
  /\ (PyDict.contains doc "ticker" = false ->
      PyDict.contains doc "title" = false ->
      _document_to_text doc = EmptyString).
Proof.
  unfold _document_to_text. split.
  - intros ->. cbn [filter py_truthy PyStr.nonempty String.append map py_str
                    PyStr.join].
    eexists. reflexivity.
  - intros -> ->. reflexivity.
Qed.

Lemma document_text_by_kind_witness :
  exists rest,
    _document_to_text (A := Samples.exact_arith)
      [("ticker"%string, PyStr "AAPL"%string)]
    = ("Ticker: " ++ rest)%string.
Proof.
  apply (document_text_by_kind (A := Samples.exact_arith)
           [("ticker"%string, PyStr "AAPL"%string)]).
  reflexivity.
Defined.

(** X16.  After [index_documents] succeeded on a non-empty sequence, with
    an encoder of one dimension, [semantic_search] with a positive
    [top_k] never raises and returns exactly [top_k] documents, each of
    them one of the indexed documents. *)
Theorem search_after_indexing_returns_top_k
  {F : Type} {A : Arith F} (emb : string -> list F) (dim : nat)
  (self : @State F) (docs : list (@Document F)) (query : string)
  (top_k : nat) :
  (forall text, List.length (emb text) = dim) ->
  docs <> [] ->
  top_k <> 0%nat ->
  exists found,
    semantic_search (fun text => Ok (emb text))
      (snd (index_documents (fun text => Ok (emb text)) self docs))
      query top_k
    = Ok found
    /\ List.length found = top_k
    /\ (forall d, In d found -> In d docs).
Proof.
  intros Hdim Hne Hk. destruct docs as [|doc docs]; [congruence|].
  rewrite (@RetrieverFacts.index_documents_total F A emb dim self doc docs
             Hdim).
  cbn [snd]. unfold semantic_search, faiss_search.
  cbn [faiss_index document_store bind dimension].
  rewrite Hdim, Nat.eqb_refl. cbn [negb].
  destruct (Nat.eqb_spec top_k 0) as [->|_]; [congruence|]. cbn [bind].
  set (index := {| dimension := dim;
                   vectors := map (fun d => emb (_document_to_text d))
                                  (doc :: docs) |}).
  destruct (@retrieve_all F (doc :: docs)
              (faiss_labels index (emb query) top_k) [])
    as (found & Hf & Hl & Hsub).
  - intros i Hi. apply SearchFacts.faiss_labels_range in Hi.
    unfold index in Hi. cbn [vectors] in Hi. rewrite length_map in Hi.
    cbn [List.length] in *. lia.
  - exists found. split; [exact Hf|]. split.
    + rewrite Hl, faiss_labels_length. reflexivity.
    + intros d Hd. destruct (Hsub d Hd) as [[]|]; assumption.
Qed.

Lemma search_after_indexing_returns_top_k_witness :
  exists found,
    semantic_search (A := Samples.exact_arith)
      (fun text => Ok [inject_Z (Z.of_nat (String.length text))])
      (snd (index_documents (A := Samples.exact_arith)
              (fun text => Ok [inject_Z (Z.of_nat (String.length text))])
              init [Samples.headline]))
      "earnings" 3
    = Ok found
    /\ List.length found = 3%nat.
Proof.
  destruct (search_after_indexing_returns_top_k (A := Samples.exact_arith)
              (fun text => [inject_Z (Z.of_nat (String.length text))])
              (dim := 1) init (docs := [Samples.headline]) "earnings"
              (top_k := 3))
    as (found & Hf & Hl & _).
  - intros text. reflexivity.
  - discriminate.
  - discriminate.
  - exists found. split; [exact Hf | exact Hl].
Defined.



(** X18.  When the encoder raises at some document, [index_documents]
    raises the same exception, keeps the index it had before, and leaves
    in the store exactly the documents that came before the failing one:
    the previous store is gone although the previous index stays. *)
Theorem failed_indexing_keeps_old_index_and_partial_store
  {F : Type} {A : Arith F} (encode : @Encoder F) (self : @State F)
  (docs1 : list (@Document F)) (doc : @Document F)
  (docs2 : list (@Document F)) (e : exn) :
  Forall (fun d => exists v, encode (_document_to_text d) = Ok v) docs1 ->
  encode (_document_to_text doc) = Raise e ->
  index_documents encode self (docs1 ++ doc :: docs2)
  = (Raise e,
     {| faiss_index := faiss_index self; document_store := docs1 |}).
Proof.
  intros H He. unfold index_documents.
  pose proof (@embed_documents_prefix F A encode docs1 doc docs2 e [] []
                H He) as P.
  destruct (embed_documents encode (docs1 ++ doc :: docs2) [] [])
    as [embedded store] eqn:E.
  pose proof (eq_trans (eq_sym E) P) as Q. injection Q as -> ->.
  reflexivity.
Qed.

Lemma failed_indexing_keeps_old_index_and_partial_store_witness :
  index_documents (A := Samples.exact_arith) Samples.failing_encoder
    {| faiss_index := Some {| dimension := 1; vectors := [[0]] |};
       document_store := [Samples.headline] |}
    ([] ++ Samples.headline :: [])
  = (Raise (ExternalError "embedding model unavailable"),
     {| faiss_index := Some {| dimension := 1; vectors := [[0]] |};
        document_store := [] |}).
Proof.
  apply (failed_indexing_keeps_old_index_and_partial_store
           (A := Samples.exact_arith) Samples.failing_encoder
           {| faiss_index := Some {| dimension := 1; vectors := [[0]] |};
              document_store := [Samples.headline] |}
           (docs1 := []) Samples.headline []).
  - constructor.
  - reflexivity.
Defined.

(** X19.  How one label is mapped to a document, for a store of n
    documents: a label of n or more is skipped; a label from 0 to n-1
    reads that position; a label from -n to -1 is not skipped but reads
    position n + label; a label below -n raises [IndexError]. *)
Theorem label_bounds_of_retrieve
  {F : Type} (store : list (@Document F)) (idx : Z)
  (results : list (@Document F)) :
  let n := Z.of_nat (List.length store) in
  ((n <= idx)%Z -> retrieve store [idx] results = Ok results)
  /\ ((0 <= idx < n)%Z ->
      retrieve store [idx] results
      = Ok (results ++ [nth (Z.to_nat idx) store []]))
  /\ ((- n <= idx < 0)%Z ->
      retrieve store [idx] results
      = Ok (results ++ [nth (Z.to_nat (n + idx)) store []]))
  /\ ((idx < - n)%Z -> retrieve store [idx] results = Raise IndexError).
Proof.
  cbv zeta. cbn [retrieve]. unfold py_getitem.
  set (n := Z.of_nat (List.length store)).
  repeat split; intros H.
  - destruct (Z.ltb_spec idx n); [lia | reflexivity].
  - destruct (Z.ltb_spec idx n); [|lia].
    destruct (Z.ltb_spec idx 0); [lia|].
    destruct (Z.leb_spec 0 idx); [|lia].
    destruct (Z.ltb_spec idx n); [|lia]. cbn [andb].
    destruct (nth_error store (Z.to_nat idx)) as [x|] eqn:E.
    + cbn [bind]. do 3 f_equal. symmetry. exact (nth_error_nth _ _ _ E).
    + apply nth_error_None in E. unfold n in *. lia.
  - destruct (Z.ltb_spec idx n); [|lia].
    destruct (Z.ltb_spec idx 0); [|lia].
    destruct (Z.leb_spec 0 (idx + n)); [|lia].
    destruct (Z.ltb_spec (idx + n) n); [|lia]. cbn [andb].
    rewrite (Z.add_comm n idx).
    destruct (nth_error store (Z.to_nat (idx + n))) as [x|] eqn:E.
    + cbn [bind]. do 3 f_equal. symmetry. exact (nth_error_nth _ _ _ E).
    + apply nth_error_None in E. unfold n in *. lia.
  - destruct (Z.ltb_spec idx n); [|lia].
    destruct (Z.ltb_spec idx 0); [|lia].
    destruct (Z.leb_spec 0 (idx + n)); [lia|]. reflexivity.
Qed.

Lemma label_bounds_of_retrieve_witness :
  (- Z.of_nat (List.length [@Samples.headline]) <= -1 < 0)%Z
  /\ retrieve [Samples.headline] [(-1)%Z] []
     = Ok ([] ++ [nth (Z.to_nat (Z.of_nat (List.length [Samples.headline])
                                 + -1)) [Samples.headline] []]).
Proof.
  assert (H : (- Z.of_nat (List.length [Samples.headline]) <= -1 < 0)%Z)
    by (simpl; lia).
  split; [exact H|].
  destruct (label_bounds_of_retrieve [Samples.headline] (-1) [])
    as (_ & _ & Hneg & _).
  apply Hneg. exact H.
Defined.

End RetrievalProperties.

Module NormalizationProperties.
Import PyStr.

Lemma lstrip_app_nonspace (a : list ascii) (c : ascii) :
  isspace c = false -> lstrip_chars (a ++ [c]) = lstrip_chars a ++ [c].
Proof.
  intros Hc. induction a as [|x a IH]; simpl.
  - now rewrite Hc.
  - destruct (isspace x); [exact IH | reflexivity].
Qed.

Lemma lstrip_head (l : list ascii) :
  lstrip_chars l = []
  \/ exists c m, lstrip_chars l = c :: m /\ isspace c = false.
Proof.
  induction l as [|x l IH]; simpl; [now left|].
  destruct (isspace x) eqn:E; [exact IH|]. right. eauto.
Qed.

Lemma lstrip_fixed (c : ascii) (m : list ascii) :
  isspace c = false -> lstrip_chars (c :: m) = c :: m.
Proof. intros H. simpl. now rewrite H. Qed.

Lemma strip_chars_idempotent (l : list ascii) :
  let stripped := rev (lstrip_chars (rev (lstrip_chars l))) in
  rev (lstrip_chars (rev (lstrip_chars stripped))) = stripped.
Proof.
  cbv zeta. destruct (lstrip_head l) as [->|(c & m & -> & Hc)];
    [reflexivity|].
  cbn [rev]. rewrite (@lstrip_app_nonspace (rev m) c Hc).
  rewrite rev_app_distr. cbn [rev app].
  rewrite (@lstrip_fixed c _ Hc). cbn [rev].
  rewrite rev_involutive.
  destruct (lstrip_head (rev m)) as [E|(d & m' & E & Hd)]; rewrite E.
  - cbn [app]. rewrite (@lstrip_fixed c _ Hc). reflexivity.
  - cbn [app]. rewrite (@lstrip_fixed d _ Hd). cbn [rev].
    now rewrite rev_app_distr.
Qed.

Lemma strip_idempotent (s : string) : strip (strip s) = strip s.
Proof.
  unfold strip. rewrite list_ascii_of_string_of_list_ascii.
  now rewrite strip_chars_idempotent.
Qed.

Lemma isspace_upper_char (c : ascii) : isspace (upper_char c) = isspace c.
Proof. destruct c as [[] [] [] [] [] [] [] []]; reflexivity. Qed.

Lemma upper_char_idempotent (c : ascii) :
  upper_char (upper_char c) = upper_char c.
Proof. destruct c as [[] [] [] [] [] [] [] []]; reflexivity. Qed.

Lemma upper_idempotent (s : string) : upper (upper s) = upper s.
Proof.
  induction s as [|c s IH]; simpl; [reflexivity|].
  now rewrite upper_char_idempotent, IH.
Qed.

Lemma upper_as_map (s : string) :
  upper s = string_of_list_ascii (map upper_char (list_ascii_of_string s)).
Proof. induction s as [|c s IH]; simpl; [reflexivity | now rewrite IH]. Qed.

Lemma lstrip_map_upper (l : list ascii) :
  lstrip_chars (map upper_char l) = map upper_char (lstrip_chars l).
Proof.
  induction l as [|c l IH]; simpl; [reflexivity|].
  rewrite isspace_upper_char. destruct (isspace c); [exact IH | reflexivity].
Qed.

Lemma strip_upper (s : string) : strip (upper s) = upper (strip s).
Proof.
  unfold strip. rewrite !upper_as_map, !list_ascii_of_string_of_list_ascii.
  now rewrite lstrip_map_upper, <- map_rev, lstrip_map_upper, <- map_rev.
Qed.

Lemma split_length (sep : ascii) (s : string) :
  List.length (split sep s)
  = S (List.length (filter (Ascii.eqb sep) (list_ascii_of_string s))).
Proof.
  induction s as [|c s IH]; simpl; [reflexivity|].
  rewrite (Ascii.eqb_sym sep c). destruct (Ascii.eqb c sep); simpl.
  - now rewrite IH.
  - destruct (split sep s); simpl in *; [discriminate | exact IH].
Qed.

(** X20.  Every ticker the resolver returns, from a reply or from the
    fallback, is normalized: upper-casing it or stripping it changes
    nothing.  From a reply the resolver returns one more ticker than the
    stripped reply has commas. *)
Theorem resolved_tickers_are_normalized
  {F : Type} (c : @AgentCoordinator.Collaborators F) (query : string) :
  (forall t,
     In t (AgentCoordinator._extract_tickers_with_gemini c query) ->
     upper t = t /\ strip t = t)
  /\ (forall text,
        AgentCoordinator.generate_content c
          (AgentCoordinator.extraction_prompt query) = Ok text ->
        List.length (AgentCoordinator._extract_tickers_with_gemini c query)
        = S (List.length
               (filter (Ascii.eqb ",")
                       (list_ascii_of_string (strip text))))).
Proof.
  split.
  - intros t Hin.
    destruct (AgentCoordinator.generate_content c
                (AgentCoordinator.extraction_prompt query))
      as [text|e] eqn:Hreply.
    + rewrite (TickerClaims.extract_on_reply c query Hreply) in Hin.
      apply in_map_iff in Hin. destruct Hin as (x & <- & _).
      split; [apply upper_idempotent|].
      now rewrite strip_upper, strip_idempotent.
    + rewrite (TickerClaims.extract_on_error c query Hreply) in Hin.
      simpl in Hin.
      repeat (destruct Hin as [<-|Hin]; [split; reflexivity|]).
      destruct Hin.
  - intros text Hreply.
    rewrite (TickerClaims.extract_on_reply c query Hreply).
    now rewrite length_map, split_length.
Qed.

Lemma resolved_tickers_are_normalized_witness :
  upper "MSFT" = "MSFT"%string /\ strip "MSFT" = "MSFT"%string.
Proof.
  destruct (resolved_tickers_are_normalized
              (Samples.collaborators (Ok " aapl , msft "%string)
                                     Samples.length_encoder)
              "How are Apple and Microsoft doing?") as [H _].
  apply H. right. left. reflexivity.
Defined.

End NormalizationProperties.

Module CoordinatorProperties.
Import AgentCoordinator.

(** X21.  The narrative stage raises [ValueError], whatever the generator
    would answer, as soon as one record without an error marker has no
    ['market_cap'] key: the thousands format is applied to the default
    ['N/A'] while the prompt is built, outside the [try]. *)
Theorem narrative_needs_market_cap
  {F : Type} {A : Arith F} (c : @Collaborators F)
  (stock_data : PyDict.dict (QuoteRecord F))
  (news_data : PyDict.dict (list ScrapingAgent.NewsItem))
  (risk : @AnalysisAgent.AnalysisResults F)
  (found : list (@RetrieverAgent.Document F)) :
  (exists t data,
      In (t, data) stock_data /\ error data = None
      /\ market_cap data = None) ->
  _generate_narrative_with_gemini c stock_data news_data risk found
  = Raise (ValueError "Cannot specify ',' with 's'.").
Proof.
  intros (t & data & Hin & He & Hm).
  unfold _generate_narrative_with_gemini, PyDict.items.
  rewrite (@ResultFacts.map_result_raise _ _ stock_line
             (filter (fun item => no_error (snd item)) stock_data)
             (ValueError "Cannot specify ',' with 's'.")).
  - reflexivity.
  - exists (t, data). split.
    + apply filter_In. split; [exact Hin|]. unfold no_error. simpl.
      now rewrite He.
    + unfold stock_line. now rewrite Hm.
  - intros [t' d'] e' _. unfold stock_line.
    destruct (market_cap d'); simpl; [discriminate|].
    intros H; now injection H as <-.
Qed.

Lemma narrative_needs_market_cap_witness :
  _generate_narrative_with_gemini (A := Samples.exact_arith)
    (Samples.collaborators (Ok "AAPL"%string) Samples.length_encoder)
    [("AAPL"%string, with_market_cap None Samples.aapl)] []
    {| AnalysisAgent.total_stocks := 1;
       AnalysisAgent.risk_metrics :=
         {| AnalysisAgent.total_market_cap := 0;
            AnalysisAgent.avg_market_cap := 0;
            AnalysisAgent.market_cap_std_dev := 0;
            AnalysisAgent.avg_price := 0;
            AnalysisAgent.price_volatility := 0;
            AnalysisAgent.avg_pe_ratio := 0;
            AnalysisAgent.pe_ratio_volatility := 0;
            AnalysisAgent.rm_sector_distribution := [] |};
       AnalysisAgent.portfolio_health_indicators :=
         {| AnalysisAgent.diversification_score := 0;
            AnalysisAgent.sector_concentration :=
              {| AnalysisAgent.most_concentrated_sector := "N/A";
                 AnalysisAgent.most_concentrated_percentage := 0;
                 AnalysisAgent.sector_percentages := [] |};
            AnalysisAgent.market_cap_distribution :=
              {| AnalysisAgent.large_cap_percentage := 0;
                 AnalysisAgent.mid_cap_percentage := 0;
                 AnalysisAgent.small_cap_percentage := 0 |};
            AnalysisAgent.valuation_health :=
              AnalysisAgent._assess_valuation_health
                (A := Samples.exact_arith) [] |} |}
    []
  = Raise (ValueError "Cannot specify ',' with 's'.").
Proof.
  apply (narrative_needs_market_cap (A := Samples.exact_arith)).
  exists "AAPL"%string, (with_market_cap None Samples.aapl).
  split; [left; reflexivity|]. split; reflexivity.
Defined.

(** X22.  On the data a run produces, a generator that raises on every
    prompt never makes the narrative stage raise: the stage returns the
    fixed apology text. *)
Theorem failing_generator_yields_apology
  {F : Type} {A : Arith F} (c : @Collaborators F)
  (stock_data : PyDict.dict (QuoteRecord F))
  (news_data : PyDict.dict (list ScrapingAgent.NewsItem))
  (risk : @AnalysisAgent.AnalysisResults F)
  (found : list (@RetrieverAgent.Document F)) :
  (forall prompt, exists e, generate_content c prompt = Raise e) ->
  Forall APIAgent.settled (PyDict.values stock_data) ->
  (forall d, In d found -> In d (combined_documents stock_data news_data)) ->
  _generate_narrative_with_gemini c stock_data news_data risk found
  = Ok "Unable to generate market brief at this time."%string.
Proof.
  intros Hgen Hp Hf. unfold _generate_narrative_with_gemini.
  edestruct (@PipelineFacts.stock_lines_ok F) as [lines ->]; [exact Hp|].
  edestruct (@PipelineFacts.titles_ok F) as [titles ->]; [exact Hf|].
  cbn [bind].
  destruct (Hgen (narrative_prompt (PyStr.join nl lines)
                    (PyStr.join nl (map news_line (PyDict.items news_data)))
                    (AnalysisAgent.total_stocks risk)
                    (PyStr.join ", " titles))) as [e ->].
  reflexivity.
Qed.

Lemma failing_generator_yields_apology_witness :
  _generate_narrative_with_gemini (A := Samples.exact_arith)
    (Samples.collaborators (Raise (ExternalError "quota"))
                           Samples.length_encoder)
    [("AAPL"%string, Samples.failed)] [("AAPL"%string, [])]
    {| AnalysisAgent.total_stocks := 0;
       AnalysisAgent.risk_metrics :=
         {| AnalysisAgent.total_market_cap := 0;
            AnalysisAgent.avg_market_cap := 0;
            AnalysisAgent.market_cap_std_dev := 0;
            AnalysisAgent.avg_price := 0;
            AnalysisAgent.price_volatility := 0;
            AnalysisAgent.avg_pe_ratio := 0;
            AnalysisAgent.pe_ratio_volatility := 0;
            AnalysisAgent.rm_sector_distribution := [] |};
       AnalysisAgent.portfolio_health_indicators :=
         {| AnalysisAgent.diversification_score := 0;
            AnalysisAgent.sector_concentration :=
              {| AnalysisAgent.most_concentrated_sector := "N/A";
                 AnalysisAgent.most_concentrated_percentage := 0;
                 AnalysisAgent.sector_percentages := [] |};
            AnalysisAgent.market_cap_distribution :=
              {| AnalysisAgent.large_cap_percentage := 0;
                 AnalysisAgent.mid_cap_percentage := 0;
                 AnalysisAgent.small_cap_percentage := 0 |};
            AnalysisAgent.valuation_health :=
              AnalysisAgent._assess_valuation_health
                (A := Samples.exact_arith) [] |} |}
    []
  = Ok "Unable to generate market brief at this time."%string.
Proof.
  apply (failing_generator_yields_apology (A := Samples.exact_arith)).
  - intros prompt. eexists. reflexivity.
  - constructor; [|constructor]. left. eexists. reflexivity.
  - intros d [].
Defined.

(** X23.  Without a non-empty API key, passed or found in the
    environment (an empty string counts as missing), the constructor
    raises [ValueError] before any library is touched.  It succeeds
    exactly when there is such a key, the passed one taking precedence,
    and [genai.configure] on that key, the generative model, the sentence
    transformer and the two Wav2Vec2 parts all load; the coordinator then
    starts with a retriever without index and with an empty store.  The
    first library that fails decides the exception. *)
Theorem constructor_needs_a_nonempty_key
  {F : Type} (lib : Libraries) (gemini_api_key getenv_key : option string) :
  let missing k := k = None \/ k = Some EmptyString in
  let loaded key :=
    genai_configure lib key = Ok tt
    /\ generative_model lib "gemini-2.0-flash" = Ok tt
    /\ sentence_transformer lib "all-MiniLM-L6-v2" = Ok tt
    /\ wav2vec2_for_ctc lib "facebook/wav2vec2-base-960h" = Ok tt
    /\ wav2vec2_processor lib "facebook/wav2vec2-base-960h" = Ok tt in
  (missing gemini_api_key -> missing getenv_key ->
   @__init__ F lib gemini_api_key getenv_key
   = Raise (ValueError
       "Gemini API key is required. Set GEMINI_API_KEY environment variable."))
  /\ (forall self,
        @__init__ F lib gemini_api_key getenv_key = Ok self
        <-> self = RetrieverAgent.init
            /\ exists key,
                 key <> EmptyString
                 /\ (gemini_api_key = Some key
                     \/ (missing gemini_api_key /\ getenv_key = Some key))
                 /\ loaded key)
  /\ (forall key e,
        key <> EmptyString ->
        gemini_api_key = Some key
        \/ (missing gemini_api_key /\ getenv_key = Some key) ->
        genai_configure lib key = Raise e ->
        @__init__ F lib gemini_api_key getenv_key = Raise e)
  /\ (forall key e,
        key <> EmptyString ->
        gemini_api_key = Some key
        \/ (missing gemini_api_key /\ getenv_key = Some key) ->
        genai_configure lib key = Ok tt ->
        generative_model lib "gemini-2.0-flash" = Ok tt ->
        sentence_transformer lib "all-MiniLM-L6-v2" = Raise e ->
        @__init__ F lib gemini_api_key getenv_key = Raise e).
Proof.
  cbv zeta.
  assert (Hkey : forall key, key <> EmptyString ->
            gemini_api_key = Some key
            \/ ((gemini_api_key = None \/ gemini_api_key = Some EmptyString)
                /\ getenv_key = Some key) ->
            @__init__ F lib gemini_api_key getenv_key
            = (_ <- genai_configure lib key ;;
               _ <- generative_model lib "gemini-2.0-flash" ;;
               _ <- sentence_transformer lib "all-MiniLM-L6-v2" ;;
               _ <- wav2vec2_for_ctc lib "facebook/wav2vec2-base-960h" ;;
               _ <- wav2vec2_processor lib "facebook/wav2vec2-base-960h" ;;
               Ok RetrieverAgent.init)).
  { intros key Hne [->|[[->| ->] ->]]; unfold __init__;
      destruct key; try congruence; reflexivity. }
  assert (Hnone : (gemini_api_key = None \/ gemini_api_key = Some EmptyString) ->
            (getenv_key = None \/ getenv_key = Some EmptyString) ->
            @__init__ F lib gemini_api_key getenv_key
            = Raise (ValueError
                "Gemini API key is required. Set GEMINI_API_KEY environment variable.")).
  { intros [->| ->] [->| ->]; reflexivity. }
  split; [exact Hnone|]. split; [|split].
  - intros self. split.
    + intros Hok.
      assert (Hk : exists key, key <> EmptyString
                /\ (gemini_api_key = Some key
                    \/ ((gemini_api_key = None
                         \/ gemini_api_key = Some EmptyString)
                        /\ getenv_key = Some key))).
      { destruct gemini_api_key as [[|a k]|].
        - destruct getenv_key as [[|b k']|].
          + rewrite Hnone in Hok by auto. discriminate.
          + exists (String b k'). split; [discriminate | auto].
          + rewrite Hnone in Hok by auto. discriminate.
        - exists (String a k). split; [discriminate | auto].
        - destruct getenv_key as [[|b k']|].
          + rewrite Hnone in Hok by auto. discriminate.
          + exists (String b k'). split; [discriminate | auto].
          + rewrite Hnone in Hok by auto. discriminate. }
      destruct Hk as (key & Hne & Hsrc).
      rewrite (Hkey key Hne Hsrc) in Hok.
      destruct (genai_configure lib key) as [[]|] eqn:E1; [|discriminate].
      destruct (generative_model lib _) as [[]|] eqn:E2; [|discriminate].
      destruct (sentence_transformer lib _) as [[]|] eqn:E3; [|discriminate].
      destruct (wav2vec2_for_ctc lib _) as [[]|] eqn:E4; [|discriminate].
      destruct (wav2vec2_processor lib _) as [[]|] eqn:E5; [|discriminate].
      simpl in Hok. injection Hok as <-.
      split; [reflexivity|]. exists key. repeat split; auto.
    + intros (-> & key & Hne & Hsrc & E1 & E2 & E3 & E4 & E5).
      rewrite (Hkey key Hne Hsrc), E1, E2, E3, E4, E5. reflexivity.
  - intros key e Hne Hsrc E1.
    rewrite (Hkey key Hne Hsrc), E1. reflexivity.
  - intros key e Hne Hsrc E1 E2 E3.
    rewrite (Hkey key Hne Hsrc), E1, E2, E3. reflexivity.
Qed.

Lemma constructor_needs_a_nonempty_key_witness :
  (forall lib,
      @__init__ Q lib (Some EmptyString) None
      = Raise (ValueError
          "Gemini API key is required. Set GEMINI_API_KEY environment variable."))
  /\ @__init__ Q Samples.loading_libraries (Some EmptyString)
       (Some "secret"%string)
     = Ok RetrieverAgent.init
  /\ @__init__ Q Samples.offline_libraries None (Some "secret"%string)
     = Raise (ExternalError "model download failed").
Proof.
  split; [|split].
  - intros lib.
    destruct (constructor_needs_a_nonempty_key (F := Q) lib
                (Some EmptyString) None) as (Hmissing & _).
    apply Hmissing; [right | left]; reflexivity.
  - destruct (constructor_needs_a_nonempty_key (F := Q)
                Samples.loading_libraries (Some EmptyString)
                (Some "secret"%string)) as (_ & Hok & _).
    apply Hok. split; [reflexivity|]. exists "secret"%string.
    split; [discriminate|].
    split; [right; split; [right|]; reflexivity|].
    repeat split.
  - destruct (constructor_needs_a_nonempty_key (F := Q)
                Samples.offline_libraries None (Some "secret"%string))
      as (_ & _ & _ & Hload).
    apply (Hload "secret"%string);
      [discriminate | right; split; [left|]; reflexivity | reflexivity..].
Defined.

End CoordinatorProperties.

Module ResponseProperties.
Import AgentCoordinator.

(** X24.  Every response of [process_query] has the same shape: the
    quote dictionary and the news dictionary have the same keys, the
    distinct resolved tickers in order of first occurrence; the risk
    analysis is the one of the returned quote records, with
    [total_stocks] the number of records without an error marker; the
    voice field is the fixed output path or absent. *)
Theorem response_shape
  {F : Type} {A : Arith F} (c : @Collaborators F)
  (self : @RetrieverAgent.State F) (query : string) (r : @Response F) :
  process_query c self query = Ok r ->
  PyDict.keys (stock_data r)
  = PyDict.distinct (_extract_tickers_with_gemini c query)
  /\ PyDict.keys (news_data r) = PyDict.keys (stock_data r)
  /\ AnalysisAgent.portfolio_risk_analysis (stock_data r)
     = Ok (risk_analysis r)
  /\ AnalysisAgent.total_stocks (risk_analysis r)
     = List.length (filter (fun item => no_error (snd item)) (stock_data r))
  /\ (voice_response r = Some "output.wav"%string \/ voice_response r = None).
Proof.
  unfold process_query.
  destruct (RetrieverAgent.index_documents _ _ _) as [indexed retriever].
  destruct indexed as [[]|e]; cbn [bind]; [|discriminate].
  destruct (RetrieverAgent.semantic_search _ _ _ _) as [found|e];
    cbn [bind]; [|discriminate].
  destruct (AnalysisAgent.portfolio_risk_analysis _) as [risk|e] eqn:Hrisk;
    cbn [bind]; [|discriminate].
  destruct (_generate_narrative_with_gemini _ _ _ _ _) as [text|e];
    cbn [bind]; [|discriminate].
  intros H; injection H as <-.
  cbn [stock_data news_data risk_analysis voice_response].
  split; [apply FetchClaims.fetch_stock_data_keys|].
  split.
  { now rewrite FetchClaims.fetch_stock_data_keys,
      FetchClaims.crawl_financial_news_keys. }
  split; [exact Hrisk|]. split.
  - now destruct (AnalysisClaims.analysis_fields _ Hrisk) as (Ht & _).
  - unfold VoiceAgent.generate_voice_response, VoiceAgent.text_to_speech.
    destruct (gtts c text "output.wav"%string); cbn; auto.
Qed.

Lemma response_shape_witness :
  exists r,
    process_query (A := Samples.exact_arith)
      (Samples.collaborators (Ok "aapl, msft"%string) Samples.length_encoder)
      RetrieverAgent.init "How are Apple and Microsoft doing?" = Ok r
    /\ PyDict.keys (stock_data r) = ["AAPL"; "MSFT"]%string
    /\ PyDict.keys (news_data r) = PyDict.keys (stock_data r).
Proof.
  destruct (process_query (A := Samples.exact_arith)
              (Samples.collaborators (Ok "aapl, msft"%string)
                                     Samples.length_encoder)
              RetrieverAgent.init "How are Apple and Microsoft doing?")
    as [r|e] eqn:E; [|vm_compute in E; discriminate].
  exists r. split; [reflexivity|].
  destruct (response_shape _ _ _ E) as (Hk & Hn & _).
  split; [exact Hk | exact Hn].
Defined.

(** X25.  Of the documents a run hands to the indexer, those made from
    quote records all have the empty text, because the fetch stores no
    ['ticker'] key; those made from news items have the title and the
    link, the non-empty ones, joined by a space. *)
Theorem texts_of_pipeline_documents
  {F : Type} {A : Arith F} (stock_data : PyDict.dict (QuoteRecord F))
  (news_data : PyDict.dict (list ScrapingAgent.NewsItem))
  (d : @RetrieverAgent.Document F) :
  In d (combined_documents stock_data news_data) ->
  (exists data,
      In data (PyDict.values stock_data) /\ d = quote_document data
      /\ RetrieverAgent._document_to_text d = EmptyString)
  \/ (exists article,
        In article (List.concat (PyDict.values news_data))
        /\ d = news_document article
        /\ RetrieverAgent._document_to_text d
           = PyStr.join " "
               (filter PyStr.nonempty
                       [ScrapingAgent.title article;
                        ScrapingAgent.link article])).
Proof.
  rewrite PipelineFacts.combined_documents_app, in_app_iff.
  intros [H|H]; apply in_map_iff in H; destruct H as (x & <- & Hx).
  - left. exists x. split; [exact Hx|]. split; [reflexivity|].
    apply PipelineFacts.quote_document_text.
  - right. exists x. split; [exact Hx|]. split; [reflexivity|].
    unfold RetrieverAgent._document_to_text, news_document. cbn.
    destruct (ScrapingAgent.title x), (ScrapingAgent.link x); reflexivity.
Qed.

Lemma texts_of_pipeline_documents_witness :
  RetrieverAgent._document_to_text (A := Samples.exact_arith)
    (quote_document Samples.aapl) = EmptyString.
Proof.
  destruct (texts_of_pipeline_documents (A := Samples.exact_arith)
              [("AAPL"%string, Samples.aapl)] []
              (quote_document Samples.aapl))
    as [(data & _ & E & Ht)|(article & [] & _)].
  - left. reflexivity.
  - exact Ht.
Defined.

(** [combine_document_sources] is the concatenation of its sources. *)
Lemma combined_sources_are_concatenated
  {F : Type} (sources : list (list (@RetrieverAgent.Document F))) :
  RetrieverAgent.combine_document_sources sources = List.concat sources.
Proof.
  unfold RetrieverAgent.combine_document_sources.
  assert (forall acc : list (@RetrieverAgent.Document F),
            fold_left (fun combined_docs source => combined_docs ++ source)
                      sources acc
            = acc ++ List.concat sources) as H.
  { induction sources as [|s rest IH]; intros acc; simpl.
    - now rewrite app_nil_r.
    - now rewrite IH, app_assoc. }
  apply H.
Qed.

End ResponseProperties.

Module InsightProperties.
Import InvestmentInsights.

Lemma append_assoc (a b c : string) :
  ((a ++ b) ++ c = a ++ b ++ c)%string.
Proof. induction a as [|x a IH]; simpl; [reflexivity | now rewrite IH]. Qed.

(** X26.  In binary64, when the diversification score of the analysis is
    NaN (the score of a single-sector portfolio), both threshold tests
    fail and the generated insights carry the line for an excellent
    diversification. *)
Theorem nan_score_is_reported_as_excellent
  (log : float -> float) (std : list float -> float) (str : float -> string)
  (format_2f : float -> string)
  (analysis_results : @AnalysisAgent.AnalysisResults float) :
  AnalysisAgent.diversification_score
    (AnalysisAgent.portfolio_health_indicators analysis_results)
  = PrimFloat.nan ->
  exists before after,
    generate_investment_insights (A := binary64 log std str) format_2f
      analysis_results
    = (before
       ++ "- Excellent diversification across different sectors."
       ++ after)%string.
Proof.
  intros Hnan. unfold generate_investment_insights. rewrite Hnan.
  replace (diversification_advice (A := binary64 log std str) PrimFloat.nan)
    with ("- Excellent diversification across different sectors." ++ nl)%string
    by reflexivity.
  lazymatch goal with
  | |- context [ (("- Excellent diversification across different sectors."
                   ++ nl) ++ ?t)%string ] =>
      exists ("Portfolio Investment Insights:" ++ nl ++ nl
              ++ "Diversification Score: " ++ format_2f PrimFloat.nan
              ++ "/100" ++ nl)%string, (nl ++ t)%string
  end.
  rewrite !append_assoc. reflexivity.
Qed.

Lemma nan_score_is_reported_as_excellent_witness :
  exists before after,
    generate_investment_insights
      (A := binary64 (fun x => PrimFloat.sub x 1) (fun _ => 0%float)
                     (fun _ => EmptyString))
      (fun _ => "nan"%string)
      {| AnalysisAgent.total_stocks := 1;
         AnalysisAgent.risk_metrics :=
           {| AnalysisAgent.total_market_cap := 0;
              AnalysisAgent.avg_market_cap := 0%float;
              AnalysisAgent.market_cap_std_dev := 0%float;
              AnalysisAgent.avg_price := 0%float;
              AnalysisAgent.price_volatility := 0%float;
              AnalysisAgent.avg_pe_ratio := 0%float;
              AnalysisAgent.pe_ratio_volatility := 0%float;
              AnalysisAgent.rm_sector_distribution :=
                [("Technology"%string, 1%Z)] |};
         AnalysisAgent.portfolio_health_indicators :=
           {| AnalysisAgent.diversification_score := PrimFloat.nan;
              AnalysisAgent.sector_concentration :=
                {| AnalysisAgent.most_concentrated_sector := "Technology";
                   AnalysisAgent.most_concentrated_percentage := 100%float;
                   AnalysisAgent.sector_percentages :=
                     [("Technology"%string, 100%float)] |};
              AnalysisAgent.market_cap_distribution :=
                {| AnalysisAgent.large_cap_percentage := 100%float;
                   AnalysisAgent.mid_cap_percentage := 0%float;
                   AnalysisAgent.small_cap_percentage := 0%float |};
              AnalysisAgent.valuation_health :=
                {| AnalysisAgent.average_pe_ratio := 28%float;
                   AnalysisAgent.pe_ratio_min := 28%float;
                   AnalysisAgent.pe_ratio_max := 28%float;
                   AnalysisAgent.valuation_status :=
                     "Slightly Overvalued" |} |} |}
    = (before
       ++ "- Excellent diversification across different sectors."
       ++ after)%string.
Proof.
  apply (nan_score_is_reported_as_excellent
           (fun x => PrimFloat.sub x 1) (fun _ => 0%float)
           (fun _ => EmptyString) (fun _ => "nan"%string)).
  reflexivity.
Defined.

End InsightProperties.

Module DegradedAnalysisProperties.
Import AnalysisAgent.

(** X27.  When every record of the batch carries an error marker (or the
    batch is empty), the analysis is the zero-filled bundle: no stocks,
    zero sums, means and deviations, an empty sector distribution, score
    0, sector ['N/A'], all tiers 0 and status ['Insufficient Data']. *)
Theorem all_failed_batch_gives_zero_filled_analysis
  (log : Q -> Q) (std : list Q -> Q) (str : Q -> string)
  (stock_data : PyDict.dict (QuoteRecord Q)) :
  (forall item, In item stock_data -> error (snd item) <> None) ->
  portfolio_risk_analysis (A := exact log std str) stock_data
  = Ok {| total_stocks := 0;
          risk_metrics :=
            {| total_market_cap := 0;
               avg_market_cap := 0;
               market_cap_std_dev := 0;
               avg_price := 0;
               price_volatility := 0;
               avg_pe_ratio := 0;
               pe_ratio_volatility := 0;
               rm_sector_distribution := [] |};
          portfolio_health_indicators :=
            {| diversification_score := 0;
               sector_concentration :=
                 {| most_concentrated_sector := "N/A";
                    most_concentrated_percentage := 0;
                    sector_percentages := [] |};
               market_cap_distribution :=
                 {| large_cap_percentage := 0;
                    mid_cap_percentage := 0;
                    small_cap_percentage := 0 |};
               valuation_health :=
                 {| average_pe_ratio := 0;
                    pe_ratio_min := 0;
                    pe_ratio_max := 0;
                    valuation_status := "Insufficient Data" |} |} |}.
Proof.
  intros Hall. unfold portfolio_risk_analysis.
  rewrite (AnalysisClaims.valid_stocks_none stock_data Hall).
  reflexivity.
Qed.

Lemma all_failed_batch_gives_zero_filled_analysis_witness :
  exists r,
    portfolio_risk_analysis (A := Samples.exact_arith)
      [("XYZ"%string, Samples.failed)] = Ok r
    /\ total_stocks r = 0%nat
    /\ valuation_status (valuation_health (portfolio_health_indicators r))
       = "Insufficient Data"%string.
Proof.
  eexists. split; [|split].
  - apply (all_failed_batch_gives_zero_filled_analysis
             (fun x => x - 1) (fun _ => 0) (fun _ => "0.0"%string)
             [("XYZ"%string, Samples.failed)]).
    intros item [<-|[]]. discriminate.
  - reflexivity.
  - reflexivity.
Defined.

End DegradedAnalysisProperties.
